(** * Zketech battery-tester controller: frame codec, session state machine,
      command layer and safety watcher

    A shallow embedding of [zketech.py] and of the [SafetyWatcher] class and
    the two polling loops of [cmd_control.py], followed by the properties of
    the specification that were checked against it and by further
    properties of the program.

    Conventions of the embedding:
    - Python [int] is [Z]; [//] and [%] by a positive constant are [Z.div]
      and [Z.modulo] (both floor); [^] is [Z.lxor].
    - Python [float] is the kernel's binary64 [float], so that the scaling and
      truncation steps compute exactly what CPython computes.
    - [bytes] is [list byte]; indexing a [bytes] object yields an [int].
    - An exception is an outcome [Raise e]; the attributes of the [Zketech]
      object, the serial port it inherits from and the module logger are
      threaded through a state monad [M] that keeps the state reached when an
      exception escapes.
    - A log line is recorded with its level and the fixed part of its text
      (the interpolated values are dropped). *)

From Stdlib Require Import ZArith QArith Qabs Floats Strings.Byte Lia.
From stdpp Require Import base list strings.

#[local] Open Scope Z_scope.

(** ** Outcomes *)

Inductive exn : Set :=
| TypeError
| ValueError
| IndexError
| OverflowError
| ZeroDivisionError
| AttributeError
| NotImplementedError
| StructError          (* struct.error *)
| PortNotOpenError.    (* serial.PortNotOpenError *)

Inductive res (A : Type) : Type :=
| Ret (a : A)
| Raise (e : exn).
Arguments Ret {A} a.
Arguments Raise {A} e.

#[global] Instance res_ret : MRet res := fun A a => Ret a.
#[global] Instance res_bind : MBind res := fun A B f m =>
  match m with
  | Ret a => f a
  | Raise e => Raise e
  end.

Definition raised {A} (r : res A) : bool :=
  match r with Ret _ => false | Raise _ => true end.

(** ** The fragment of Python arithmetic the program uses *)

Module Py.

(** [float(n)] for an [int] below 2^63 in magnitude (every conversion of
    the program is of a constant or of a value below 61456). *)
Definition float_of_int (n : Z) : float :=
  match n with
  | Z0 => 0%float
  | Zpos _ => PrimFloat.of_uint63 (Uint63.of_Z n)
  | Zneg p => PrimFloat.opp (PrimFloat.of_uint63 (Uint63.of_Z (Zpos p)))
  end.

(** [int(x)] for a [float]: truncation toward zero; [nan] and the
    infinities raise. *)
Definition int_of_float (x : float) : res Z :=
  match Prim2SF x with
  | S754_zero _ => Ret 0
  | S754_finite s m e =>
      let mag := match e with
                 | Z0 => Zpos m
                 | Zpos _ => Zpos m * 2 ^ e
                 | Zneg k => Zpos m / 2 ^ Zpos k
                 end in
      Ret (if s then - mag else mag)
  | S754_infinity _ => Raise OverflowError
  | S754_nan => Raise ValueError
  end.

(** [a / b] on two [int]s. *)
Definition truediv_int_int (a b : Z) : res float :=
  if b =? 0 then Raise ZeroDivisionError
  else Ret (PrimFloat.div (float_of_int a) (float_of_int b)).

(** [a / y] for an [int] and a [float]. *)
Definition truediv_int_float (a : Z) (y : float) : res float :=
  if PrimFloat.eqb y 0%float then Raise ZeroDivisionError
  else Ret (PrimFloat.div (float_of_int a) y).

(** [x * n] for a [float] and an [int]. *)
Definition mul_float_int (x : float) (n : Z) : float :=
  PrimFloat.mul x (float_of_int n).

(** [x < n] for a [float] and an [int]. *)
Definition lt_float_int (x : float) (n : Z) : bool :=
  PrimFloat.ltb x (float_of_int n).

(** [min(a, b)]: [b] when [b < a], otherwise [a]. *)
Definition min (a b : float) : float :=
  if PrimFloat.ltb b a then b else a.

(** Truth value of a [float | None] attribute. *)
Definition truthy (v : option float) : bool :=
  match v with
  | None => false
  | Some x => negb (PrimFloat.eqb x 0%float)
  end.

(** The exact rational a finite [float] stands for ([None] otherwise). *)
Definition Q_of_float (x : float) : option Q :=
  match Prim2SF x with
  | S754_zero _ => Some (0 # 1)
  | S754_finite s m e =>
      let n := if s then Zneg m else Zpos m in
      Some (match e with
            | Z0 => n # 1
            | Zpos k => (n * 2 ^ e) # 1
            | Zneg k => n # (2 ^ k)%positive
            end)
  | _ => None
  end.

End Py.

(** ** Bytes *)

Definition b2z (b : byte) : Z := Z.of_N (Byte.to_N b).

(** One ["B"] field of [struct.pack]: the value must fit an unsigned byte. *)
Definition pack_B (v : Z) : res byte :=
  if (0 <=? v) && (v <? 256) then
    match Byte.of_N (Z.to_N v) with
    | Some b => Ret b
    | None => Raise StructError
    end
  else Raise StructError.

Fixpoint struct_pack (values : list Z) : res (list byte) :=
  match values with
  | [] => Ret []
  | v :: vs => b ← pack_B v; bs ← struct_pack vs; Ret (b :: bs)
  end.

(** [buff[i]], with Python's negative indices. *)
Definition getitem (buff : list byte) (i : Z) : res Z :=
  let n := Z.of_nat (length buff) in
  let j := if i <? 0 then i + n else i in
  if (j <? 0) || (n <=? j) then Raise IndexError
  else match buff !! Z.to_nat j with
       | Some b => Ret (b2z b)
       | None => Raise IndexError
       end.

(** [buff[start:stop]] (step 1), read as the [int]s it iterates over. *)
Definition slice (buff : list byte) (start stop : Z) : list Z :=
  let n := Z.of_nat (length buff) in
  let clamp i := Z.min n (Z.max 0 (if i <? 0 then i + n else i)) in
  let lo := clamp start in
  let hi := clamp stop in
  b2z <$> take (Z.to_nat (hi - lo)) (drop (Z.to_nat lo) buff).

(** [reduce(xor, values)]: no initial value, so an empty sequence raises. *)
Definition reduce_xor (values : list Z) : res Z :=
  match values with
  | [] => Raise TypeError
  | v :: vs => Ret (fold_left Z.lxor vs v)
  end.

(** ** Enumerations

    [E(v)] looks a member up by value and raises [ValueError] when no member
    has it; with two members of one value the first defined is returned (the
    second is an alias of it). *)

Definition enum_lookup {A} (value : A → Z) (members : list A) (v : Z) : res A :=
  match find (λ m, value m =? v) members with
  | Some m => Ret m
  | None => Raise ValueError
  end.

Module DeviceState.
Inductive t : Set := disconnected | idle | monitoring | testing | ending.
Definition value (s : t) : Z :=
  match s with
  | disconnected => 0 | idle => 1 | monitoring => 2 | testing => 3 | ending => 4
  end.
Definition eqb (a b : t) : bool := value a =? value b.
End DeviceState.

Module ProgState.
Inductive t : Set :=
  d_cc | d_cp | c_nimh | c_nicd | c_liion | c_life | c_vrla | c_cv.
Definition value (s : t) : Z :=
  match s with
  | d_cc => 0 | d_cp => 1 | c_nimh => 2 | c_nicd => 3
  | c_liion => 4 | c_life => 5 | c_vrla => 6 | c_cv => 7
  end.
Definition members : list t :=
  [d_cc; d_cp; c_nimh; c_nicd; c_liion; c_life; c_vrla; c_cv].
Definition lookup : Z → res t := enum_lookup value members.
Definition eqb (a b : t) : bool := value a =? value b.
End ProgState.

Definition BEGIN_MARKER : Z := 250.
Definition END_MARKER : Z := 248.

Module ReqCode.
(** [conti_c_cv] has the value of [start_c_cv] in the source
    (0b01111000), so it is an alias of it and not a member of its own. *)
Inductive t : Set :=
| stop_device | stop_test | start_device | mes_resistance | update_test
| calibrate | start_d_cc | start_d_cp | start_c_nimh | start_c_nicd
| start_c_liion | start_c_life | start_c_vrla | start_c_cv
| conti_d_cc | conti_d_cp | conti_c_nimh | conti_c_nicd | conti_c_liion
| conti_c_life | conti_c_vrla.
Definition conti_c_cv : t := start_c_cv.
Definition value (c : t) : Z :=
  match c with
  | stop_device => 6      (* 0b00000110 *)
  | stop_test => 2        (* 0b00000010 *)
  | start_device => 5     (* 0b00000101 *)
  | mes_resistance => 9   (* 0b00001001 *)
  | update_test => 7      (* 0b00000111 *)
  | calibrate => 4        (* 0b00000100 *)
  | start_d_cc => 1       (* 0b00000001 *)
  | start_d_cp => 17      (* 0b00010001 *)
  | start_c_nimh => 33    (* 0b00100001 *)
  | start_c_nicd => 49    (* 0b00110001 *)
  | start_c_liion => 65   (* 0b01000001 *)
  | start_c_life => 81    (* 0b01010001 *)
  | start_c_vrla => 97    (* 0b01100001 *)
  | start_c_cv => 120     (* 0b01111000 *)
  | conti_d_cc => 8       (* 0b00001000 *)
  | conti_d_cp => 24      (* 0b00011000 *)
  | conti_c_nimh => 40    (* 0b00101000 *)
  | conti_c_nicd => 56    (* 0b00111000 *)
  | conti_c_liion => 72   (* 0b01001000 *)
  | conti_c_life => 88    (* 0b01011000 *)
  | conti_c_vrla => 104   (* 0b01101000 *)
  end.
Definition members : list t :=
  [stop_device; stop_test; start_device; mes_resistance; update_test;
   calibrate; start_d_cc; start_d_cp; start_c_nimh; start_c_nicd;
   start_c_liion; start_c_life; start_c_vrla; start_c_cv;
   conti_d_cc; conti_d_cp; conti_c_nimh; conti_c_nicd; conti_c_liion;
   conti_c_life; conti_c_vrla].
Definition lookup : Z → res t := enum_lookup value members.
End ReqCode.

Module StateCode.
Inductive t : Set := init | ended | testing | ending.
Definition value (s : t) : Z :=
  match s with init => 10 | ended => 0 | testing => 1 | ending => 2 end.
Definition name (s : t) : string :=
  match s with
  | init => "init" | ended => "ended" | testing => "testing" | ending => "ending"
  end.
Definition members : list t := [init; ended; testing; ending].
Definition lookup : Z → res t := enum_lookup value members.
End StateCode.

Module ProgCode.
Inductive t : Set :=
  d_cc | d_cp | c_nimh | c_nicd | c_liion | c_life | c_vrla | c_cv.
Definition value (s : t) : Z :=
  match s with
  | d_cc => 0 | d_cp => 1 | c_nimh => 2 | c_nicd => 3
  | c_liion => 4 | c_life => 5 | c_vrla => 6 | c_cv => 7
  end.
Definition members : list t :=
  [d_cc; d_cp; c_nimh; c_nicd; c_liion; c_life; c_vrla; c_cv].
Definition lookup : Z → res t := enum_lookup value members.
End ProgCode.

Module PartNumber.
Inductive t : Set :=
| ebc_a | ebc_ah | ebc_b | ebc_bh | ebc_a05 | ebc_a10h | ebc_a10 | ebc_b10
| ebc_a20 | ebc_a40l | ebd_a | ebd_ah | ebd_b | ebd_bh | ebd_a10 | ebd_a15
| ebd_a2s | ebd_a5s | ebd_a20h.
Definition value (p : t) : Z :=
  match p with
  | ebc_a => 1 | ebc_ah => 2 | ebc_b => 3 | ebc_bh => 4 | ebc_a05 => 5
  | ebc_a10h => 6 | ebc_a10 => 7 | ebc_b10 => 8 | ebc_a20 => 9
  | ebc_a40l => 10 | ebd_a => 11 | ebd_ah => 12 | ebd_b => 13
  | ebd_bh => 14 | ebd_a10 => 15 | ebd_a15 => 16 | ebd_a2s => 17
  | ebd_a5s => 18 | ebd_a20h => 19
  end.
Definition members : list t :=
  [ebc_a; ebc_ah; ebc_b; ebc_bh; ebc_a05; ebc_a10h; ebc_a10; ebc_b10;
   ebc_a20; ebc_a40l; ebd_a; ebd_ah; ebd_b; ebd_bh; ebd_a10; ebd_a15;
   ebd_a2s; ebd_a5s; ebd_a20h].
Definition lookup : Z → res t := enum_lookup value members.
End PartNumber.

(** ** The world: the [Zketech] object, its serial port, the logger *)

Inductive log_level : Set := DEBUG | WARNING.

Record log_record : Set := LogRecord { level : log_level; text : string }.

(** The attributes the [Zketech] class adds to [Serial].  ([battery_type] is
    only ever assigned [None] and never read; it is left out.) *)
Record Session : Set := mkSession {
  device_state : DeviceState.t;
  prog_state : option ProgState.t;
  part_number : option PartNumber.t;
}.

(** The serial port, as much of it as the program observes: whether it is
    open, the bytes waiting in the input buffer, the bytes the device still
    delivers before the next read times out, and the buffers written so far. *)
Record Serial : Set := mkSerial {
  is_open : bool;
  in_buffer : list byte;
  on_wire : list byte;
  written : list (list byte);
}.

Record World : Set := mkWorld {
  zk : Session;
  port : Serial;
  logger : list log_record;
}.

Definition M (A : Type) : Type := World → res A * World.

#[global] Instance M_ret : MRet M := fun A a w => (Ret a, w).
#[global] Instance M_bind : MBind M := fun A B f m w =>
  match m w with
  | (Ret a, w') => f a w'
  | (Raise e, w') => (Raise e, w')
  end.

Definition lift {A} (r : res A) : M A := fun w => (r, w).
Definition raise {A} (e : exn) : M A := fun w => (Raise e, w).

(** [raise v]: only an exception can be raised; anything else is a
    [TypeError]. *)
Definition py_raise {A} (v : option exn) : M A :=
  match v with
  | Some e => raise e
  | None => raise TypeError
  end.

Definition log (l : log_level) (s : string) : M unit :=
  fun w => (Ret (), mkWorld (zk w) (port w) (logger w ++ [LogRecord l s])).
Definition warning : string → M unit := log WARNING.
Definition debug : string → M unit := log DEBUG.

Definition get_session : M Session := fun w => (Ret (zk w), w).
Definition set_session (s : Session) : M unit :=
  fun w => (Ret (), mkWorld s (port w) (logger w)).
Definition set_device_state (d : DeviceState.t) : M unit :=
  s ← get_session; set_session (mkSession d (prog_state s) (part_number s)).
Definition set_prog_state (p : option ProgState.t) : M unit :=
  s ← get_session; set_session (mkSession (device_state s) p (part_number s)).
Definition set_part_number (p : option PartNumber.t) : M unit :=
  s ← get_session; set_session (mkSession (device_state s) (prog_state s) p).

(** *** The [Serial] methods the program calls (pyserial's contract: every
    transfer on a closed port raises [PortNotOpenError]). *)
Module SerialPort.

Definition get : M Serial := fun w => (Ret (port w), w).
Definition put (p : Serial) : M unit :=
  fun w => (Ret (), mkWorld (zk w) p (logger w)).

Definition isOpen : M bool := p ← get; mret (is_open p).

Definition in_waiting : M Z :=
  p ← get;
  if is_open p then mret (Z.of_nat (length (in_buffer p)))
  else raise PortNotOpenError.

Definition reset_input_buffer : M unit :=
  p ← get;
  if is_open p then put (mkSerial true [] (on_wire p) (written p))
  else raise PortNotOpenError.

(** [read(size)]: blocks until [size] bytes have come or the timeout
    expires, and returns what it has by then. *)
Definition read (size : nat) : M (list byte) :=
  p ← get;
  if is_open p then
    let avail := in_buffer p ++ on_wire p in
    put (mkSerial true (drop size avail) [] (written p));;
    mret (take size avail)
  else raise PortNotOpenError.

Definition write (buff : list byte) : M unit :=
  p ← get;
  if is_open p then
    put (mkSerial true (in_buffer p) (on_wire p) (written p ++ [buff]))
  else raise PortNotOpenError.

End SerialPort.


(** ** Frame codec *)

(** [zketech_checksum(buff)]: [reduce(xor, buff) % 240]. *)
Definition zketech_checksum (buff : list Z) : res Z :=
  x ← reduce_xor buff; Ret (x mod 240).

(** [len(buff) in (10, 19)]. *)
Definition len_in_10_19 (buff : list byte) : bool :=
  (Z.of_nat (length buff) =? 10) || (Z.of_nat (length buff) =? 19).

(** [check_buffer_validity(buff)]: each failed test logs its warning and
    returns [False]; the three lookups sit in [try] blocks whose bare
    [except] catches whatever is raised. *)
Definition check_buffer_validity (buff : list byte) : M bool :=
  if negb (len_in_10_19 buff) then
    warning "Buffer's length does not correspond to a request or a response";;
    mret false
  else
  first ← lift (getitem buff 0);
  if negb (first =? BEGIN_MARKER) then
    warning "Buffer's first byte does not correspond to a begin marker";;
    mret false
  else
  last ← lift (getitem buff (-1));
  if negb (last =? END_MARKER) then
    warning "Buffer's last byte does not correspond to a end marker";;
    mret false
  else
  field ← lift (getitem buff (-2));
  computed ← lift (zketech_checksum (slice buff 1 (-2)));
  if negb (field =? computed) then
    _ ← lift (reduce_xor (slice buff 1 (-2)));
    warning "Buffer's computed checksum does not correspond to checksum field value";;
    mret false
  else
  if (Z.of_nat (length buff) =? 10)
     && raised (b ← getitem buff 1; ReqCode.lookup b) then
    warning "Unknown request ReqCode";;
    mret false
  else
  if negb (Z.of_nat (length buff) =? 19) then mret true
  else
  code ← lift (getitem buff 1);
  if raised (StateCode.lookup (code / 10)) then
    warning "Unknown response StateCode";;
    mret false
  else
  if raised (ProgCode.lookup (code mod 10)) then
    warning "Unknown response ProgCode";;
    mret false
  else
  part_number_val ← lift (getitem buff (-3));
  if raised (PartNumber.lookup part_number_val) then
    warning "Unknown zketech part number";;
    mret false
  else mret true.

Module RequestDataSet.

Record t : Set := mk {
  begin_marker : Z;
  req_code : ReqCode.t;
  req_code_val : Z;
  p1 : Z;
  p1_h : Z;
  p1_l : Z;
  p2 : Z;
  p2_h : Z;
  p2_l : Z;
  p3 : Z;
  p3_h : Z;
  p3_l : Z;
  checksum : Z;
  end_marker : Z;
}.

(** [RequestDataSet.__init__] *)
Definition init (req_code : ReqCode.t) (p1 p2 p3 : Z) : res t :=
  if (p1 <? 0) || (p2 <? 0) || (p3 <? 0) then Raise ValueError
  else if (57600 <? p1) || (57600 <? p2) || (57600 <? p3) then Raise ValueError
  else
    let req_code_val := ReqCode.value req_code in
    let p1_h := p1 / 240 in
    let p1_l := p1 mod 240 in
    let p2_h := p2 / 240 in
    let p2_l := p2 mod 240 in
    let p3_h := p3 / 240 in
    let p3_l := p3 mod 240 in
    let values_to_checksum :=
      [req_code_val; p1_h; p1_l; p2_h; p2_l; p3_h; p3_l] in
    checksum ← zketech_checksum values_to_checksum;
    Ret (mk BEGIN_MARKER req_code req_code_val
            p1 p1_h p1_l p2 p2_h p2_l p3 p3_h p3_l
            checksum END_MARKER).

End RequestDataSet.

Module ResponseDataSet.

Record t : Set := mk {
  state_code : StateCode.t;
  prog_code : ProgCode.t;
  i : float;
  u : float;
  c : Z;
  unknown : Z;
  p1 : Z;
  p2 : Z;
  p3 : Z;
  part_number : PartNumber.t;
  checksum : Z;
}.

(** [ResponseDataSet.__init__] *)
Definition init (begin_marker res_code_val i_h i_l u_h u_l c_h c_l
                 unknown_h unknown_l p1_h p1_l p2_h p2_l p3_h p3_l
                 part_number_val checksum end_marker : Z) : res t :=
  state_code ← StateCode.lookup (res_code_val / 10);
  prog_code ← ProgCode.lookup (res_code_val mod 10);
  i ← Py.truediv_int_int (i_h * 240 + i_l) 1000;
  u ← Py.truediv_int_int (u_h * 240 + u_l) 1000;
  let c := c_h * 240 + c_l in
  let unknown := unknown_h * 240 + unknown_l in
  let p1 := p1_h * 240 + p1_l in
  let p2 := p2_h * 240 + p2_l in
  let p3 := p3_h * 240 + p3_l in
  part_number ← PartNumber.lookup part_number_val;
  Ret (mk state_code prog_code i u c unknown p1 p2 p3 part_number checksum).

End ResponseDataSet.

Module RequestFrame.

(** [RequestFrame.get_buffer]: the ten values packed as unsigned bytes; a
    buffer that fails the validity check is replaced by the empty one. *)
Definition get_buffer (data : RequestDataSet.t) : M (list byte) :=
  let values :=
    [RequestDataSet.begin_marker data;
     ReqCode.value (RequestDataSet.req_code data);
     RequestDataSet.p1_h data;
     RequestDataSet.p1_l data;
     RequestDataSet.p2_h data;
     RequestDataSet.p2_l data;
     RequestDataSet.p3_h data;
     RequestDataSet.p3_l data;
     RequestDataSet.checksum data;
     RequestDataSet.end_marker data] in
  buff ← lift (struct_pack values);
  valid ← check_buffer_validity buff;
  if negb valid then mret [] else mret buff.

End RequestFrame.

Module ResponseFrame.

(** [struct.unpack("<" + "B"*19, buff)] followed by the keyword call of the
    constructor: the labels are those of the constructor's parameters, in
    order. *)
Definition unpack_19 (buff : list byte) : res ResponseDataSet.t :=
  match b2z <$> buff with
  | [begin_marker; res_code_val; i_h; i_l; u_h; u_l; c_h; c_l;
     unknown_h; unknown_l; p1_h; p1_l; p2_h; p2_l; p3_h; p3_l;
     part_number_val; checksum; end_marker] =>
      ResponseDataSet.init begin_marker res_code_val i_h i_l u_h u_l c_h c_l
        unknown_h unknown_l p1_h p1_l p2_h p2_l p3_h p3_l
        part_number_val checksum end_marker
  | _ => Raise StructError
  end.

(** [ResponseFrame.get_response_data_set] *)
Definition get_response_data_set (buff : list byte)
  : M (option ResponseDataSet.t) :=
  valid ← check_buffer_validity buff;
  if negb valid then mret None
  else data ← lift (unpack_19 buff); mret (Some data).

End ResponseFrame.

(** ** The [Zketech] class *)

(** [def ZketechParametersError(Exception): pass] is a function definition,
    not a class: a call returns [None], which is no exception. *)
Definition ZketechParametersError (Exception : string) : option exn := None.

Module Zketech.

(** Class attributes, as a fresh instance sees them. *)
Definition defaults : Session := mkSession DeviceState.disconnected None None.

(** [Zketech.__init__], once [Serial.__init__] has returned. *)
Definition init : M unit :=
  open ← SerialPort.isOpen;
  if open : bool then set_device_state DeviceState.idle else mret ().

Definition send_request (req_code : ReqCode.t) (p1 p2 p3 : Z) : M unit :=
  open ← SerialPort.isOpen;
  if negb open then set_device_state DeviceState.disconnected
  else
    data ← lift (RequestDataSet.init req_code p1 p2 p3);
    buff ← RequestFrame.get_buffer data;
    match buff : list byte with
    | [] => mret ()
    | _ =>
        SerialPort.write buff;;
        debug "Sended request to device";;
        debug "Sended buffer"
    end.

Definition read_response : M (option ResponseDataSet.t) :=
  set_part_number None;;
  open ← SerialPort.isOpen;
  if negb open then
    set_device_state DeviceState.disconnected;;
    debug "Tried to read response from a disconnected device";;
    mret None
  else
  waiting ← SerialPort.in_waiting;
  (if 19 <? waiting then SerialPort.reset_input_buffer else mret ());;
  buff ← SerialPort.read 19;
  if Z.of_nat (length buff) =? 0 then
    set_device_state DeviceState.idle;;
    debug "Tried to read response from an idled device";;
    mret None
  else
  valid ← check_buffer_validity buff;
  if negb valid then
    debug "Buffer invalid";;
    mret None
  else
  set_device_state DeviceState.monitoring;;
  data ← ResponseFrame.get_response_data_set buff;
  match data : option ResponseDataSet.t with
  | None => raise AttributeError
  | Some data =>
      set_part_number (Some (ResponseDataSet.part_number data));;
      (if String.eqb (StateCode.name (ResponseDataSet.state_code data)) "testing"
       then set_device_state DeviceState.testing else mret ());;
      (if String.eqb (StateCode.name (ResponseDataSet.state_code data)) "ending"
       then set_device_state DeviceState.ending else mret ());;
      prog ← lift (ProgState.lookup (ProgCode.value (ResponseDataSet.prog_code data)));
      set_prog_state (Some prog);;
      debug "Received response from device";;
      debug "Received buffer";;
      mret (Some data)
  end.

Definition get_device_state : M unit :=
  _ ← read_response; mret ().

Definition start_device : M unit :=
  s ← get_session;
  if negb (DeviceState.eqb (device_state s) DeviceState.idle) then
    warning "A startup of the device was requested while device in wrong state"
  else
    debug "Sending request";;
    send_request ReqCode.start_device 0 0 0.

Definition stop_device : M unit :=
  s ← get_session;
  if negb (DeviceState.eqb (device_state s) DeviceState.monitoring) then
    warning "A stopping of the device was requested while device in wrong state"
  else
    debug "Sending request";;
    send_request ReqCode.stop_device 0 0 0.

Definition stop_test : M unit :=
  s ← get_session;
  if negb (DeviceState.eqb (device_state s) DeviceState.testing) then
    warning "A stopping of a test was requested while device in wrong state"
  else
    debug "Sending request";;
    send_request ReqCode.stop_test 0 0 0.

Definition continue_test : M unit := raise NotImplementedError.

Definition update_test : M unit := raise NotImplementedError.

Definition discharge_cc (current cutoff_voltage : float) (max_duration : Z)
  : M unit :=
  s ← get_session;
  if negb (DeviceState.eqb (device_state s) DeviceState.monitoring) then
    warning "A startup of a test was requested while device in wrong state"
  else if Py.lt_float_int current 0 then
    py_raise (ZketechParametersError "Current shall be positive")
  else if Py.lt_float_int cutoff_voltage 0 then
    py_raise (ZketechParametersError "Cutoff Voltage shall be 1 or more")
  else if max_duration <? 0 then
    py_raise (ZketechParametersError "Max Duration shall be positive")
  else if 999 <? max_duration then
    py_raise (ZketechParametersError "Max Duration shall be inferior to 999")
  else
    p1 ← lift (Py.int_of_float (Py.mul_float_int current 1000));
    p2 ← lift (Py.int_of_float (Py.mul_float_int cutoff_voltage 100));
    let p3 := max_duration in
    debug "Sending request";;
    send_request ReqCode.start_d_cc p1 p2 p3.

Definition discharge_cp (power cutoff_voltage : float) (max_duration : Z)
  : M unit :=
  s ← get_session;
  if negb (DeviceState.eqb (device_state s) DeviceState.monitoring) then
    warning "A startup of a test was requested while device in wrong state"
  else if Py.lt_float_int power 0 then
    py_raise (ZketechParametersError "Power shall be positive")
  else if Py.lt_float_int cutoff_voltage 0 then
    py_raise (ZketechParametersError "Cutoff Voltage shall be 1 or more")
  else if max_duration <? 0 then
    py_raise (ZketechParametersError "Max Duration shall be positive")
  else if 999 <? max_duration then
    py_raise (ZketechParametersError "Max Duration shall be inferior to 999")
  else
    p1 ← lift (Py.int_of_float (Py.mul_float_int power 10));
    p2 ← lift (Py.int_of_float (Py.mul_float_int cutoff_voltage 100));
    let p3 := max_duration in
    debug "Sending request";;
    send_request ReqCode.start_d_cp p1 p2 p3.

Definition _charge_generic (req_code : ReqCode.t) (current : float)
    (nb_cells max_duration : Z) : M unit :=
  s ← get_session;
  if negb (DeviceState.eqb (device_state s) DeviceState.monitoring) then
    warning "A startup of a test was requested while device in wrong state"
  else if Py.lt_float_int current 0 then
    py_raise (ZketechParametersError "Current shall be positive")
  else if nb_cells <? 1 then
    py_raise (ZketechParametersError "Number of cells shall be 1 or more")
  else if max_duration <? 0 then
    py_raise (ZketechParametersError "Max Duration shall be positive")
  else if 999 <? max_duration then
    py_raise (ZketechParametersError "Max Duration shall be inferior to 999")
  else
    p1 ← lift (Py.int_of_float (Py.mul_float_int current 1000));
    let p2 := nb_cells in
    let p3 := max_duration in
    debug "Sending request";;
    send_request req_code p1 p2 p3.

Definition charge_nimh := _charge_generic ReqCode.start_c_nimh.
Definition charge_nicd := _charge_generic ReqCode.start_c_nicd.
Definition charge_liion := _charge_generic ReqCode.start_c_liion.
Definition charge_life := _charge_generic ReqCode.start_c_life.
Definition charge_vrla := _charge_generic ReqCode.start_c_vrla.
Definition charge_cv := _charge_generic ReqCode.start_c_cv.

(** [measure_resistance]: [current] is an [int], in mA. *)
Definition measure_resistance (current : Z) : M (option Z) :=
  s ← get_session;
  if negb (DeviceState.eqb (device_state s) DeviceState.monitoring) then
    warning "A performing of a resistance measurement was requested while device in wrong state";;
    mret None
  else if current <? 0 then
    py_raise (ZketechParametersError "Current shall be positive")
  else if 30000 <? current then
    py_raise (ZketechParametersError "Current shall be inferior to 3 A")
  else
    let p1 := current in
    let p2 := 0 in
    let p3 := 0 in
    debug "Sending request";;
    send_request ReqCode.mes_resistance p1 p2 p3;;
    SerialPort.reset_input_buffer;;
    res ← read_response;
    match res : option ResponseDataSet.t with
    | None =>
        debug "The resistance measurement request got no response";;
        mret None
    | Some res =>
        amps ← lift (Py.truediv_int_int p1 1000);
        ratio ← lift (Py.truediv_int_float (ResponseDataSet.c res) amps);
        r ← lift (Py.int_of_float ratio);
        mret (Some r)
    end.

Definition is_level (level : string) : bool :=
  String.eqb level "lower" || String.eqb level "upper".

Definition calibrate_voltage (voltage : float) (level : string) : M unit :=
  s ← get_session;
  if negb (DeviceState.eqb (device_state s) DeviceState.monitoring) then
    warning "A performing of a voltage calibration was requested while device in wrong state"
  else if Py.lt_float_int voltage 0 then
    py_raise (ZketechParametersError "Voltage shall be positive")
  else if negb (is_level level) then
    py_raise (ZketechParametersError "Level shall be 'lower' or 'upper'")
  else
    raw ← lift (Py.int_of_float (Py.mul_float_int voltage 1000));
    let p1 := raw / 240 in
    let p2 := raw mod 240 * 240 in
    let p3 := 0 in
    let p1 := if String.eqb level "lower" then p1 + 240 * 0 else p1 in
    let p1 := if String.eqb level "upper" then p1 + 240 * 1 else p1 in
    debug "Sending request";;
    send_request ReqCode.calibrate p1 p2 p3;;
    SerialPort.reset_input_buffer.

Definition calibrate_current (current : float) (level : string) : M unit :=
  s ← get_session;
  if negb (DeviceState.eqb (device_state s) DeviceState.testing)
     || negb (match prog_state s with
              | Some p => ProgState.eqb p ProgState.d_cc
              | None => false
              end) then
    warning "A performing of a current calibration was requested while device in wrong state"
  else if Py.lt_float_int current 0 then
    py_raise (ZketechParametersError "Current shall be positive")
  else if negb (is_level level) then
    py_raise (ZketechParametersError "Level shall be 'lower' or 'upper'")
  else
    raw ← lift (Py.int_of_float (Py.mul_float_int current 1000));
    let p1 := raw / 240 in
    let p2 := raw mod 240 * 240 in
    let p3 := 0 in
    let p1 := if String.eqb level "lower" then p1 + 240 * 2 else p1 in
    let p1 := if String.eqb level "upper" then p1 + 240 * 3 else p1 in
    debug "Sending request";;
    send_request ReqCode.calibrate p1 p2 p3;;
    SerialPort.reset_input_buffer.

End Zketech.

(** ** The safety watcher ([cmd_control.py]) *)

Module SafetyWatcher.

Record t : Set := mk {
  min_voltage : option float;
  min_current : option float;
  last_voltage : option float;
  last_current : option float;
}.

(** Class attributes, as a fresh instance sees them. *)
Definition fresh : t := mk None None None None.

(** [update(resp)]: the value returned ([None] or [False]) and the watcher
    afterwards.  (The last [match] only unpacks the four attributes: past
    the two truth tests both minima hold a number, and both last values
    have just been assigned.) *)
Definition update (self : t) (resp : ResponseDataSet.t) : option bool * t :=
  let self :=
    if negb (String.eqb (StateCode.name (ResponseDataSet.state_code resp)) "testing")
    then mk None None (last_voltage self) (last_current self)
    else self in
  if negb (Py.truthy (min_voltage self)) || negb (Py.truthy (min_current self))
  then (None, self)
  else
    let self := mk (min_voltage self) (min_current self)
                   (Some (ResponseDataSet.u resp)) (Some (ResponseDataSet.i resp)) in
    if negb (Py.truthy (min_voltage self) && Py.truthy (min_current self)) then
      (Some false,
       mk (last_voltage self) (last_current self)
          (last_voltage self) (last_current self))
    else
      match min_voltage self, last_voltage self,
            min_current self, last_current self with
      | Some mv, Some lv, Some mc, Some lc =>
          (None, mk (Some (Py.min mv lv)) (Some (Py.min mc lc))
                    (last_voltage self) (last_current self))
      | _, _, _, _ => (None, self)
      end.

(** [check_charging_current_increase()]: [None] when a value is missing. *)
Definition check_charging_current_increase (self : t) : option bool :=
  if negb (Py.truthy (last_current self)) then None
  else if negb (Py.truthy (min_current self)) then None
  else
    match last_current self, min_current self with
    | Some lc, Some mc =>
        Some (PrimFloat.ltb (PrimFloat.add mc 0x1.999999999999ap-5%float) lc)
    | _, _ => None
    end.

(** [check()] *)
Definition check (self : t) : bool :=
  match check_charging_current_increase self with
  | Some true => true
  | _ => false
  end.

(** The polling loops of the menu feed every response to [update] and then
    ask [check]; this is the list of the answers. *)
Fixpoint watch (self : t) (resps : list ResponseDataSet.t) : list bool :=
  match resps with
  | [] => []
  | r :: rs =>
      let self := (update self r).2 in
      check self :: watch self rs
  end.

End SafetyWatcher.

(** ** Entry points, as the menu reaches them *)

Inductive command : Type :=
| StartDevice
| StopDevice
| StopTest
| DischargeCC (current cutoff_voltage : float) (max_duration : Z)
| DischargeCP (power cutoff_voltage : float) (max_duration : Z)
| Charge (req_code : ReqCode.t) (current : float) (nb_cells max_duration : Z)
| MeasureResistance (current : Z)
| CalibrateVoltage (voltage : float) (level : string)
| CalibrateCurrent (current : float) (level : string).

(** The value an entry point hands back: [measure_resistance] returns an
    [int] or [None], the others return [None]. *)
Definition execute (cmd : command) : M (option Z) :=
  match cmd with
  | StartDevice => Zketech.start_device;; mret None
  | StopDevice => Zketech.stop_device;; mret None
  | StopTest => Zketech.stop_test;; mret None
  | DischargeCC current cutoff_voltage max_duration =>
      Zketech.discharge_cc current cutoff_voltage max_duration;; mret None
  | DischargeCP power cutoff_voltage max_duration =>
      Zketech.discharge_cp power cutoff_voltage max_duration;; mret None
  | Charge req_code current nb_cells max_duration =>
      Zketech._charge_generic req_code current nb_cells max_duration;; mret None
  | MeasureResistance current => Zketech.measure_resistance current
  | CalibrateVoltage voltage level =>
      Zketech.calibrate_voltage voltage level;; mret None
  | CalibrateCurrent current level =>
      Zketech.calibrate_current current level;; mret None
  end.

(** The first two steps of [send_request]: descriptor, then buffer. *)
Definition encode (req_code : ReqCode.t) (p1 p2 p3 : Z) : M (list byte) :=
  data ← lift (RequestDataSet.init req_code p1 p2 p3);
  RequestFrame.get_buffer data.

(** A polling loop: [n] calls of [read_response] in a row. *)
Fixpoint poll (n : nat) (w : World) : World :=
  match n with
  | O => w
  | S n => poll n (Zketech.read_response w).2
  end.

(** ** The polling loops of the menu ([cmd_control.py])

    [zk] and [device] are the one [Zketech] object and [sw] the one watcher
    of the program.  What the menu prints and what it hands to its own
    logger is not part of the world and is left out. *)

Definition BLOCKING_SAFETY_WATCHER : bool := true.

(** [DeviceState.name] *)
Definition device_state_name (s : DeviceState.t) : string :=
  match s with
  | DeviceState.disconnected => "disconnected"
  | DeviceState.idle => "idle"
  | DeviceState.monitoring => "monitoring"
  | DeviceState.testing => "testing"
  | DeviceState.ending => "ending"
  end.

(** [name in names], for a tuple of strings. *)
Definition name_in (name : string) (names : list string) : bool :=
  existsb (String.eqb name) names.

Module ContinuousRead.

(** One turn of the [while True] loop: whether the loop goes on, and the
    watcher afterwards. *)
Definition turn (sw : SafetyWatcher.t) : M (bool * SafetyWatcher.t) :=
  resp ← Zketech.read_response;
  s ← get_session;
  if name_in (device_state_name (device_state s)) ["disconnected"; "idle"] then
    mret (false, sw)
  else
    match resp : option ResponseDataSet.t with
    | Some resp =>
        let sw := (SafetyWatcher.update sw resp).2 in
        (if SafetyWatcher.check sw then
           if BLOCKING_SAFETY_WATCHER then Zketech.stop_test else mret ()
         else mret ());;
        mret (true, sw)
    | None => mret (true, sw)
    end.

(** [ContinuousRead.__init__]: the loop, cut after [fuel] turns; [None]
    when it has not returned by then. *)
Fixpoint init (fuel : nat) (sw : SafetyWatcher.t) : M (option SafetyWatcher.t) :=
  match fuel with
  | O => mret None
  | S fuel =>
      r ← turn sw;
      if (r : bool * SafetyWatcher.t).1 then init fuel r.2 else mret (Some r.2)
  end.

End ContinuousRead.

Module ContinuousReadDuringTest.

(** One turn of the [while True] loop.  (A state named ending only makes
    the menu print that the test has reached its end.) *)
Definition turn (sw : SafetyWatcher.t) : M (bool * SafetyWatcher.t) :=
  resp ← Zketech.read_response;
  s ← get_session;
  if name_in (device_state_name (device_state s))
       ["disconnected"; "idle"; "monitoring"] then
    mret (false, sw)
  else
    (if name_in (device_state_name (device_state s)) ["ending"]
     then mret () else mret ());;
    match resp : option ResponseDataSet.t with
    | Some resp =>
        let sw := (SafetyWatcher.update sw resp).2 in
        (if SafetyWatcher.check sw then
           if BLOCKING_SAFETY_WATCHER then Zketech.stop_test else mret ()
         else mret ());;
        mret (true, sw)
    | None => mret (true, sw)
    end.

(** [ContinuousReadDuringTest.__init__]: the loop, cut after [fuel] turns. *)
Fixpoint init (fuel : nat) (sw : SafetyWatcher.t) : M (option SafetyWatcher.t) :=
  match fuel with
  | O => mret None
  | S fuel =>
      r ← turn sw;
      if (r : bool * SafetyWatcher.t).1 then init fuel r.2 else mret (Some r.2)
  end.

End ContinuousReadDuringTest.

(** * Vocabulary of the properties

    The definitions below are not in the source.  Some spell out words of
    the specification that the program is compared with (the operation
    table, rounding, the calibration offsets, the response fixture, the
    safety monitor); the others name what the statements and their proofs
    talk about (the buffer a read returns, the world after a log line,
    sample frames, checks run over a range of values). *)

(** The world after one more log line. *)
Definition logged (l : log_level) (s : string) (w : World) : World :=
  mkWorld (zk w) (port w) (logger w ++ [LogRecord l s]).

(** XOR-reduce of a payload. *)
Definition xor_all (values : list Z) : Z := fold_left Z.lxor values 0.

(** The buffer the read of [read_response] returns on an open port: a backlog
    of more than one frame is discarded first, then up to 19 bytes are
    taken. *)
Definition next_read (p : Serial) : list byte :=
  take 19 ((if 19 <? Z.of_nat (length (in_buffer p)) then [] else in_buffer p)
           ++ on_wire p).

(** Parameter constraints of the operation table. *)
Definition out_of_range (cmd : command) : bool :=
  match cmd with
  | StartDevice | StopDevice | StopTest => false
  | DischargeCC current cutoff_voltage max_duration =>
      Py.lt_float_int current 0 || Py.lt_float_int cutoff_voltage 0
      || (max_duration <? 0) || (999 <? max_duration)
  | DischargeCP power cutoff_voltage max_duration =>
      Py.lt_float_int power 0 || Py.lt_float_int cutoff_voltage 0
      || (max_duration <? 0) || (999 <? max_duration)
  | Charge _ current nb_cells max_duration =>
      Py.lt_float_int current 0 || (nb_cells <? 1)
      || (max_duration <? 0) || (999 <? max_duration)
  | MeasureResistance current => (current <? 0) || (30000 <? current)
  | CalibrateVoltage voltage level =>
      Py.lt_float_int voltage 0 || negb (Zketech.is_level level)
  | CalibrateCurrent current level =>
      Py.lt_float_int current 0 || negb (Zketech.is_level level)
  end.

(** Required prior state of the operation table. *)
Definition required_state (cmd : command) (s : Session) : bool :=
  match cmd with
  | StartDevice => DeviceState.eqb (device_state s) DeviceState.idle
  | StopTest => DeviceState.eqb (device_state s) DeviceState.testing
  | CalibrateCurrent _ _ =>
      DeviceState.eqb (device_state s) DeviceState.testing
      && match prog_state s with
         | Some p => ProgState.eqb p ProgState.d_cc
         | None => false
         end
  | _ => DeviceState.eqb (device_state s) DeviceState.monitoring
  end.

(** [round(x)] of a [float]: the nearest [int], ties to even. *)
Definition round_float (x : float) : res Z :=
  match Prim2SF x with
  | S754_zero _ => Ret 0
  | S754_finite s m e =>
      let mag := match e with
                 | Z0 => Zpos m
                 | Zpos _ => Zpos m * 2 ^ e
                 | Zneg k =>
                     let d := 2 ^ Zpos k in
                     let q := Zpos m / d in
                     let r := Zpos m mod d in
                     if 2 * r <? d then q
                     else if d <? 2 * r then q + 1
                     else if Z.even q then q else q + 1
                 end in
      Ret (if s then - mag else mag)
  | S754_infinity _ => Raise OverflowError
  | S754_nan => Raise ValueError
  end.

Inductive channel : Set := Voltage | Current.

(** Offset 0 (voltage, lower), 1 (voltage, upper), 2 (current, lower),
    3 (current, upper). *)
Definition calibration_offset (ch : channel) (level : string) : Z :=
  match ch with
  | Voltage => if String.eqb level "upper" then 1 else 0
  | Current => if String.eqb level "upper" then 3 else 2
  end.

(** The calibration parameters from a raw value: [p1 = raw div 240 +
    240*offset], [p2 = (raw mod 240) * 240], [p3 = 0]. *)
Definition calibration_params (raw offset : Z) : Z * Z * Z :=
  (raw / 240 + 240 * offset, raw mod 240 * 240, 0).

(** The specification's reading: [raw = round(value*1000)]. *)
Definition spec_calibration_params (ch : channel) (value : float)
    (level : string) : res (Z * Z * Z) :=
  raw ← round_float (Py.mul_float_int value 1000);
  Ret (calibration_params raw (calibration_offset ch level)).

Definition calibrate (ch : channel) (value : float) (level : string) : M unit :=
  match ch with
  | Voltage => Zketech.calibrate_voltage value level
  | Current => Zketech.calibrate_current value level
  end.

Definition calibration_ready (ch : channel) (s : Session) : bool :=
  match ch with
  | Voltage => required_state (CalibrateVoltage 0%float "lower") s
  | Current => required_state (CalibrateCurrent 0%float "lower") s
  end.

(** A 19-byte response fixture in the wire format of the specification:
    [[250, statusProg, i_hi, i_lo, u_hi, u_lo, c_hi, c_lo, unk_hi, unk_lo,
      p1_hi, p1_lo, p2_hi, p2_lo, p3_hi, p3_lo, model, checksum, 248]],
    each pair being the [div 240] / [mod 240] split of a raw value. *)
Definition fixture_values (status : StateCode.t) (prog : ProgCode.t)
    (i_raw u_raw c unknown p1 p2 p3 : Z) (model : PartNumber.t) : list Z :=
  let payload :=
    [StateCode.value status * 10 + ProgCode.value prog;
     i_raw / 240; i_raw mod 240; u_raw / 240; u_raw mod 240;
     c / 240; c mod 240; unknown / 240; unknown mod 240;
     p1 / 240; p1 mod 240; p2 / 240; p2 mod 240; p3 / 240; p3 mod 240;
     PartNumber.value model] in
  [BEGIN_MARKER] ++ payload ++ [xor_all payload mod 240; END_MARKER].

(** Does [x] lie within 1/1000 of [raw/1000]? *)
Definition within_tolerance (x : float) (raw : Z) : bool :=
  match Py.Q_of_float x with
  | Some q => Qle_bool (Qabs (q - (raw # 1000))) (1 # 1000)
  | None => false
  end.

(** [raw / 1000] as [ResponseDataSet.__init__] computes it. *)
Definition scaled (raw : Z) : float :=
  PrimFloat.div (Py.float_of_int raw) (Py.float_of_int 1000).

(** The port after the read of [read_response]: what was not taken stays in
    the input buffer. *)
Definition after_read (p : Serial) : Serial :=
  mkSerial true
    (drop 19 ((if 19 <? Z.of_nat (length (in_buffer p)) then [] else in_buffer p)
              ++ on_wire p))
    [] (written p).

(** Checking a property of every value of a range by running it: the
    range is halved along the binary digits of its length. *)
Fixpoint all_in (f : Z → bool) (lo : Z) (len : positive) : bool :=
  match len with
  | xH => f lo
  | xO p => all_in f lo p && all_in f (lo + Zpos p) p
  | xI p => f lo && all_in f (lo + 1) p && all_in f (lo + 1 + Zpos p) p
  end.

(** The session state a decoded status leads to. *)
Definition session_state_of (s : StateCode.t) : DeviceState.t :=
  match s with
  | StateCode.testing => DeviceState.testing
  | StateCode.ending => DeviceState.ending
  | _ => DeviceState.monitoring
  end.

(** *** Sample values *)

(** A response reporting status testing (1), program constant-current
    discharge (0), all metrics zero, model EBC-A05 (5). *)
Definition testing_frame : list byte :=
  [xfa; x0a; x00; x00; x00; x00; x00; x00; x00; x00; x00; x00; x00; x00; x00;
   x00; x05; x0f; xf8].

(** A session in state [s] on an open port, [wire] being what the device
    sends next. *)
Definition world_at (s : DeviceState.t) (wire : list byte) : World :=
  mkWorld (mkSession s (Some ProgState.d_cc) (Some PartNumber.ebc_a05))
    (mkSerial true [] wire []) [].

(** The [float] nearest to 1.001, as [float("1.001")] reads it. *)
Definition volts_1_001 : float := 0x1.004189374bc6ap+0%float.

(** A response like [testing_frame] with capacity 500 (bytes 2 and 20). *)
Definition capacity_500_frame : list byte :=
  [xfa; x0a; x00; x00; x00; x00; x02; x14; x00; x00; x00; x00; x00; x00; x00;
   x00; x05; x19; xf8].

(** The calibrate request of parameters 4, 9600, 0, as the program writes
    it: a valid 10-byte frame. *)
Definition calibrate_frame : list byte :=
  [xfa; x04; x00; x04; x28; x00; x00; x00; x28; xf8].

(** Is [current / 1000] different from zero? *)
Definition amps_nonzero (current : Z) : bool :=
  negb (PrimFloat.eqb (scaled current) 0%float).

(** The safety monitor as the specification words it, over the minima
    tracked while armed ([None] when disarmed or not yet seeded): on leaving
    the testing status everything is discarded; the first sample while
    armed seeds the minima and reports no anomaly; every later sample
    updates [minimum = min(minimum, last)] on both channels and reports an
    anomaly when [last_current > min_current + 0.05]. *)
Definition spec_monitor_step (minima : option (float * float))
    (resp : ResponseDataSet.t) : bool * option (float * float) :=
  if negb (String.eqb (StateCode.name (ResponseDataSet.state_code resp)) "testing")
  then (false, None)
  else
    match minima with
    | None => (false, Some (ResponseDataSet.i resp, ResponseDataSet.u resp))
    | Some (min_current, min_voltage) =>
        let min_current := Py.min min_current (ResponseDataSet.i resp) in
        let min_voltage := Py.min min_voltage (ResponseDataSet.u resp) in
        (PrimFloat.ltb (PrimFloat.add min_current 0x1.999999999999ap-5%float)
           (ResponseDataSet.i resp),
         Some (min_current, min_voltage))
    end.

Fixpoint spec_monitor (minima : option (float * float))
    (resps : list ResponseDataSet.t) : list bool :=
  match resps with
  | [] => []
  | r :: rs =>
      let (anomaly, minima) := spec_monitor_step minima r in
      anomaly :: spec_monitor minima rs
  end.

(** A decoded response with status testing, a current of [i_raw] mA and a
    voltage of 4.2 V. *)
Definition sample (i_raw : Z) : ResponseDataSet.t :=
  ResponseDataSet.mk StateCode.testing ProgCode.c_liion
    (scaled i_raw) (scaled 4200) 0 0 0 0 0 PartNumber.ebc_a05 0.

(** Is [x] a positive finite number with a mantissa below 2^53 and an
    exponent within 100 of zero? *)
Definition positive_shape (x : float) : bool :=
  match Prim2SF x with
  | S754_finite false m e => (Zpos m <? 2 ^ 53) && (-100 <=? e) && (e <=? 100)
  | _ => false
  end.

(** Is [x] the positive zero or of [positive_shape]? *)
Definition nonneg_shape (x : float) : bool :=
  match Prim2SF x with
  | S754_zero false => true
  | _ => positive_shape x
  end.

(** [w'] differs from [w] on the port by at most one more written buffer,
    ten bytes long and accepted by the validity check. *)
Definition one_frame_more (w w' : World) : Prop :=
  written (port w') = written (port w)
  ∨ ∃ buff, written (port w') = written (port w) ++ [buff]
            ∧ length buff = 10%nat
            ∧ ∀ w0, check_buffer_validity buff w0 = (Ret true, w0).

(** Does flipping the four high bits of [x] leave [x mod 240] as it is
    exactly when [x] is below 16 or at least 240? *)
Definition flip_collides (x : Z) : bool :=
  Bool.eqb (Z.lxor x 240 mod 240 =? x mod 240) ((x <? 16) || (240 <=? x)).

(** * Properties *)

Ltac munfold :=
  unfold mbind, mret, M_bind, M_ret, res_bind, res_ret, lift, raise, py_raise,
    warning, debug, log, logged, get_session, set_session, set_device_state,
    set_prog_state, set_part_number.

Ltac sunfold :=
  unfold SerialPort.isOpen, SerialPort.in_waiting, SerialPort.reset_input_buffer,
    SerialPort.read, SerialPort.write, SerialPort.get, SerialPort.put.

(** ** Bytes and packing *)

Lemma b2z_range (b : byte) : 0 ≤ b2z b < 256.
Proof.
  unfold b2z. pose proof (Byte.to_N_bounded b). lia.
Qed.

Lemma pack_B_ok (v : Z) :
  0 ≤ v < 256 → ∃ b, pack_B v = Ret b ∧ b2z b = v.
Proof.
  intros Hv. unfold pack_B.
  replace ((0 <=? v) && (v <? 256)) with true by lia.
  destruct (Byte.of_N (Z.to_N v)) as [b|] eqn:E.
  - exists b. split; [done|].
    unfold b2z. apply Byte.to_of_N in E. lia.
  - apply Byte.of_N_None_iff in E. lia.
Qed.

Lemma b2z_inj (a b : byte) : b2z a = b2z b → a = b.
Proof.
  unfold b2z. intros H.
  assert (E : Byte.to_N a = Byte.to_N b) by lia.
  pose proof (Byte.of_to_N a) as Ha. rewrite E, Byte.of_to_N in Ha.
  congruence.
Qed.

(** ** XOR-reduce *)

Ltac xor_solve :=
  apply Z.bits_inj'; intros ? ?; rewrite !Z.lxor_spec;
  repeat match goal with |- context [Z.testbit ?a ?n] => destruct (Z.testbit a n) end;
  reflexivity.


Lemma fold_left_lxor (l : list Z) (a : Z) :
  fold_left Z.lxor l a = Z.lxor a (xor_all l).
Proof.
  unfold xor_all. revert a. induction l as [|x l IH]; intros a; simpl.
  - by rewrite Z.lxor_0_r.
  - rewrite IH, (IH (Z.lxor 0 x)), Z.lxor_0_l, Z.lxor_assoc. done.
Qed.

Lemma xor_all_cons (x : Z) (l : list Z) :
  xor_all (x :: l) = Z.lxor x (xor_all l).
Proof.
  unfold xor_all at 1. simpl. by rewrite fold_left_lxor, Z.lxor_0_l.
Qed.

Lemma reduce_xor_cons (x : Z) (l : list Z) :
  reduce_xor (x :: l) = Ret (xor_all (x :: l)).
Proof.
  simpl. by rewrite fold_left_lxor, xor_all_cons.
Qed.

Lemma reduce_xor_bytes (b : byte) (l : list byte) :
  reduce_xor (b2z <$> b :: l) = Ret (xor_all (b2z <$> b :: l)).
Proof. apply reduce_xor_cons. Qed.

Lemma zketech_checksum_bytes (b : byte) (l : list byte) :
  zketech_checksum (b2z <$> b :: l) = Ret (xor_all (b2z <$> b :: l) mod 240).
Proof. unfold zketech_checksum. by rewrite reduce_xor_bytes. Qed.

Lemma xor_all_insert (l : list Z) (j : nat) (x y : Z) :
  l !! j = Some x →
  xor_all (<[j:=y]> l) = Z.lxor (xor_all l) (Z.lxor x y).
Proof.
  revert j. induction l as [|a l IH]; intros [|j] Hj; simplify_eq/=.
  - rewrite !xor_all_cons. xor_solve.
  - rewrite !xor_all_cons, (IH _ Hj). xor_solve.
Qed.

Lemma lxor_byte_range (a b : Z) :
  0 ≤ a < 256 → 0 ≤ b < 256 → 0 ≤ Z.lxor a b < 256.
Proof.
  intros Ha Hb.
  assert (H0 : 0 ≤ Z.lxor a b) by (apply Z.lxor_nonneg; lia).
  split; [done|].
  destruct (Z.eq_dec (Z.lxor a b) 0) as [->|Hn]; [lia|].
  assert (La : Z.log2 a < 8).
  { destruct (Z.eq_dec a 0) as [->|]; [done|]. apply Z.log2_lt_pow2; lia. }
  assert (Lb : Z.log2 b < 8).
  { destruct (Z.eq_dec b 0) as [->|]; [done|]. apply Z.log2_lt_pow2; lia. }
  pose proof (Z.log2_lxor a b ltac:(lia) ltac:(lia)).
  change 256 with (2 ^ 8). apply Z.log2_lt_pow2; lia.
Qed.

Lemma xor_all_range (l : list Z) :
  Forall (λ v, 0 ≤ v < 256) l → 0 ≤ xor_all l < 256.
Proof.
  induction 1 as [|x l Hx _ IH].
  - done.
  - rewrite xor_all_cons. by apply lxor_byte_range.
Qed.

Lemma xor_all_bytes_range (l : list byte) : 0 ≤ xor_all (b2z <$> l) < 256.
Proof.
  apply xor_all_range, Forall_fmap, Forall_forall. intros b _. apply b2z_range.
Qed.

Lemma lxor_low_nibble (x : Z) : 0 ≤ x < 16 → Z.lxor x (x + 240) = 240.
Proof.
  intros Hx.
  assert (E : x = Z.of_nat (Z.to_nat x)) by lia.
  assert (Hn : (Z.to_nat x < 16)%nat) by lia.
  revert E Hn. generalize (Z.to_nat x). intros n -> Hn.
  do 16 (destruct n as [|n]; [reflexivity|]). lia.
Qed.

(** Two different values below 256 with the same residue modulo 240 differ
    exactly in their high nibble. *)
Lemma mod240_collision (x d : Z) :
  0 ≤ x < 256 → 0 ≤ d < 256 → d ≠ 0 → d ≠ 240 →
  Z.lxor x d mod 240 ≠ x mod 240.
Proof.
  intros Hx Hd Hd0 Hd240 E.
  pose proof (lxor_byte_range x d Hx Hd) as Hy.
  assert (Ed : Z.lxor x (Z.lxor x d) = d)
    by (by rewrite <- Z.lxor_assoc, Z.lxor_nilpotent, Z.lxor_0_l).
  remember (Z.lxor x d) as y eqn:Ey. clear Ey.
  assert (Hne : y ≠ x).
  { intros ->. rewrite Z.lxor_nilpotent in Ed. lia. }
  assert (Hc : (x < 16 ∧ y = x + 240) ∨ (y < 16 ∧ x = y + 240))
    by (Z.div_mod_to_equations; lia).
  destruct Hc as [[H1 ->]|[H1 H2]].
  - rewrite lxor_low_nibble in Ed; lia.
  - rewrite H2, Z.lxor_comm, lxor_low_nibble in Ed; lia.
Qed.

(** ** The validity check, test by test *)

Lemma check_buffer_validity_length (buff : list byte) (w : World) :
  len_in_10_19 buff = false →
  check_buffer_validity buff w =
  (Ret false,
   logged WARNING "Buffer's length does not correspond to a request or a response" w).
Proof.
  intros E. unfold check_buffer_validity. rewrite E. reflexivity.
Qed.

Lemma check_buffer_validity_10 (b0 b1 b2 b3 b4 b5 b6 b7 b8 b9 : byte) (w : World) :
  check_buffer_validity [b0; b1; b2; b3; b4; b5; b6; b7; b8; b9] w =
  if negb (b2z b0 =? BEGIN_MARKER) then
    (Ret false,
     logged WARNING "Buffer's first byte does not correspond to a begin marker" w)
  else if negb (b2z b9 =? END_MARKER) then
    (Ret false,
     logged WARNING "Buffer's last byte does not correspond to a end marker" w)
  else if negb (b2z b8 =? xor_all (b2z <$> [b1; b2; b3; b4; b5; b6; b7]) mod 240) then
    (Ret false,
     logged WARNING "Buffer's computed checksum does not correspond to checksum field value" w)
  else if raised (ReqCode.lookup (b2z b1)) then
    (Ret false, logged WARNING "Unknown request ReqCode" w)
  else (Ret true, w).
Proof.
  unfold check_buffer_validity.
  change (len_in_10_19 _) with true.
  change (getitem _ 0) with (Ret (b2z b0)).
  change (getitem _ 1) with (Ret (b2z b1)).
  change (getitem _ (-1)) with (Ret (b2z b9)).
  change (getitem _ (-2)) with (Ret (b2z b8)).
  change (slice _ 1 (-2)) with (b2z <$> [b1; b2; b3; b4; b5; b6; b7]).
  change (Z.of_nat (length _) =? 10) with true.
  change (Z.of_nat (length _) =? 19) with false.
  rewrite zketech_checksum_bytes, reduce_xor_bytes.
  munfold. cbn.
  repeat (match goal with
          | |- context [if negb ?c then _ else _] => destruct c
          | |- context [if raised ?c then _ else _] => destruct c
          end; cbn; try reflexivity).
Qed.

Lemma check_buffer_validity_19
    (b0 b1 b2 b3 b4 b5 b6 b7 b8 b9 b10 b11 b12 b13 b14 b15 b16 b17 b18 : byte)
    (w : World) :
  check_buffer_validity
    [b0; b1; b2; b3; b4; b5; b6; b7; b8; b9; b10; b11; b12; b13; b14; b15;
     b16; b17; b18] w =
  if negb (b2z b0 =? BEGIN_MARKER) then
    (Ret false,
     logged WARNING "Buffer's first byte does not correspond to a begin marker" w)
  else if negb (b2z b18 =? END_MARKER) then
    (Ret false,
     logged WARNING "Buffer's last byte does not correspond to a end marker" w)
  else if negb (b2z b17 =?
                xor_all (b2z <$> [b1; b2; b3; b4; b5; b6; b7; b8; b9; b10; b11;
                                  b12; b13; b14; b15; b16]) mod 240) then
    (Ret false,
     logged WARNING "Buffer's computed checksum does not correspond to checksum field value" w)
  else if raised (StateCode.lookup (b2z b1 / 10)) then
    (Ret false, logged WARNING "Unknown response StateCode" w)
  else if raised (ProgCode.lookup (b2z b1 mod 10)) then
    (Ret false, logged WARNING "Unknown response ProgCode" w)
  else if raised (PartNumber.lookup (b2z b16)) then
    (Ret false, logged WARNING "Unknown zketech part number" w)
  else (Ret true, w).
Proof.
  unfold check_buffer_validity.
  change (len_in_10_19 _) with true.
  change (getitem _ 0) with (Ret (b2z b0)).
  change (getitem _ 1) with (Ret (b2z b1)).
  change (getitem _ (-1)) with (Ret (b2z b18)).
  change (getitem _ (-2)) with (Ret (b2z b17)).
  change (getitem _ (-3)) with (Ret (b2z b16)).
  change (slice _ 1 (-2))
    with (b2z <$> [b1; b2; b3; b4; b5; b6; b7; b8; b9; b10; b11; b12; b13;
                   b14; b15; b16]).
  change (Z.of_nat (length _) =? 10) with false.
  change (Z.of_nat (length _) =? 19) with true.
  rewrite zketech_checksum_bytes, reduce_xor_bytes.
  munfold. cbn.
  repeat (match goal with
          | |- context [if negb ?c then _ else _] => destruct c
          | |- context [if raised ?c then _ else _] => destruct c
          end; cbn; try reflexivity).
Qed.

(** A buffer of accepted length is a begin byte, a payload of 7 or 16
    bytes, a checksum byte and an end byte. *)
Lemma frame_shape (buff : list byte) :
  len_in_10_19 buff = true →
  ∃ b0 payload cs e,
    buff = b0 :: payload ++ [cs; e]
    ∧ (length payload = 7%nat ∨ length payload = 16%nat).
Proof.
  unfold len_in_10_19. intros H.
  assert (L : length buff = 10%nat ∨ length buff = 19%nat) by lia.
  clear H. destruct L as [L|L].
  - do 10 (destruct buff as [|? buff]; [discriminate|]).
    destruct buff; [|discriminate].
    eexists _, [_; _; _; _; _; _; _], _, _. split; [reflexivity|by left].
  - do 19 (destruct buff as [|? buff]; [discriminate|]).
    destruct buff; [|discriminate].
    eexists _, [_; _; _; _; _; _; _; _; _; _; _; _; _; _; _; _], _, _.
    split; [reflexivity|by right].
Qed.

Ltac explicit_payload payload H :=
  destruct H as [H|H];
  [ do 7 (destruct payload as [|? payload]; [discriminate H|]);
    destruct payload; [|discriminate H]
  | do 16 (destruct payload as [|? payload]; [discriminate H|]);
    destruct payload; [|discriminate H] ].

(** The check only ever appends to the log, and what it answers and logs
    depends on the buffer alone. *)
Ltac rewrite_tests :=
  repeat match goal with
         | H : ?c = _ |- context [if ?c then _ else _] => rewrite H
         end.

Ltac solve_run lem :=
  first
    [ exists true, []; split; [done|]; intros [? ? ?]; rewrite lem;
      rewrite_tests; cbn; rewrite app_nil_r; reflexivity
    | eexists false, _; split; [discriminate|]; intros ?; rewrite lem;
      rewrite_tests; reflexivity ].

Lemma check_buffer_validity_run (buff : list byte) :
  ∃ (b : bool) (l : list log_record),
    (b = true → l = [])
    ∧ ∀ w, check_buffer_validity buff w
           = (Ret b, mkWorld (zk w) (port w) (logger w ++ l)).
Proof.
  destruct (len_in_10_19 buff) eqn:E.
  - destruct (frame_shape buff E) as (b0 & payload & cs & e & -> & L).
    explicit_payload payload L; cbn [app].
    + destruct (negb (b2z b0 =? BEGIN_MARKER)) eqn:T0;
        [solve_run check_buffer_validity_10|].
      destruct (negb (b2z e =? END_MARKER)) eqn:T1;
        [solve_run check_buffer_validity_10|].
      destruct (negb (b2z cs =? xor_all (b2z <$> [b; b1; b2; b3; b4; b5; b6]) mod 240))
        eqn:T2; [solve_run check_buffer_validity_10|].
      destruct (raised (ReqCode.lookup (b2z b))) eqn:T3;
        solve_run check_buffer_validity_10.
    + destruct (negb (b2z b0 =? BEGIN_MARKER)) eqn:T0;
        [solve_run check_buffer_validity_19|].
      destruct (negb (b2z e =? END_MARKER)) eqn:T1;
        [solve_run check_buffer_validity_19|].
      destruct (negb (b2z cs =?
                      xor_all (b2z <$> [b; b1; b2; b3; b4; b5; b6; b7; b8; b9;
                                        b10; b11; b12; b13; b14; b15]) mod 240))
        eqn:T2; [solve_run check_buffer_validity_19|].
      destruct (raised (StateCode.lookup (b2z b / 10))) eqn:T3;
        [solve_run check_buffer_validity_19|].
      destruct (raised (ProgCode.lookup (b2z b mod 10))) eqn:T4;
        [solve_run check_buffer_validity_19|].
      destruct (raised (PartNumber.lookup (b2z b15))) eqn:T5;
        solve_run check_buffer_validity_19.
  - eexists false, _. split; [discriminate|]. intros w.
    by rewrite check_buffer_validity_length.
Qed.

(** A buffer accepted in one world is accepted in every world, silently. *)
Lemma check_buffer_validity_true (buff : list byte) (w0 w : World) :
  (check_buffer_validity buff w0).1 = Ret true →
  check_buffer_validity buff w = (Ret true, w).
Proof.
  destruct (check_buffer_validity_run buff) as (b & l & Hl & Hrun).
  rewrite (Hrun w0), (Hrun w). cbn. intros [= ->]. rewrite (Hl eq_refl).
  destruct w. cbn. by rewrite app_nil_r.
Qed.

(** A buffer rejected in one world is rejected in every world, and the
    rejection changes nothing but the log. *)
Lemma check_buffer_validity_false (buff : list byte) (w0 w : World) :
  (check_buffer_validity buff w0).1 = Ret false →
  ∃ l, check_buffer_validity buff w
       = (Ret false, mkWorld (zk w) (port w) (logger w ++ l)).
Proof.
  destruct (check_buffer_validity_run buff) as (b & l & Hl & Hrun).
  rewrite (Hrun w0), (Hrun w). cbn. intros [= ->]. by exists l.
Qed.

(** What acceptance says about a frame, up to the checksum. *)
Lemma check_buffer_validity_inv (b0 : byte) (payload : list byte) (cs e : byte)
    (w : World) :
  (check_buffer_validity (b0 :: payload ++ [cs; e]) w).1 = Ret true →
  b2z b0 = BEGIN_MARKER ∧ b2z e = END_MARKER
  ∧ b2z cs = xor_all (b2z <$> payload) mod 240.
Proof.
  intros H.
  assert (E : len_in_10_19 (b0 :: payload ++ [cs; e]) = true).
  { destruct (len_in_10_19 _) eqn:E; [done|].
    by rewrite check_buffer_validity_length in H. }
  assert (L : length payload = 7%nat ∨ length payload = 16%nat).
  { unfold len_in_10_19 in E. cbn [length] in E. rewrite length_app in E.
    cbn [length] in E.
    apply orb_prop in E as [E|E]; apply Z.eqb_eq in E; lia. }
  clear E. explicit_payload payload L; cbn [app] in H.
  - rewrite check_buffer_validity_10 in H.
    destruct (Z.eqb_spec (b2z b0) BEGIN_MARKER); [|done].
    destruct (Z.eqb_spec (b2z e) END_MARKER); [|done].
    destruct (Z.eqb_spec (b2z cs)
                (xor_all (b2z <$> [b; b1; b2; b3; b4; b5; b6]) mod 240)); done.
  - rewrite check_buffer_validity_19 in H.
    destruct (Z.eqb_spec (b2z b0) BEGIN_MARKER); [|done].
    destruct (Z.eqb_spec (b2z e) END_MARKER); [|done].
    destruct (Z.eqb_spec (b2z cs)
                (xor_all (b2z <$> [b; b1; b2; b3; b4; b5; b6; b7; b8; b9;
                                   b10; b11; b12; b13; b14; b15]) mod 240)); done.
Qed.

(** A frame of accepted length with sound markers and a wrong checksum is
    rejected for its checksum. *)
Lemma check_buffer_validity_checksum (b0 : byte) (payload : list byte)
    (cs e : byte) (w : World) :
  length payload = 7%nat ∨ length payload = 16%nat →
  b2z b0 = BEGIN_MARKER → b2z e = END_MARKER →
  b2z cs ≠ xor_all (b2z <$> payload) mod 240 →
  check_buffer_validity (b0 :: payload ++ [cs; e]) w =
  (Ret false,
   logged WARNING "Buffer's computed checksum does not correspond to checksum field value" w).
Proof.
  intros L H0 He Hcs.
  explicit_payload payload L; cbn [app].
  - rewrite check_buffer_validity_10, H0, He, !Z.eqb_refl. cbn [negb].
    by destruct (Z.eqb_spec (b2z cs)
                   (xor_all (b2z <$> [b; b1; b2; b3; b4; b5; b6]) mod 240)).
  - rewrite check_buffer_validity_19, H0, He, !Z.eqb_refl. cbn [negb].
    by destruct (Z.eqb_spec (b2z cs)
                   (xor_all (b2z <$> [b; b1; b2; b3; b4; b5; b6; b7; b8; b9;
                                      b10; b11; b12; b13; b14; b15]) mod 240)).
Qed.

(** ** Encoding a request *)

Lemma ReqCode_lookup_value (c : ReqCode.t) :
  ReqCode.lookup (ReqCode.value c) = Ret c.
Proof. by destruct c. Qed.

Lemma ReqCode_value_range (c : ReqCode.t) : 0 ≤ ReqCode.value c < 256.
Proof. destruct c; cbn; lia. Qed.

Lemma RequestDataSet_init_ok (req_code : ReqCode.t) (p1 p2 p3 : Z) :
  0 ≤ p1 ≤ 57600 → 0 ≤ p2 ≤ 57600 → 0 ≤ p3 ≤ 57600 →
  RequestDataSet.init req_code p1 p2 p3 =
  Ret (RequestDataSet.mk BEGIN_MARKER req_code (ReqCode.value req_code)
         p1 (p1 / 240) (p1 mod 240) p2 (p2 / 240) (p2 mod 240)
         p3 (p3 / 240) (p3 mod 240)
         (xor_all [ReqCode.value req_code; p1 / 240; p1 mod 240; p2 / 240;
                   p2 mod 240; p3 / 240; p3 mod 240] mod 240)
         END_MARKER).
Proof.
  intros H1 H2 H3. unfold RequestDataSet.init.
  replace ((p1 <? 0) || (p2 <? 0) || (p3 <? 0)) with false by lia.
  replace ((57600 <? p1) || (57600 <? p2) || (57600 <? p3)) with false by lia.
  unfold zketech_checksum. rewrite reduce_xor_cons. reflexivity.
Qed.

(** The ten bytes of a request whose parameters respect the bounds. *)
Lemma get_buffer_layout (req_code : ReqCode.t) (p1 p2 p3 : Z) :
  0 ≤ p1 ≤ 57600 → 0 ≤ p2 ≤ 57600 → 0 ≤ p3 ≤ 57600 →
  ∃ data buff,
    RequestDataSet.init req_code p1 p2 p3 = Ret data
    ∧ (∀ w, RequestFrame.get_buffer data w = (Ret buff, w))
    ∧ b2z <$> buff =
      [250; ReqCode.value req_code;
       p1 / 240; p1 mod 240; p2 / 240; p2 mod 240; p3 / 240; p3 mod 240;
       xor_all [ReqCode.value req_code; p1 / 240; p1 mod 240; p2 / 240;
                p2 mod 240; p3 / 240; p3 mod 240] mod 240;
       248].
Proof.
  intros H1 H2 H3.
  remember (xor_all [ReqCode.value req_code; p1 / 240; p1 mod 240; p2 / 240;
                      p2 mod 240; p3 / 240; p3 mod 240] mod 240) as cs eqn:Ecs.
  assert (Hcs : 0 ≤ cs < 256) by (subst cs; Z.div_mod_to_equations; lia).
  pose proof (ReqCode_value_range req_code) as Hc.
  destruct (pack_B_ok 250 ltac:(lia)) as (b0 & P0 & E0).
  destruct (pack_B_ok (ReqCode.value req_code) Hc) as (b1 & P1 & E1).
  destruct (pack_B_ok (p1 / 240)) as (b2 & P2 & E2);
    [Z.div_mod_to_equations; lia|].
  destruct (pack_B_ok (p1 mod 240)) as (b3 & P3 & E3);
    [Z.div_mod_to_equations; lia|].
  destruct (pack_B_ok (p2 / 240)) as (b4 & P4 & E4);
    [Z.div_mod_to_equations; lia|].
  destruct (pack_B_ok (p2 mod 240)) as (b5 & P5 & E5);
    [Z.div_mod_to_equations; lia|].
  destruct (pack_B_ok (p3 / 240)) as (b6 & P6 & E6);
    [Z.div_mod_to_equations; lia|].
  destruct (pack_B_ok (p3 mod 240)) as (b7 & P7 & E7);
    [Z.div_mod_to_equations; lia|].
  destruct (pack_B_ok cs Hcs) as (b8 & P8 & E8).
  destruct (pack_B_ok 248 ltac:(lia)) as (b9 & P9 & E9).
  exists (RequestDataSet.mk BEGIN_MARKER req_code (ReqCode.value req_code)
            p1 (p1 / 240) (p1 mod 240) p2 (p2 / 240) (p2 mod 240)
            p3 (p3 / 240) (p3 mod 240) cs END_MARKER),
         [b0; b1; b2; b3; b4; b5; b6; b7; b8; b9].
  split; [by rewrite RequestDataSet_init_ok, <- Ecs|]. split.
  - intros w.
    unfold RequestFrame.get_buffer. cbn [RequestDataSet.begin_marker
      RequestDataSet.req_code RequestDataSet.p1_h RequestDataSet.p1_l
      RequestDataSet.p2_h RequestDataSet.p2_l RequestDataSet.p3_h
      RequestDataSet.p3_l RequestDataSet.checksum RequestDataSet.end_marker
      struct_pack].
    change BEGIN_MARKER with 250. change END_MARKER with 248.
    rewrite P0, P1, P2, P3, P4, P5, P6, P7, P8, P9.
    munfold. cbn. rewrite check_buffer_validity_10.
    cbn [fmap list_fmap]. rewrite E0, E1, E2, E3, E4, E5, E6, E7, E8, E9.
    rewrite <- Ecs, ReqCode_lookup_value, !Z.eqb_refl.
    reflexivity.
  - cbn [fmap list_fmap]. by rewrite E0, E1, E2, E3, E4, E5, E6, E7, E8, E9.
Qed.

(** What [encode] and [send_request] do with such a request: the buffer
    depends on the request alone; on an open port it is written and two
    debug lines are logged. *)
Lemma request_sent (req_code : ReqCode.t) (p1 p2 p3 : Z) :
  0 ≤ p1 ≤ 57600 → 0 ≤ p2 ≤ 57600 → 0 ≤ p3 ≤ 57600 →
  ∃ buff,
    b2z <$> buff =
      [250; ReqCode.value req_code;
       p1 / 240; p1 mod 240; p2 / 240; p2 mod 240; p3 / 240; p3 mod 240;
       xor_all [ReqCode.value req_code; p1 / 240; p1 mod 240; p2 / 240;
                p2 mod 240; p3 / 240; p3 mod 240] mod 240;
       248]
    ∧ (∀ w, encode req_code p1 p2 p3 w = (Ret buff, w))
    ∧ (∀ w, is_open (port w) = true →
            Zketech.send_request req_code p1 p2 p3 w =
            (Ret (),
             mkWorld (zk w)
               (mkSerial true (in_buffer (port w)) (on_wire (port w))
                  (written (port w) ++ [buff]))
               (logger w ++ [LogRecord DEBUG "Sended request to device";
                             LogRecord DEBUG "Sended buffer"]))).
Proof.
  intros H1 H2 H3.
  destruct (get_buffer_layout req_code p1 p2 p3 H1 H2 H3)
    as (data & buff & Hd & Hb & Hl).
  exists buff. split; [done|]. split.
  - intros w. unfold encode. munfold. by rewrite Hd.
  - intros w Ho. destruct buff as [|b buff]; [discriminate|].
    unfold Zketech.send_request. sunfold. repeat (progress munfold).
    rewrite Ho. cbn [negb]. rewrite Hd, Hb. rewrite Ho.
    cbn [zk port logger]. by rewrite <- app_assoc.
Qed.

(** C4. Whenever the three parameters lie in [0, 57600], the descriptor is
    built and [get_buffer] lays out exactly ten bytes: the begin marker 250,
    the command-code byte, the high/low split ([div 240], [mod 240]) of p1,
    p2 and p3 in order, the checksum (XOR of the command code and the six
    parameter bytes, modulo 240) and the end marker 248.  The re-verification
    after layout passes: the buffer is returned as built, nothing is logged
    and nothing is raised. *)
Theorem encode_layout (req_code : ReqCode.t) (p1 p2 p3 : Z) (w : World) :
  0 ≤ p1 ≤ 57600 → 0 ≤ p2 ≤ 57600 → 0 ≤ p3 ≤ 57600 →
  ∃ buff,
    encode req_code p1 p2 p3 w = (Ret buff, w)
    ∧ length buff = 10%nat
    ∧ b2z <$> buff =
      [250; ReqCode.value req_code;
       p1 / 240; p1 mod 240; p2 / 240; p2 mod 240; p3 / 240; p3 mod 240;
       Z.lxor (Z.lxor (Z.lxor (Z.lxor (Z.lxor (Z.lxor
         (ReqCode.value req_code) (p1 / 240)) (p1 mod 240)) (p2 / 240))
         (p2 mod 240)) (p3 / 240)) (p3 mod 240) mod 240;
       248].
Proof.
  intros H1 H2 H3.
  destruct (request_sent req_code p1 p2 p3 H1 H2 H3) as (buff & Hl & He & _).
  exists buff. split; [|split].
  - apply He.
  - apply (f_equal length) in Hl. by rewrite length_fmap in Hl.
  - rewrite Hl. unfold xor_all. cbn [fold_left]. by rewrite Z.lxor_0_l.
Qed.

Lemma encode_layout_witness :
  ∃ buff,
    encode ReqCode.calibrate 4 9600 0
      (mkWorld Zketech.defaults (mkSerial true [] [] []) [])
    = (Ret buff, mkWorld Zketech.defaults (mkSerial true [] [] []) [])
    ∧ length buff = 10%nat
    ∧ b2z <$> buff = [250; 4; 0; 4; 40; 0; 0; 0; 40; 248].
Proof.
  apply (encode_layout ReqCode.calibrate 4 9600 0); lia.
Defined.

(** ** A changed payload byte *)

(** C5 as stated fails: in a valid response whose payload XORs to 15,
    replacing the high current byte 0 by 240 moves the XOR to 255, which has
    the same residue modulo 240; the changed frame is accepted and decodes
    to a current of 57.6 A. *)
Lemma high_nibble_change_undetected :
  let w := world_at DeviceState.idle [] in
  (check_buffer_validity testing_frame w).1 = Ret true
  ∧ testing_frame !! 2%nat = Some x00
  ∧ xf0 ≠ x00
  ∧ (check_buffer_validity (<[2%nat:=xf0]> testing_frame) w).1 = Ret true
  ∧ ∃ data,
      (ResponseFrame.get_response_data_set (<[2%nat:=xf0]> testing_frame) w).1
      = Ret (Some data)
      ∧ ResponseDataSet.i data = scaled 57600.
Proof.
  repeat split; try reflexivity; try discriminate.
  eexists. split; reflexivity.
Qed.

(** C5 (amended). In a buffer that the codec accepts, replacing one payload
    byte (strictly between the markers, the checksum byte excepted) by a
    different value whose XOR with the original is not 240 makes the check
    fail with the checksum warning.  (A change by exactly 240, the high
    nibble flipped, can keep the residue modulo 240 and pass.) *)
Theorem single_byte_change_detected (buff : list byte) (k : nat) (b b' : byte) (w : World) :
  (check_buffer_validity buff w).1 = Ret true →
  (1 ≤ k < length buff - 2)%nat →
  buff !! k = Some b →
  b' ≠ b →
  Z.lxor (b2z b) (b2z b') ≠ 240 →
  check_buffer_validity (<[k:=b']> buff) w =
  (Ret false,
   logged WARNING "Buffer's computed checksum does not correspond to checksum field value" w).
Proof.
  intros Hv Hk Hb Hne H240.
  assert (E : len_in_10_19 buff = true).
  { destruct (len_in_10_19 buff) eqn:E; [done|].
    by rewrite check_buffer_validity_length in Hv. }
  destruct (frame_shape buff E) as (b0 & payload & cs & e & -> & L).
  destruct (check_buffer_validity_inv _ _ _ _ _ Hv) as (H0 & He & Hcs).
  cbn [length] in Hk. rewrite length_app in Hk. cbn [length] in Hk.
  destruct k as [|j]; [lia|].
  change ((payload ++ [cs; e]) !! j = Some b) in Hb.
  assert (Hj : (j < length payload)%nat) by lia.
  rewrite lookup_app_l in Hb by done.
  change (<[S j:=b']> (b0 :: payload ++ [cs; e]))
    with (b0 :: <[j:=b']> (payload ++ [cs; e])).
  rewrite insert_app_l by done.
  apply check_buffer_validity_checksum; try done.
  - by rewrite length_insert.
  - rewrite list_fmap_insert, Hcs.
    rewrite (xor_all_insert _ j (b2z b)) by (by rewrite list_lookup_fmap, Hb).
    intros Heq. symmetry in Heq. revert Heq.
    apply mod240_collision.
    + apply xor_all_bytes_range.
    + apply lxor_byte_range; apply b2z_range.
    + intros H. apply Z.lxor_eq in H. apply b2z_inj in H. congruence.
    + done.
Qed.

Lemma single_byte_change_detected_witness :
  check_buffer_validity (<[2%nat:=x01]> testing_frame) (world_at DeviceState.idle [])
  = (Ret false,
     logged WARNING "Buffer's computed checksum does not correspond to checksum field value"
       (world_at DeviceState.idle [])).
Proof.
  apply (single_byte_change_detected testing_frame 2 x00 x01
           (world_at DeviceState.idle []));
    first [reflexivity | discriminate | (cbn; lia)].
Defined.

(** ** Reading a response *)

(** The steps of [read_response] up to the read itself. *)
Lemma read_response_open (w : World) :
  is_open (port w) = true →
  Zketech.read_response w =
  let w1 := mkWorld (mkSession (device_state (zk w)) (prog_state (zk w)) None)
                    (after_read (port w)) (logger w) in
  let buff := next_read (port w) in
  (if Z.of_nat (length buff) =? 0 then
     set_device_state DeviceState.idle;;
     debug "Tried to read response from an idled device";;
     mret None
   else
     valid ← check_buffer_validity buff;
     if negb valid then debug "Buffer invalid";; mret None
     else
       set_device_state DeviceState.monitoring;;
       data ← ResponseFrame.get_response_data_set buff;
       match data : option ResponseDataSet.t with
       | None => raise AttributeError
       | Some data =>
           set_part_number (Some (ResponseDataSet.part_number data));;
           (if String.eqb (StateCode.name (ResponseDataSet.state_code data)) "testing"
            then set_device_state DeviceState.testing else mret ());;
           (if String.eqb (StateCode.name (ResponseDataSet.state_code data)) "ending"
            then set_device_state DeviceState.ending else mret ());;
           prog ← lift (ProgState.lookup (ProgCode.value (ResponseDataSet.prog_code data)));
           set_prog_state (Some prog);;
           debug "Received response from device";;
           debug "Received buffer";;
           mret (Some data)
       end) w1.
Proof.
  intros Ho. destruct w as [s [o ib ow wr] lg]. cbn in Ho. subst o.
  unfold Zketech.read_response, next_read, after_read.
  lazy beta iota zeta delta
    [SerialPort.isOpen SerialPort.in_waiting SerialPort.reset_input_buffer
     SerialPort.read SerialPort.get SerialPort.put
     mbind mret M_bind M_ret set_part_number get_session set_session
     port in_buffer on_wire written zk logger is_open negb
     device_state prog_state part_number].
  destruct (19 <? Z.of_nat (length ib)); reflexivity.
Qed.

(** ** Decoding a response *)

Lemma enum_lookup_value {A} (value : A → Z) (members : list A) (v : Z) (m : A) :
  enum_lookup value members v = Ret m → value m = v.
Proof.
  unfold enum_lookup. destruct (find _ members) as [m'|] eqn:E; [|done].
  intros [= ->]. apply find_some in E as [_ E]. lia.
Qed.

Lemma not_raised {A} (r : res A) : raised r = false → ∃ a, r = Ret a.
Proof. destruct r; [by eexists|done]. Qed.

(** The descriptor of an accepted 19-byte frame. *)
Lemma decode_19
    (b0 b1 b2 b3 b4 b5 b6 b7 b8 b9 b10 b11 b12 b13 b14 b15 b16 b17 b18 : byte)
    (w0 w : World) :
  let buff := [b0; b1; b2; b3; b4; b5; b6; b7; b8; b9; b10; b11; b12; b13;
               b14; b15; b16; b17; b18] in
  (check_buffer_validity buff w0).1 = Ret true →
  ∃ state_code prog_code part_number,
    StateCode.lookup (b2z b1 / 10) = Ret state_code
    ∧ ProgCode.lookup (b2z b1 mod 10) = Ret prog_code
    ∧ PartNumber.lookup (b2z b16) = Ret part_number
    ∧ ResponseFrame.get_response_data_set buff w =
      (Ret (Some (ResponseDataSet.mk state_code prog_code
                    (scaled (b2z b2 * 240 + b2z b3))
                    (scaled (b2z b4 * 240 + b2z b5))
                    (b2z b6 * 240 + b2z b7)
                    (b2z b8 * 240 + b2z b9)
                    (b2z b10 * 240 + b2z b11)
                    (b2z b12 * 240 + b2z b13)
                    (b2z b14 * 240 + b2z b15)
                    part_number (b2z b17))), w).
Proof.
  intros buff Hv.
  pose proof (check_buffer_validity_true buff w0 w Hv) as Hw.
  subst buff. rewrite check_buffer_validity_19 in Hv.
  destruct (negb (b2z b0 =? BEGIN_MARKER)); [done|].
  destruct (negb (b2z b18 =? END_MARKER)); [done|].
  destruct (negb (b2z b17 =? _)); [done|].
  destruct (raised (StateCode.lookup _)) eqn:E1; [done|].
  destruct (raised (ProgCode.lookup _)) eqn:E2; [done|].
  destruct (raised (PartNumber.lookup _)) eqn:E3; [done|].
  apply not_raised in E1 as [sc E1], E2 as [pc E2], E3 as [pn E3].
  exists sc, pc, pn. repeat split; try done.
  unfold ResponseFrame.get_response_data_set. munfold. rewrite Hw.
  cbn [negb]. unfold ResponseFrame.unpack_19. cbn [fmap list_fmap].
  unfold ResponseDataSet.init. munfold. rewrite E1, E2, E3.
  reflexivity.
Qed.

Lemma struct_pack_ok (values : list Z) :
  Forall (λ v, 0 ≤ v < 256) values →
  ∃ buff, struct_pack values = Ret buff ∧ b2z <$> buff = values.
Proof.
  induction 1 as [|v vs Hv _ (bs & Hbs & Ebs)].
  - by exists [].
  - destruct (pack_B_ok v Hv) as (b & Hb & Eb).
    exists (b :: bs). cbn [struct_pack]. rewrite Hb, Hbs. munfold.
    split; [done|]. cbn [fmap list_fmap]. by rewrite Eb, <- Ebs.
Qed.

Lemma all_in_spec (f : Z → bool) (len : positive) :
  ∀ lo z, all_in f lo len = true → lo ≤ z < lo + Zpos len → f z = true.
Proof.
  induction len as [p IH|p IH|]; intros lo z H Hz; cbn [all_in] in H.
  - apply andb_prop in H as [H H2]. apply andb_prop in H as [H0 H1].
    destruct (Z.eq_dec z lo) as [->|]; [done|].
    destruct (Z_lt_dec z (lo + 1 + Zpos p)).
    + apply (IH (lo + 1)); [done|lia].
    + apply (IH (lo + 1 + Zpos p)); [done|lia].
  - apply andb_prop in H as [H1 H2].
    destruct (Z_lt_dec z (lo + Zpos p)).
    + apply (IH lo); [done|lia].
    + apply (IH (lo + Zpos p)); [done|lia].
  - assert (z = lo) as -> by lia. done.
Qed.

(** Every raw value a two-byte field can carry is recovered within the
    tolerance (checked by running the division on each of them). *)
Lemma scaled_within_tolerance (raw : Z) :
  0 ≤ raw < 61440 → within_tolerance (scaled raw) raw = true.
Proof.
  intros H.
  apply (all_in_spec (λ raw, within_tolerance (scaled raw) raw) 61440 0);
    [|lia].
  vm_compute. reflexivity.
Qed.

Lemma fixture_codes (status : StateCode.t) (prog : ProgCode.t) :
  let code := StateCode.value status * 10 + ProgCode.value prog in
  0 ≤ code < 256
  ∧ StateCode.lookup (code / 10) = Ret status
  ∧ ProgCode.lookup (code mod 10) = Ret prog.
Proof. by destruct status, prog. Qed.

Lemma PartNumber_lookup_value (p : PartNumber.t) :
  0 ≤ PartNumber.value p < 256
  ∧ PartNumber.lookup (PartNumber.value p) = Ret p.
Proof. by destruct p. Qed.

Lemma split_240 (raw : Z) :
  0 ≤ raw < 61440 →
  0 ≤ raw / 240 < 256 ∧ 0 ≤ raw mod 240 < 256
  ∧ raw / 240 * 240 + raw mod 240 = raw.
Proof. intros H. Z.div_mod_to_equations. lia. Qed.

(** Decoding a fixture built in the wire format from known values. *)
Lemma fixture_roundtrip (status : StateCode.t) (prog : ProgCode.t)
    (i_raw u_raw c unknown p1 p2 p3 : Z) (model : PartNumber.t) (w : World) :
  0 ≤ i_raw < 61440 → 0 ≤ u_raw < 61440 → 0 ≤ c < 61440 →
  0 ≤ unknown < 61440 → 0 ≤ p1 < 61440 → 0 ≤ p2 < 61440 → 0 ≤ p3 < 61440 →
  ∃ buff data,
    struct_pack (fixture_values status prog i_raw u_raw c unknown p1 p2 p3 model)
    = Ret buff
    ∧ ResponseFrame.get_response_data_set buff w = (Ret (Some data), w)
    ∧ ResponseDataSet.state_code data = status
    ∧ ResponseDataSet.prog_code data = prog
    ∧ ResponseDataSet.i data = scaled i_raw
    ∧ ResponseDataSet.u data = scaled u_raw
    ∧ within_tolerance (ResponseDataSet.i data) i_raw = true
    ∧ within_tolerance (ResponseDataSet.u data) u_raw = true
    ∧ ResponseDataSet.c data = c
    ∧ ResponseDataSet.unknown data = unknown
    ∧ ResponseDataSet.p1 data = p1
    ∧ ResponseDataSet.p2 data = p2
    ∧ ResponseDataSet.p3 data = p3
    ∧ ResponseDataSet.part_number data = model.
Proof.
  intros Hi Hu Hc Hk H1 H2 H3.
  destruct (fixture_codes status prog) as (Rcode & Lst & Lpr).
  destruct (PartNumber_lookup_value model) as (Rm & Lm).
  destruct (split_240 _ Hi) as (? & ? & Ei), (split_240 _ Hu) as (? & ? & Eu),
    (split_240 _ Hc) as (? & ? & Ec), (split_240 _ Hk) as (? & ? & Ek),
    (split_240 _ H1) as (? & ? & E1), (split_240 _ H2) as (? & ? & E2),
    (split_240 _ H3) as (? & ? & E3).
  unfold fixture_values. cbn [app].
  match goal with |- context [xor_all ?l mod 240] =>
    remember (xor_all l mod 240) as cs eqn:Ecs;
    assert (Hcs : 0 ≤ cs < 256) by (subst cs; Z.div_mod_to_equations; lia)
  end.
  edestruct (struct_pack_ok) as (buff & Hp & Eb);
    [|rewrite Hp].
  { repeat (apply Forall_cons; split; [first [done | unfold BEGIN_MARKER, END_MARKER; lia]|]).
    apply Forall_nil_2. }
  do 19 (destruct buff as [|? buff]; [discriminate Eb|]).
  destruct buff; [|discriminate Eb].
  cbn [fmap list_fmap] in Eb.
  injection Eb as E0' E1' E2' E3' E4' E5' E6' E7' E8' E9' E10' E11' E12' E13'
    E14' E15' E16' E17' E18'.
  eexists _, _. split; [reflexivity|].
  edestruct (decode_19 b b0 b1 b2 b3 b4 b5 b6 b7 b8 b9 b10 b11 b12 b13 b14 b15 b16 b17 w w)
    as (sc & pc & pn & Hsc & Hpc & Hpn & Hd).
  { rewrite check_buffer_validity_19. cbn [fmap list_fmap].
    rewrite E0', E1', E2', E3', E4', E5', E6', E7', E8', E9', E10', E11',
      E12', E13', E14', E15', E16', E17', E18'.
    rewrite <- Ecs, Lst, Lpr, Lm, !Z.eqb_refl. reflexivity. }
  rewrite E1', Lst in Hsc. rewrite E1', Lpr in Hpc. rewrite E16', Lm in Hpn.
  simplify_eq. rewrite Hd. split; [reflexivity|].
  cbn [ResponseDataSet.state_code ResponseDataSet.prog_code ResponseDataSet.i
       ResponseDataSet.u ResponseDataSet.c ResponseDataSet.unknown
       ResponseDataSet.p1 ResponseDataSet.p2 ResponseDataSet.p3
       ResponseDataSet.part_number].
  rewrite E2', E3', E4', E5', E6', E7', E8', E9', E10', E11', E12', E13',
    E14', E15', Ei, Eu, Ec, Ek, E1, E2, E3.
  repeat split; try done; by apply scaled_within_tolerance.
Qed.

(** ** The session state machine *)

Lemma ProgState_lookup_ProgCode (p : ProgCode.t) :
  ∃ s, ProgState.lookup (ProgCode.value p) = Ret s
       ∧ ProgState.value s = ProgCode.value p.
Proof. destruct p; eexists; split; reflexivity. Qed.

Lemma read_response_closed (w : World) :
  is_open (port w) = false →
  Zketech.read_response w =
  (Ret None,
   mkWorld (mkSession DeviceState.disconnected (prog_state (zk w)) None)
     (port w)
     (logger w ++ [LogRecord DEBUG "Tried to read response from a disconnected device"])).
Proof.
  intros Ho. destruct w as [s [o ib ow wr] lg]. cbn in Ho. subst o.
  reflexivity.
Qed.

Lemma read_response_zero (w : World) :
  is_open (port w) = true →
  next_read (port w) = [] →
  Zketech.read_response w =
  (Ret None,
   mkWorld (mkSession DeviceState.idle (prog_state (zk w)) None)
     (after_read (port w))
     (logger w ++ [LogRecord DEBUG "Tried to read response from an idled device"])).
Proof.
  intros Ho Hn. rewrite (read_response_open w Ho), Hn. reflexivity.
Qed.

Lemma read_response_rejected (w : World) :
  is_open (port w) = true →
  next_read (port w) ≠ [] →
  (check_buffer_validity (next_read (port w)) w).1 = Ret false →
  ∃ l,
    Zketech.read_response w =
    (Ret None,
     mkWorld (mkSession (device_state (zk w)) (prog_state (zk w)) None)
       (after_read (port w))
       (logger w ++ l ++ [LogRecord DEBUG "Buffer invalid"])).
Proof.
  intros Ho Hn Hv. rewrite (read_response_open w Ho). cbv zeta.
  destruct (next_read (port w)) as [|b buff] eqn:E; [done|].
  change (Z.of_nat (length (b :: buff)) =? 0) with false. cbv iota.
  edestruct (check_buffer_validity_false (b :: buff)) as (l & Hl); [exact Hv|].
  exists l. munfold. rewrite Hl. cbn. by rewrite <- app_assoc.
Qed.

Lemma read_response_accepted
    (b0 b1 b2 b3 b4 b5 b6 b7 b8 b9 b10 b11 b12 b13 b14 b15 b16 b17 b18 : byte)
    (w : World) :
  let buff := [b0; b1; b2; b3; b4; b5; b6; b7; b8; b9; b10; b11; b12; b13;
               b14; b15; b16; b17; b18] in
  is_open (port w) = true →
  next_read (port w) = buff →
  (check_buffer_validity buff w).1 = Ret true →
  ∃ data prog,
    ResponseFrame.get_response_data_set buff w = (Ret (Some data), w)
    ∧ ProgState.value prog = ProgCode.value (ResponseDataSet.prog_code data)
    ∧ Zketech.read_response w =
      (Ret (Some data),
       mkWorld (mkSession (session_state_of (ResponseDataSet.state_code data))
                  (Some prog) (Some (ResponseDataSet.part_number data)))
         (after_read (port w))
         (logger w ++ [LogRecord DEBUG "Received response from device";
                       LogRecord DEBUG "Received buffer"])).
Proof.
  intros buff Ho Hn Hv.
  destruct (decode_19 b0 b1 b2 b3 b4 b5 b6 b7 b8 b9 b10 b11 b12 b13 b14 b15
              b16 b17 b18 w w Hv) as (sc & pc & pn & Hsc & Hpc & Hpn & Hd).
  fold buff in Hd.
  destruct (ProgState_lookup_ProgCode pc) as (prog & Hprog & Eprog).
  eexists _, prog. split; [exact Hd|]. split; [exact Eprog|].
  rewrite (read_response_open w Ho), Hn. cbv zeta.
  change (Z.of_nat (length buff) =? 0) with false. cbv iota.
  munfold.
  rewrite (check_buffer_validity_true buff w _ Hv). cbn [negb].
  repeat (progress munfold).
  cbn [zk port logger device_state prog_state part_number].
  match goal with |- context [ResponseFrame.get_response_data_set buff ?w1] =>
    destruct (decode_19 b0 b1 b2 b3 b4 b5 b6 b7 b8 b9 b10 b11 b12 b13 b14 b15
                b16 b17 b18 w w1 Hv) as (sc' & pc' & pn' & Hsc' & Hpc' & Hpn' & Hd')
  end.
  rewrite Hsc in Hsc'. rewrite Hpc in Hpc'. rewrite Hpn in Hpn'.
  simplify_eq. rewrite Hd'.
  cbn [ResponseDataSet.state_code ResponseDataSet.prog_code
       ResponseDataSet.part_number zk port logger device_state prog_state
       part_number].
  destruct sc'; cbn; rewrite Hprog; cbn; rewrite <- app_assoc; reflexivity.
Qed.

(** C3 as stated fails: a read that returns the single byte 0 is rejected by
    the codec, and the read has by then cleared the last-known device model
    identifier, so the session is not left unchanged. *)
Lemma invalid_frame_forgets_model :
  let w := world_at DeviceState.monitoring [x00] in
  is_open (port w) = true
  ∧ next_read (port w) = [x00]
  ∧ (check_buffer_validity (next_read (port w)) w).1 = Ret false
  ∧ part_number (zk w) = Some PartNumber.ebc_a05
  ∧ part_number (zk (Zketech.read_response w).2) = None
  ∧ zk (Zketech.read_response w).2 ≠ zk w.
Proof. vm_compute. repeat split; discriminate. Qed.

(** C3 (amended). On an open port, a read that returns a non-empty buffer
    which the codec rejects returns [None] without raising; the session state
    field and the last-known active program are unchanged, the last-known
    device model identifier is cleared, nothing is written to the port, and
    the log ends with the line "Buffer invalid". *)
Theorem invalid_frame_keeps_state (w : World) :
  is_open (port w) = true →
  next_read (port w) ≠ [] →
  (check_buffer_validity (next_read (port w)) w).1 = Ret false →
  let r := Zketech.read_response w in
  r.1 = Ret None
  ∧ device_state (zk r.2) = device_state (zk w)
  ∧ prog_state (zk r.2) = prog_state (zk w)
  ∧ part_number (zk r.2) = None
  ∧ written (port r.2) = written (port w)
  ∧ ∃ l, logger r.2 = logger w ++ l ++ [LogRecord DEBUG "Buffer invalid"].
Proof.
  intros Ho Hn Hv.
  destruct (read_response_rejected w Ho Hn Hv) as (l & ->).
  cbn. repeat split; try done. by exists l.
Qed.

Lemma invalid_frame_keeps_state_witness :
  let w := world_at DeviceState.testing [x00] in
  let r := Zketech.read_response w in
  r.1 = Ret None
  ∧ device_state (zk r.2) = device_state (zk w)
  ∧ prog_state (zk r.2) = prog_state (zk w)
  ∧ part_number (zk r.2) = None
  ∧ written (port r.2) = written (port w)
  ∧ ∃ l, logger r.2 = logger w ++ l ++ [LogRecord DEBUG "Buffer invalid"].
Proof.
  apply (invalid_frame_keeps_state (world_at DeviceState.testing [x00]));
    [reflexivity | discriminate | reflexivity].
Defined.

(** A remark on the other non-empty reads that yield no descriptor: a
    short read that happens to be a valid 10-byte request frame passes
    [check_buffer_validity], the session moves to monitoring, and the
    19-field unpacking then raises. *)
Lemma read_response_request_frame :
  let w := world_at DeviceState.idle calibrate_frame in
  (check_buffer_validity (next_read (port w)) w).1 = Ret true
  ∧ (Zketech.read_response w).1 = Raise StructError
  ∧ device_state (zk (Zketech.read_response w).2) = DeviceState.monitoring.
Proof. repeat split; reflexivity. Qed.

(** C6. A structurally valid 19-byte response frame decodes to a descriptor
    whose current is [(i_hi*240+i_lo)/1000], whose voltage is
    [(u_hi*240+u_lo)/1000], whose capacity is [c_hi*240+c_lo] (no scale),
    whose unknown field is [unk_hi*240+unk_lo] and whose echoed parameters
    are [p_hi*240+p_lo]; the status and program are the quotient and
    remainder of the second byte by 10, the model is the third byte from
    the end.  Consequently a fixture laid out in the wire format from known
    raw values decodes to those values: the integer fields exactly, current
    and voltage within 1/1000 of [raw/1000]. *)
Theorem decode_scaling :
  (∀ (b0 b1 b2 b3 b4 b5 b6 b7 b8 b9 b10 b11 b12 b13 b14 b15 b16 b17 b18 : byte)
     (w : World),
     let buff := [b0; b1; b2; b3; b4; b5; b6; b7; b8; b9; b10; b11; b12; b13;
                  b14; b15; b16; b17; b18] in
     (check_buffer_validity buff w).1 = Ret true →
     ∃ data,
       ResponseFrame.get_response_data_set buff w = (Ret (Some data), w)
       ∧ StateCode.value (ResponseDataSet.state_code data) = b2z b1 / 10
       ∧ ProgCode.value (ResponseDataSet.prog_code data) = b2z b1 mod 10
       ∧ ResponseDataSet.i data
         = PrimFloat.div (Py.float_of_int (b2z b2 * 240 + b2z b3))
                         (Py.float_of_int 1000)
       ∧ ResponseDataSet.u data
         = PrimFloat.div (Py.float_of_int (b2z b4 * 240 + b2z b5))
                         (Py.float_of_int 1000)
       ∧ ResponseDataSet.c data = b2z b6 * 240 + b2z b7
       ∧ ResponseDataSet.unknown data = b2z b8 * 240 + b2z b9
       ∧ ResponseDataSet.p1 data = b2z b10 * 240 + b2z b11
       ∧ ResponseDataSet.p2 data = b2z b12 * 240 + b2z b13
       ∧ ResponseDataSet.p3 data = b2z b14 * 240 + b2z b15
       ∧ PartNumber.value (ResponseDataSet.part_number data) = b2z b16)
  ∧ (∀ (status : StateCode.t) (prog : ProgCode.t)
       (i_raw u_raw c unknown p1 p2 p3 : Z) (model : PartNumber.t) (w : World),
       0 ≤ i_raw < 61440 → 0 ≤ u_raw < 61440 → 0 ≤ c < 61440 →
       0 ≤ unknown < 61440 → 0 ≤ p1 < 61440 → 0 ≤ p2 < 61440 →
       0 ≤ p3 < 61440 →
       ∃ buff data,
         struct_pack
           (fixture_values status prog i_raw u_raw c unknown p1 p2 p3 model)
         = Ret buff
         ∧ ResponseFrame.get_response_data_set buff w = (Ret (Some data), w)
         ∧ ResponseDataSet.state_code data = status
         ∧ ResponseDataSet.prog_code data = prog
         ∧ within_tolerance (ResponseDataSet.i data) i_raw = true
         ∧ within_tolerance (ResponseDataSet.u data) u_raw = true
         ∧ ResponseDataSet.c data = c
         ∧ ResponseDataSet.unknown data = unknown
         ∧ ResponseDataSet.p1 data = p1
         ∧ ResponseDataSet.p2 data = p2
         ∧ ResponseDataSet.p3 data = p3
         ∧ ResponseDataSet.part_number data = model).
Proof.
  split.
  - intros b0 b1 b2 b3 b4 b5 b6 b7 b8 b9 b10 b11 b12 b13 b14 b15 b16 b17 b18
      w buff Hv.
    destruct (decode_19 b0 b1 b2 b3 b4 b5 b6 b7 b8 b9 b10 b11 b12 b13 b14 b15
                b16 b17 b18 w w Hv) as (sc & pc & pn & Hsc & Hpc & Hpn & Hd).
    eexists. split; [exact Hd|].
    apply enum_lookup_value in Hsc, Hpc, Hpn.
    repeat split; done.
  - intros status prog i_raw u_raw c unknown p1 p2 p3 model w Hi Hu Hc Hk H1 H2 H3.
    destruct (fixture_roundtrip status prog i_raw u_raw c unknown p1 p2 p3
                model w Hi Hu Hc Hk H1 H2 H3)
      as (buff & data & ? & ? & ? & ? & ? & ? & ? & ? & ? & ? & ? & ? & ? & ?).
    exists buff, data. repeat split; done.
Qed.

Lemma decode_scaling_witness :
  (∃ data,
     ResponseFrame.get_response_data_set testing_frame
       (world_at DeviceState.idle []) = (Ret (Some data), world_at DeviceState.idle [])
     ∧ ResponseDataSet.c data = 0)
  ∧ (∃ buff data,
       struct_pack
         (fixture_values StateCode.testing ProgCode.c_liion 1060 4200 500 0
            1000 1 0 PartNumber.ebc_a05) = Ret buff
       ∧ ResponseFrame.get_response_data_set buff (world_at DeviceState.idle [])
         = (Ret (Some data), world_at DeviceState.idle [])
       ∧ within_tolerance (ResponseDataSet.i data) 1060 = true
       ∧ within_tolerance (ResponseDataSet.u data) 4200 = true
       ∧ ResponseDataSet.c data = 500).
Proof.
  split.
  - destruct (proj1 decode_scaling xfa x0a x00 x00 x00 x00 x00 x00 x00 x00 x00
                x00 x00 x00 x00 x00 x05 x0f xf8 (world_at DeviceState.idle [])
                eq_refl)
      as (data & Hd & _ & _ & _ & _ & Hc & _).
    exists data. split; [exact Hd | exact Hc].
  - destruct (proj2 decode_scaling StateCode.testing ProgCode.c_liion 1060 4200
                500 0 1000 1 0 PartNumber.ebc_a05 (world_at DeviceState.idle []))
      as (buff & data & Hb & Hd & _ & _ & Hi & Hu & Hc & _); try lia.
    exists buff, data. repeat split; done.
Defined.

Lemma next_read_after_zero (p : Serial) :
  next_read p = [] → next_read (after_read p) = [].
Proof.
  unfold next_read, after_read. cbn [in_buffer on_wire].
  intros H. apply take_nil_inv in H as [H|H]; [done|].  
  rewrite H. reflexivity.
Qed.

Lemma poll_zero (n : nat) (w : World) :
  is_open (port w) = true →
  next_read (port w) = [] →
  (0 < n)%nat →
  device_state (zk (poll n w)) = DeviceState.idle.
Proof.
  revert w. induction n as [|n IH]; intros w Ho Hn Hpos; [lia|].
  cbn [poll]. rewrite (read_response_zero w Ho Hn). cbn [snd].
  destruct n as [|n]; [reflexivity|].
  apply IH; [reflexivity| |lia].
  cbn [port]. by apply next_read_after_zero.
Qed.

(** C7. While the port is open: a read that yields zero bytes sets the
    session state to idle, so that any non-empty run of such reads ends in
    idle; and a read that yields a structurally valid response whose status
    is testing sets the session state to testing, whatever the state was. *)
Theorem read_response_state (w : World) :
  is_open (port w) = true →
  (next_read (port w) = [] →
     device_state (zk (Zketech.read_response w).2) = DeviceState.idle
     ∧ ∀ n, (0 < n)%nat → device_state (zk (poll n w)) = DeviceState.idle)
  ∧ (∀ b0 b1 b2 b3 b4 b5 b6 b7 b8 b9 b10 b11 b12 b13 b14 b15 b16 b17 b18,
       let buff := [b0; b1; b2; b3; b4; b5; b6; b7; b8; b9; b10; b11; b12;
                    b13; b14; b15; b16; b17; b18] in
       next_read (port w) = buff →
       (check_buffer_validity buff w).1 = Ret true →
       b2z b1 / 10 = StateCode.value StateCode.testing →
       device_state (zk (Zketech.read_response w).2) = DeviceState.testing).
Proof.
  intros Ho. split.
  - intros Hn. split.
    + by rewrite (read_response_zero w Ho Hn).
    + intros n Hpos. by apply poll_zero.
  - intros b0 b1 b2 b3 b4 b5 b6 b7 b8 b9 b10 b11 b12 b13 b14 b15 b16 b17 b18
      buff Hn Hv Hst.
    destruct (read_response_accepted b0 b1 b2 b3 b4 b5 b6 b7 b8 b9 b10 b11 b12
                b13 b14 b15 b16 b17 b18 w Ho Hn Hv)
      as (data & prog & Hd & _ & ->).
    destruct (decode_19 b0 b1 b2 b3 b4 b5 b6 b7 b8 b9 b10 b11 b12 b13 b14 b15
                b16 b17 b18 w w Hv) as (sc & pc & pn & Hsc & _ & _ & Hd').
    unfold buff in Hd. rewrite Hd' in Hd. simplify_eq.
    apply enum_lookup_value in Hsc. rewrite Hst in Hsc.
    cbn [snd zk device_state ResponseDataSet.state_code].
    by destruct sc.
Qed.

Lemma read_response_state_witness :
  device_state (zk (Zketech.read_response (world_at DeviceState.ending [])).2)
  = DeviceState.idle
  ∧ device_state (zk (poll 3 (world_at DeviceState.ending []))) = DeviceState.idle
  ∧ device_state
      (zk (Zketech.read_response (world_at DeviceState.idle testing_frame)).2)
    = DeviceState.testing.
Proof.
  destruct (read_response_state (world_at DeviceState.ending []) eq_refl)
    as [Hz _].
  destruct (Hz eq_refl) as [H1 H2].
  destruct (read_response_state (world_at DeviceState.idle testing_frame) eq_refl)
    as [_ Ht].
  split; [exact H1|]. split; [apply H2; lia|].
  apply (Ht xfa x0a x00 x00 x00 x00 x00 x00 x00 x00 x00 x00 x00 x00 x00 x00
           x05 x0f xf8); reflexivity.
Defined.

(** ** Binary64 arithmetic of the command layer *)

(** ** Truncation of a product that is not negative *)

Lemma binary_round_aux_sign (s : bool) (m e : Z) (l : SpecFloat.location) :
  match SpecFloat.binary_round_aux prec emax s m e l with
  | S754_zero s' | S754_infinity s' | S754_finite s' _ _ => s' = s
  | S754_nan => True
  end.
Proof.
  unfold SpecFloat.binary_round_aux.
  destruct (SpecFloat.shr_fexp prec emax m e l) as [mrs' e'].
  destruct (SpecFloat.shr_fexp prec emax _ e' _) as [mrs'' e''].
  destruct (SpecFloat.shr_m mrs''); [done| |done].
  by destruct (_ <=? _).
Qed.

(** [int(value * n)] is not negative when [value < 0] is false and [n] is a
    positive constant. *)
Lemma int_of_product_nonneg (value : float) (n raw : Z) :
  (∃ m e, Prim2SF (Py.float_of_int n) = S754_finite false m e) →
  Py.lt_float_int value 0 = false →
  Py.int_of_float (Py.mul_float_int value n) = Ret raw →
  0 ≤ raw.
Proof.
  intros (mn & en & Hn) Hlt Hraw.
  unfold Py.lt_float_int in Hlt. rewrite ltb_spec in Hlt.
  change (Prim2SF (Py.float_of_int 0)) with (S754_zero false) in Hlt.
  unfold Py.int_of_float, Py.mul_float_int in Hraw.
  rewrite mul_spec, Hn in Hraw. unfold SF64mul in Hraw.
  destruct (Prim2SF value) as [s|s| |s m e]; cbn [SFmul] in Hraw.
  - by injection Hraw as <-.
  - done.
  - done.
  - assert (s = false) as -> by (by destruct s).
    pose proof (binary_round_aux_sign (xorb false false) (Zpos (m * mn))
                  (e + en) SpecFloat.loc_Exact) as Hs.
    destruct (SpecFloat.binary_round_aux _ _ _ _ _ _) as [s'|s'| |s' m' e'];
      try done.
    + by injection Hraw as <-.
    + cbn in Hs. subst s'. injection Hraw as <-.
      destruct e' as [|p|p]; [lia| |].
      * pose proof (Z.pow_pos_nonneg 2 (Zpos p)). lia.
      * apply Z.div_pos; [lia|]. apply Z.pow_pos_nonneg; lia.
Qed.

(** ** A quotient that does not overflow *)

Lemma digits2_pos_bound (p : positive) :
  ∀ K, Zpos p < 2 ^ K → Zpos (SpecFloat.digits2_pos p) ≤ K.
Proof.
  induction p as [p IH|p IH|]; intros K H; cbn [SpecFloat.digits2_pos].
  - assert (1 ≤ K) by (destruct K; [done|lia|done]).
    replace K with (Z.succ (K - 1)) in H by lia.
    rewrite Z.pow_succ_r in H by lia.
    specialize (IH (K - 1) ltac:(lia)). lia.
  - assert (1 ≤ K) by (destruct K; [done|lia|done]).
    replace K with (Z.succ (K - 1)) in H by lia.
    rewrite Z.pow_succ_r in H by lia.
    specialize (IH (K - 1) ltac:(lia)). lia.
  - destruct K as [|k|k]; [done|lia|done].
Qed.

Lemma Zdigits2_bound (m K : Z) :
  0 ≤ m < 2 ^ K → 0 ≤ K → 0 ≤ SpecFloat.Zdigits2 m ≤ K.
Proof.
  intros [H0 H] HK. destruct m as [|p|p]; [done| |lia].
  cbn [SpecFloat.Zdigits2]. pose proof (digits2_pos_bound p K H). lia.
Qed.

Lemma shr_1_bound (mrs : SpecFloat.shr_record) (M : Z) :
  0 ≤ SpecFloat.shr_m mrs ≤ M →
  0 ≤ SpecFloat.shr_m (SpecFloat.shr_1 mrs) ≤ M.
Proof.
  destruct mrs as [m r s]. cbn [SpecFloat.shr_m SpecFloat.shr_1].
  destruct m as [|[p|p|]|[p|p|]]; cbn [SpecFloat.shr_m]; lia.
Qed.

Lemma iter_shr_1_bound (p : positive) (M : Z) :
  ∀ mrs, 0 ≤ SpecFloat.shr_m mrs ≤ M →
         0 ≤ SpecFloat.shr_m (SpecFloat.iter_pos SpecFloat.shr_1 p mrs) ≤ M.
Proof.
  induction p as [p IH|p IH|]; intros mrs H; cbn [SpecFloat.iter_pos].
  - by apply IH, IH, shr_1_bound.
  - by apply IH, IH.
  - by apply shr_1_bound.
Qed.

(** One normalisation step: the mantissa does not grow, the exponent moves
    up to [fexp] at most. *)
Lemma shr_fexp_bound (m e : Z) (l : SpecFloat.location) (K : Z) :
  0 ≤ m < 2 ^ K → 0 ≤ K →
  let '(mrs, e') := SpecFloat.shr_fexp prec emax m e l in
  0 ≤ SpecFloat.shr_m mrs ≤ m ∧ e' ≤ Z.max (Z.max e (e + K)) (-1074).
Proof.
  intros Hm HK. unfold SpecFloat.shr_fexp, SpecFloat.shr.
  pose proof (Zdigits2_bound m K Hm HK) as Hd.
  assert (Hr : SpecFloat.shr_m (SpecFloat.shr_record_of_loc m l) = m)
    by (by destruct l as [|[]]).
  destruct (SpecFloat.fexp prec emax (SpecFloat.Zdigits2 m + e) - e)
    as [|p|p] eqn:E.
  - rewrite Hr. lia.
  - split; [apply iter_shr_1_bound; rewrite Hr; lia|].
    unfold SpecFloat.fexp, SpecFloat.emin, prec, emax in E. lia.
  - rewrite Hr. lia.
Qed.

Lemma round_nearest_even_bound (m : Z) (l : SpecFloat.location) :
  m ≤ SpecFloat.round_nearest_even m l ≤ m + 1.
Proof.
  unfold SpecFloat.round_nearest_even.
  destruct l as [|[]]; try destruct (Z.even m); lia.
Qed.

(** Rounding a bounded mantissa at a moderate exponent gives a zero or a
    finite number of the sign asked for. *)
Lemma binary_round_aux_finite (s : bool) (m e : Z) (l : SpecFloat.location)
    (K : Z) :
  0 ≤ m < 2 ^ K → 0 ≤ K ≤ 1000 → e + 2 * K ≤ 900 →
  match SpecFloat.binary_round_aux prec emax s m e l with
  | S754_zero s' | S754_finite s' _ _ => s' = s
  | _ => False
  end.
Proof.
  intros Hm HK He. unfold SpecFloat.binary_round_aux.
  pose proof (shr_fexp_bound m e l K Hm ltac:(lia)) as H1.
  destruct (SpecFloat.shr_fexp prec emax m e l) as [mrs' e'].
  destruct H1 as [Hm' He'].
  pose proof (round_nearest_even_bound (SpecFloat.shr_m mrs')
                (SpecFloat.loc_of_shr_record mrs')) as Hr.
  set (m2 := SpecFloat.round_nearest_even _ _) in *.
  assert (Hm2 : 0 ≤ m2 < 2 ^ (K + 1)).
  { rewrite Z.pow_add_r by lia. lia. }
  pose proof (shr_fexp_bound m2 e' SpecFloat.loc_Exact (K + 1) Hm2 ltac:(lia))
    as H2.
  destruct (SpecFloat.shr_fexp prec emax m2 e' SpecFloat.loc_Exact)
    as [mrs'' e''].
  destruct H2 as [Hm'' He''].
  destruct (SpecFloat.shr_m mrs'') as [|p|p]; [done| |lia].
  unfold emax, prec. replace (e'' <=? 1024 - 53) with true by lia. done.
Qed.

(** The quotient of two positive finite numbers with 53-bit mantissas and
    moderate exponents is a zero or a positive finite number. *)
Lemma SF64div_finite (mx my : positive) (ex ey : Z) :
  Zpos mx < 2 ^ 53 → Zpos my < 2 ^ 53 → ex - ey ≤ 200 →
  match SF64div (S754_finite false mx ex) (S754_finite false my ey) with
  | S754_zero s | S754_finite s _ _ => s = false
  | _ => False
  end.
Proof.
  intros Hx Hy He. unfold SF64div, SFdiv, SFdiv_core_binary.
  set (d1 := SpecFloat.Zdigits2 (Zpos mx)).
  set (d2 := SpecFloat.Zdigits2 (Zpos my)).
  assert (Hd1 : 0 ≤ d1 ≤ 53) by (apply Zdigits2_bound; lia).
  assert (Hd2 : 0 ≤ d2 ≤ 53) by (apply Zdigits2_bound; lia).
  set (e' := Z.min _ (ex - ey)).
  assert (He' : e' ≤ ex - ey ∧ ex - ey - e' ≤ 106).
  { subst e'. unfold SpecFloat.fexp, SpecFloat.emin, prec, emax. lia. }
  set (m' := match ex - ey - e' with
             | 0 => Zpos mx
             | Zpos _ => Z.shiftl (Zpos mx) (ex - ey - e')
             | Zneg _ => 0
             end).
  assert (Hm' : 0 ≤ m' < 2 ^ 159).
  { subst m'. destruct (ex - ey - e') as [|p|p] eqn:E.
    - split; [lia|]. eapply Z.lt_le_trans; [exact Hx|].
      apply Z.pow_le_mono_r; lia.
    - rewrite Z.shiftl_mul_pow2 by lia.
      assert (2 ^ Zpos p ≤ 2 ^ 106) by (apply Z.pow_le_mono_r; lia).
      assert (0 < 2 ^ Zpos p) by (apply Z.pow_pos_nonneg; lia).
      change (2 ^ 159) with (2 ^ 53 * 2 ^ 106). nia.
    - done. }
  pose proof (Z.div_eucl_eq m' (Zpos my) ltac:(lia)) as Hq.
  pose proof (Z.mod_pos_bound m' (Zpos my) ltac:(lia)) as Hrm.
  unfold Z.modulo in Hrm.
  destruct (Z.div_eucl m' (Zpos my)) as [q r].
  apply (binary_round_aux_finite _ q e' _ 159); [nia|lia|lia].
Qed.

Lemma amps_shape (current : Z) :
  1 ≤ current ≤ 30000 → positive_shape (scaled current) = true.
Proof.
  intros H.
  apply (all_in_spec (λ k, positive_shape (scaled k)) 30000 1); [|lia].
  vm_compute. reflexivity.
Qed.

Lemma capacity_shape (capacity : Z) :
  0 ≤ capacity < 61456 → nonneg_shape (Py.float_of_int capacity) = true.
Proof.
  intros H.
  apply (all_in_spec (λ c, nonneg_shape (Py.float_of_int c)) 61456 0); [|lia].
  vm_compute. reflexivity.
Qed.

(** [int(capacity / (current / 1000))] returns for every capacity a
    response can carry and every current from 1 to 30000 mA. *)
Lemma resistance_returns (capacity current : Z) :
  0 ≤ capacity < 61456 → 1 ≤ current ≤ 30000 →
  ∃ r, Py.int_of_float
         (PrimFloat.div (Py.float_of_int capacity) (scaled current)) = Ret r
       ∧ 0 ≤ r.
Proof.
  intros Hc Hk.
  pose proof (capacity_shape capacity Hc) as Sc.
  pose proof (amps_shape current Hk) as Sa.
  unfold Py.int_of_float. rewrite div_spec.
  unfold nonneg_shape, positive_shape in Sc, Sa.
  destruct (Prim2SF (scaled current)) as [| | |[] my ey]; try done.
  apply andb_prop in Sa as [Sa Ey2]. apply andb_prop in Sa as [My Ey1].
  destruct (Prim2SF (Py.float_of_int capacity)) as [[]| | |[] mx ex]; try done.
  - exists 0. by split.
  - apply andb_prop in Sc as [Sc Ex2]. apply andb_prop in Sc as [Mx Ex1].
    pose proof (SF64div_finite mx my ex ey ltac:(lia) ltac:(lia) ltac:(lia))
      as Hq.
    destruct (SF64div _ _) as [s|s| |s m e]; try done.
    + exists 0. by split.
    + subst s. eexists. split; [reflexivity|].
      destruct e as [|p|p]; [lia| |].
      * pose proof (Z.pow_pos_nonneg 2 (Zpos p)). lia.
      * apply Z.div_pos; [lia|]. apply Z.pow_pos_nonneg; lia.
Qed.

(** ** The command layer *)

Ltac split_tests H :=
  repeat match type of H with
         | _ || _ = true => apply orb_prop in H as [H|H]
         end.

(** C2 as stated fails: with the session idle, a constant-current discharge
    with a negative current returns normally; the state check comes first
    and the parameters are never looked at. *)
Lemma negative_current_while_idle :
  let cmd := DischargeCC (-1)%float 3%float 0 in
  let w := world_at DeviceState.idle [] in
  out_of_range cmd = true
  ∧ execute cmd w =
    (Ret None,
     logged WARNING "A startup of a test was requested while device in wrong state" w).
Proof. split; reflexivity. Qed.

(** C2 (amended). Every operation checks the required prior state first: if
    it is unmet the operation logs a warning and returns without raising and
    without any other effect, whatever its parameters; if it is met, every
    out-of-range parameter makes the operation raise before anything is
    logged, written to the port or changed in the session. *)
Theorem state_check_then_parameters (cmd : command) (w : World) :
  (required_state cmd (zk w) = false →
     ∃ msg, execute cmd w = (Ret None, logged WARNING msg w))
  ∧ (required_state cmd (zk w) = true →
     out_of_range cmd = true →
     ∃ e, execute cmd w = (Raise e, w)).
Proof.
  split.
  - intros Hs. destruct cmd; cbn [required_state] in Hs; eexists;
      unfold execute, Zketech.start_device, Zketech.stop_device,
        Zketech.stop_test, Zketech.discharge_cc, Zketech.discharge_cp,
        Zketech._charge_generic, Zketech.measure_resistance,
        Zketech.calibrate_voltage, Zketech.calibrate_current;
      repeat (progress munfold); cbn [zk]; rewrite ?Hs; try reflexivity.
    apply andb_false_iff in Hs as [Hs|Hs]; rewrite Hs; cbn; try reflexivity.
    by destruct (negb _).
  - intros Hs Hr. destruct cmd; cbn [required_state] in Hs;
      cbn [out_of_range] in Hr; try discriminate Hr; exists TypeError;
      unfold execute, Zketech.start_device, Zketech.stop_device,
        Zketech.stop_test, Zketech.discharge_cc, Zketech.discharge_cp,
        Zketech._charge_generic, Zketech.measure_resistance,
        Zketech.calibrate_voltage, Zketech.calibrate_current;
      repeat (progress munfold); cbn [zk];
      try (apply andb_prop in Hs as [Hs1 Hs2]; rewrite Hs1, Hs2);
      rewrite ?Hs; cbn [negb orb];
      repeat match goal with
             | |- context [if ?c then _ else _] =>
                 destruct c eqn:?; [reflexivity|]
             end;
      split_tests Hr; congruence.
Qed.

Lemma state_check_then_parameters_witness :
  (∃ msg,
     execute (DischargeCC (-1)%float 3%float 0) (world_at DeviceState.idle [])
     = (Ret None, logged WARNING msg (world_at DeviceState.idle [])))
  ∧ (∃ e,
       execute (Charge ReqCode.start_c_liion 1%float 0 10)
         (world_at DeviceState.monitoring [])
       = (Raise e, world_at DeviceState.monitoring [])).
Proof.
  split.
  - apply (proj1 (state_check_then_parameters
                    (DischargeCC (-1)%float 3%float 0)
                    (world_at DeviceState.idle []))).
    reflexivity.
  - apply (proj2 (state_check_then_parameters
                    (Charge ReqCode.start_c_liion 1%float 0 10)
                    (world_at DeviceState.monitoring []))); reflexivity.
Defined.

(** What the parameter errors actually are: [ZketechParametersError] is a
    function returning [None], and raising [None] is a [TypeError]. *)
Lemma parameter_error_kind :
  execute (MeasureResistance (-5)) (world_at DeviceState.monitoring [])
  = (Raise TypeError, world_at DeviceState.monitoring []).
Proof. reflexivity. Qed.

(** C8 as stated fails: for the voltage 1.001 V at level lower the program
    truncates 1000.9999999999999 to 1000 and sends p2 = 9600, where
    rounding gives 1001 and p2 = 9840. *)
Lemma calibration_truncates :
  let w := world_at DeviceState.monitoring [] in
  Py.int_of_float (Py.mul_float_int volts_1_001 1000) = Ret 1000
  ∧ spec_calibration_params Voltage volts_1_001 "lower" = Ret (4, 9840, 0)
  ∧ ∃ sent expected,
      written (port (calibrate Voltage volts_1_001 "lower" w).2) = [sent]
      ∧ encode ReqCode.calibrate 4 9600 0 w = (Ret sent, w)
      ∧ encode ReqCode.calibrate 4 9840 0 w = (Ret expected, w)
      ∧ sent ≠ expected.
Proof.
  split; [reflexivity|]. split; [reflexivity|].
  eexists _, _. repeat split; try reflexivity. discriminate.
Qed.

(** C8 (amended). For a calibration in its required state on an open port,
    of a value that is not negative and with a level among lower and upper:
    with [raw = int(value*1000)] (truncation, not rounding) small enough
    for p1 to respect the parameter bound, the request
    written is the calibrate request of parameters
    [p1 = raw div 240 + 240*offset], [p2 = (raw mod 240) * 240], [p3 = 0],
    the offset being 0 (voltage, lower), 1 (voltage, upper), 2 (current,
    lower), 3 (current, upper). *)
Theorem calibration_request (ch : channel) (value : float) (level : string)
    (raw : Z) (w : World) :
  is_open (port w) = true →
  calibration_ready ch (zk w) = true →
  Py.lt_float_int value 0 = false →
  Zketech.is_level level = true →
  Py.int_of_float (Py.mul_float_int value 1000) = Ret raw →
  raw / 240 + 240 * calibration_offset ch level ≤ 57600 →
  let p1 := raw / 240 + 240 * calibration_offset ch level in
  let p2 := raw mod 240 * 240 in
  ∃ buff,
    encode ReqCode.calibrate p1 p2 0 w = (Ret buff, w)
    ∧ b2z <$> buff =
      [250; 4; p1 / 240; p1 mod 240; p2 / 240; p2 mod 240; 0; 0;
       xor_all [4; p1 / 240; p1 mod 240; p2 / 240; p2 mod 240; 0; 0] mod 240;
       248]
    ∧ (calibrate ch value level w).1 = Ret ()
    ∧ written (port (calibrate ch value level w).2) = written (port w) ++ [buff].
Proof.
  intros Ho Hs Hv Hl Hraw Hp1 p1 p2.
  assert (H0 : 0 ≤ raw).
  { apply (int_of_product_nonneg value 1000 raw); [|done..].
    by eexists _, _. }
  assert (B1 : 0 ≤ p1 ≤ 57600).
  { subst p1. split; [|done].
    assert (0 ≤ calibration_offset ch level)
      by (unfold calibration_offset; destruct ch, (String.eqb level "upper"); lia).
    Z.div_mod_to_equations. lia. }
  assert (B2 : 0 ≤ p2 ≤ 57600) by (subst p2; Z.div_mod_to_equations; lia).
  assert (Hoff : (let q := raw / 240 in
                  let q := if String.eqb level "lower"
                           then q + 240 * (match ch with Voltage => 0 | Current => 2 end)
                           else q in
                  if String.eqb level "upper"
                  then q + 240 * (match ch with Voltage => 1 | Current => 3 end)
                  else q) = p1).
  { subst p1. unfold calibration_offset. unfold Zketech.is_level in Hl.
    destruct (String.eqb_spec level "lower") as [->|]; [by destruct ch; cbn; lia|].
    destruct (String.eqb_spec level "upper") as [->|]; [by destruct ch|done]. }
  destruct (request_sent ReqCode.calibrate p1 p2 0 B1 B2 ltac:(lia))
    as (buff & Hlay & He & Hsend).
  exists buff. split; [done|]. split; [done|].
  destruct ch; cbn [calibration_ready required_state] in Hs;
    cbn [calibrate]; unfold Zketech.calibrate_voltage, Zketech.calibrate_current;
    repeat (progress munfold); cbn [zk];
    try (apply andb_prop in Hs as [Hs1 Hs2]; rewrite Hs1, Hs2);
    rewrite ?Hs; cbn [negb orb]; rewrite Hv, Hl, Hraw; cbn [negb];
    cbv zeta in Hoff; rewrite Hoff;
    rewrite Hsend by done; sunfold; repeat (progress munfold);
    cbn [port is_open written zk logger fst snd]; rewrite ?Ho; done.
Qed.

Lemma calibration_request_witness :
  let w := world_at DeviceState.monitoring [] in
  ∃ buff,
    encode ReqCode.calibrate 4 9600 0 w = (Ret buff, w)
    ∧ b2z <$> buff = [250; 4; 0; 4; 40; 0; 0; 0; 40; 248]
    ∧ (calibrate Voltage 1%float "lower" w).1 = Ret ()
    ∧ written (port (calibrate Voltage 1%float "lower" w).2) = [buff].
Proof.
  apply (calibration_request Voltage 1%float "lower" 1000
           (world_at DeviceState.monitoring []));
    first [reflexivity | done].
Defined.

(** ** Resistance measurement *)

(** From one milliampere on, [current / 1000] is not zero (checked by
    running the division on each current of the range). *)
Lemma amps_nonzero_in_range (current : Z) :
  1 ≤ current ≤ 30000 → amps_nonzero current = true.
Proof.
  intros H. apply (all_in_spec amps_nonzero 30000 1); [|lia].
  vm_compute. reflexivity.
Qed.

(** [measure_resistance] in the monitoring state on an open port, up to the
    read of the response: the request is written, the input buffer is
    flushed, and the response is read from what the device sends next. *)
Lemma measure_resistance_steps (current : Z) (w : World) :
  device_state (zk w) = DeviceState.monitoring →
  is_open (port w) = true →
  0 ≤ current ≤ 30000 →
  ∃ buff w2,
    (∀ w', encode ReqCode.mes_resistance current 0 0 w' = (Ret buff, w'))
    ∧ zk w2 = zk w
    ∧ is_open (port w2) = true
    ∧ next_read (port w2) = take 19 (on_wire (port w))
    ∧ written (port w2) = written (port w) ++ [buff]
    ∧ Zketech.measure_resistance current w =
      (res ← Zketech.read_response;
       match res : option ResponseDataSet.t with
       | None =>
           debug "The resistance measurement request got no response";;
           mret None
       | Some res =>
           amps ← lift (Py.truediv_int_int current 1000);
           ratio ← lift (Py.truediv_int_float (ResponseDataSet.c res) amps);
           r ← lift (Py.int_of_float ratio);
           mret (Some r)
       end) w2.
Proof.
  intros Hs Ho Hc.
  destruct (request_sent ReqCode.mes_resistance current 0 0 ltac:(lia)
              ltac:(lia) ltac:(lia)) as (buff & _ & He & Hsend).
  exists buff. eexists. split; [exact He|].
  unfold Zketech.measure_resistance.
  unfold mbind at 1, M_bind at 1. unfold get_session at 1. rewrite Hs.
  change (negb (DeviceState.eqb DeviceState.monitoring DeviceState.monitoring))
    with false. cbv iota.
  replace (current <? 0) with false by lia.
  replace (30000 <? current) with false by lia.
  cbv zeta.
  unfold mbind at 1, M_bind at 1. unfold debug at 1, log at 1.
  unfold mbind at 1, M_bind at 1. rewrite Hsend by done.
  unfold mbind at 1, M_bind at 1. unfold SerialPort.reset_input_buffer.
  unfold mbind at 1, M_bind at 1. unfold SerialPort.get at 1.
  cbn [port is_open in_buffer on_wire written zk logger].
  unfold SerialPort.put.
  repeat match goal with |- _ ∧ _ => apply and_comm; split end;
    reflexivity.
Qed.

(** C9 as stated fails twice over: the quotient is truncated to an integer
    (3000 mA with capacity 500 returns 166, which is not 500/3), and at
    0 mA, which the validation lets through, the division raises. *)
Lemma resistance_is_truncated :
  let w := world_at DeviceState.monitoring capacity_500_frame in
  out_of_range (MeasureResistance 3000) = false
  ∧ (Zketech.measure_resistance 3000 w).1 = Ret (Some 166)
  ∧ PrimFloat.eqb (Py.float_of_int 166)
      (PrimFloat.div (Py.float_of_int 500) (scaled 3000)) = false
  ∧ out_of_range (MeasureResistance 0) = false
  ∧ (Zketech.measure_resistance 0 w).1 = Raise ZeroDivisionError.
Proof. repeat split; reflexivity. Qed.

(** C9 (amended). For a resistance measurement requested in the monitoring
    state on an open port with a current from 1 to 30000 mA: the request is
    written and the input flushed; if a valid response is then read, the
    operation returns [int(capacity / (current / 1000))], the quotient
    truncated toward zero, a non-negative integer; if nothing is read, or a
    buffer that the codec rejects, it returns [None] without raising. *)
Theorem measure_resistance_result (current : Z) (w : World) :
  device_state (zk w) = DeviceState.monitoring →
  is_open (port w) = true →
  1 ≤ current ≤ 30000 →
  let wire := take 19 (on_wire (port w)) in
  (wire = [] → (Zketech.measure_resistance current w).1 = Ret None)
  ∧ ((check_buffer_validity wire w).1 = Ret false →
     (Zketech.measure_resistance current w).1 = Ret None)
  ∧ (∀ b0 b1 b2 b3 b4 b5 b6 b7 b8 b9 b10 b11 b12 b13 b14 b15 b16 b17 b18,
       wire = [b0; b1; b2; b3; b4; b5; b6; b7; b8; b9; b10; b11; b12; b13;
               b14; b15; b16; b17; b18] →
       (check_buffer_validity wire w).1 = Ret true →
       let capacity := b2z b6 * 240 + b2z b7 in
       let amps := PrimFloat.div (Py.float_of_int current) (Py.float_of_int 1000) in
       ∃ r,
         (Zketech.measure_resistance current w).1 = Ret (Some r)
         ∧ Py.int_of_float (PrimFloat.div (Py.float_of_int capacity) amps) = Ret r
         ∧ 0 ≤ r).
Proof.
  intros Hs Ho Hc wire.
  destruct (measure_resistance_steps current w Hs Ho ltac:(lia))
    as (buff & w2 & _ & Hz & Ho2 & Hn & _ & ->).
  fold wire in Hn.
  pose proof (amps_nonzero_in_range current Hc) as Hnz.
  unfold amps_nonzero, scaled in Hnz. apply negb_true_iff in Hnz.
  split; [|split].
  - intros E. rewrite E in Hn.
    unfold mbind, M_bind. by rewrite (read_response_zero w2 Ho2 Hn).
  - intros Hv.
    destruct wire as [|b wire'] eqn:E.
    + unfold mbind, M_bind. by rewrite (read_response_zero w2 Ho2 Hn).
    + assert (Hne : next_read (port w2) ≠ []) by (by rewrite Hn).
      destruct (check_buffer_validity_false (b :: wire') w w2 Hv) as (l & Hl).
      destruct (read_response_rejected w2 Ho2 Hne) as (l' & Hr).
      { by rewrite Hn, Hl. }
      unfold mbind, M_bind. by rewrite Hr.
  - intros b0 b1 b2 b3 b4 b5 b6 b7 b8 b9 b10 b11 b12 b13 b14 b15 b16 b17 b18
      E Hv capacity amps.
    destruct (resistance_returns capacity current) as (r & Hr' & Hr0);
      [|done|].
    { subst capacity. pose proof (b2z_range b6). pose proof (b2z_range b7). lia. }
    exists r. split; [|by split].
    rewrite E in Hn, Hv.
    pose proof (check_buffer_validity_true _ w w2 Hv) as Hv2.
    destruct (read_response_accepted b0 b1 b2 b3 b4 b5 b6 b7 b8 b9 b10 b11 b12
                b13 b14 b15 b16 b17 b18 w2 Ho2 Hn)
      as (data & prog & Hd & _ & Hr); [by rewrite Hv2|].
    destruct (decode_19 b0 b1 b2 b3 b4 b5 b6 b7 b8 b9 b10 b11 b12 b13 b14 b15
                b16 b17 b18 w w2 Hv) as (sc & pc & pn & _ & _ & _ & Hd').
    rewrite Hd' in Hd. injection Hd as <-.
    unfold mbind at 1, M_bind at 1. rewrite Hr.
    cbn [ResponseDataSet.c].
    unfold Py.truediv_int_int. change (1000 =? 0) with false. cbv iota.
    repeat (progress munfold). unfold Py.truediv_int_float.
    fold capacity amps. fold amps in Hnz. rewrite Hnz.
    unfold scaled in Hr'. fold amps in Hr'. by rewrite Hr'.
Qed.

Lemma measure_resistance_result_witness :
  (Zketech.measure_resistance 1000 (world_at DeviceState.monitoring [])).1
  = Ret None
  ∧ (Zketech.measure_resistance 1000
       (world_at DeviceState.monitoring capacity_500_frame)).1
    = Ret (Some 500).
Proof.
  split.
  - apply (measure_resistance_result 1000 (world_at DeviceState.monitoring []));
      first [reflexivity | lia].
  - destruct (measure_resistance_result 1000
                (world_at DeviceState.monitoring capacity_500_frame)
                eq_refl eq_refl ltac:(lia)) as (_ & _ & H).
    destruct (H xfa x0a x00 x00 x00 x00 x02 x14 x00 x00 x00 x00 x00 x00 x00
                x00 x05 x19 xf8 eq_refl eq_refl) as (r & -> & Hr & _).
    injection Hr as <-. reflexivity.
Defined.

(** C10. A current of 0 mA passes the parameter validation, and when a
    valid response is then read in the monitoring state the operation does
    not return: the division of the capacity by [current / 1000 = 0.0]
    raises [ZeroDivisionError], which nothing catches. *)
Theorem measure_resistance_zero_current (w : World)
    (b0 b1 b2 b3 b4 b5 b6 b7 b8 b9 b10 b11 b12 b13 b14 b15 b16 b17 b18 : byte) :
  let wire := [b0; b1; b2; b3; b4; b5; b6; b7; b8; b9; b10; b11; b12; b13;
               b14; b15; b16; b17; b18] in
  device_state (zk w) = DeviceState.monitoring →
  is_open (port w) = true →
  take 19 (on_wire (port w)) = wire →
  (check_buffer_validity wire w).1 = Ret true →
  out_of_range (MeasureResistance 0) = false
  ∧ (Zketech.measure_resistance 0 w).1 = Raise ZeroDivisionError.
Proof.
  intros wire Hs Ho E Hv. subst wire. split; [reflexivity|].
  destruct (measure_resistance_steps 0 w Hs Ho ltac:(lia))
    as (buff & w2 & _ & Hz & Ho2 & Hn & _ & ->).
  rewrite E in Hn.
  pose proof (check_buffer_validity_true _ w w2 Hv) as Hv2.
  destruct (read_response_accepted b0 b1 b2 b3 b4 b5 b6 b7 b8 b9 b10 b11 b12
              b13 b14 b15 b16 b17 b18 w2 Ho2 Hn)
    as (data & prog & Hd & _ & Hr); [by rewrite Hv2|].
  unfold mbind at 1, M_bind at 1. rewrite Hr. reflexivity.
Qed.

Lemma measure_resistance_zero_current_witness :
  out_of_range (MeasureResistance 0) = false
  ∧ (Zketech.measure_resistance 0
       (world_at DeviceState.monitoring capacity_500_frame)).1
    = Raise ZeroDivisionError.
Proof.
  apply (measure_resistance_zero_current
           (world_at DeviceState.monitoring capacity_500_frame)
           xfa x0a x00 x00 x00 x00 x02 x14 x00 x00 x00 x00 x00 x00 x00 x00
           x05 x19 xf8); reflexivity.
Defined.

(** ** The safety watcher *)

(** A fresh watcher ignores every response: the guard that returns when a
    minimum is missing sits before the code that would seed the minima. *)
Lemma update_fresh (resp : ResponseDataSet.t) :
  SafetyWatcher.update SafetyWatcher.fresh resp = (None, SafetyWatcher.fresh).
Proof.
  unfold SafetyWatcher.update.
  by destruct (negb (String.eqb _ "testing")).
Qed.

Lemma watch_fresh (resps : list ResponseDataSet.t) :
  SafetyWatcher.watch SafetyWatcher.fresh resps
  = replicate (length resps) false.
Proof.
  induction resps as [|r rs IH]; [done|].
  cbn [SafetyWatcher.watch length replicate].
  rewrite update_fresh. cbn [snd]. by rewrite IH.
Qed.

(** C1 (the program departs from it). For the samples 1.00 A, 1.00 A,
    1.06 A, all with status testing, the monitor of the specification
    answers no anomaly, no anomaly, anomaly; the watcher of the program,
    fed the same responses from its fresh state, answers no anomaly three
    times and has seeded nothing. *)
Theorem watcher_misses_current_rise :
  let samples := [sample 1000; sample 1000; sample 1060] in
  spec_monitor None samples = [false; false; true]
  ∧ SafetyWatcher.watch SafetyWatcher.fresh samples = [false; false; false]
  ∧ (SafetyWatcher.update SafetyWatcher.fresh (sample 1000)).2
    = SafetyWatcher.fresh.
Proof. repeat split; reflexivity. Qed.

(** * Further properties of the program *)

(** ** The validity check *)

(** The check runs the same on every world: its answer and its log lines
    depend on the buffer alone, and a rejection logs one warning. *)
Lemma check_buffer_validity_warns (buff : list byte) :
  ∃ (b : bool) (l : list log_record),
    (if b then l = [] else ∃ msg, l = [LogRecord WARNING msg])
    ∧ ∀ w, check_buffer_validity buff w
           = (Ret b, mkWorld (zk w) (port w) (logger w ++ l)).
Proof.
  destruct (check_buffer_validity_run buff) as (b & l & Hl & Hrun).
  exists b, l. split; [|exact Hrun].
  destruct b; [by apply Hl|].
  pose (w0 := mkWorld Zketech.defaults (mkSerial false [] [] []) []).
  pose proof (Hrun w0) as H0. cbn [zk port logger app] in H0.
  destruct (len_in_10_19 buff) eqn:E.
  - destruct (frame_shape buff E) as (b0 & payload & cs & e & -> & L).
    explicit_payload payload L; cbn [app] in H0.
    + rewrite check_buffer_validity_10 in H0.
      repeat match type of H0 with
             | (if ?c then _ else _) = _ => destruct c
             end; injection H0 as H0; try done; by eexists.
    + rewrite check_buffer_validity_19 in H0.
      repeat match type of H0 with
             | (if ?c then _ else _) = _ => destruct c
             end; injection H0 as H0; try done; by eexists.
  - rewrite check_buffer_validity_length in H0 by done.
    injection H0 as H0. by eexists.
Qed.

Lemma check_buffer_validity_cases (buff : list byte) (w : World) :
  check_buffer_validity buff w = (Ret true, w)
  ∨ ∃ msg, check_buffer_validity buff w = (Ret false, logged WARNING msg w).
Proof.
  destruct (check_buffer_validity_warns buff) as (b & l & Hl & Hrun).
  rewrite Hrun. destruct b.
  - left. subst l. destruct w. cbn. by rewrite app_nil_r.
  - right. destruct Hl as [msg ->]. by exists msg.
Qed.

(** X1. [check_buffer_validity] never raises, whatever the buffer: it
    answers [True] and logs nothing, or answers [False] and logs exactly
    one warning; it changes neither the session nor the port, and its
    answer and its warning depend on the buffer alone. *)
Theorem check_buffer_validity_total (buff : list byte) :
  ∃ (b : bool) (l : list log_record),
    (if b then l = [] else ∃ msg, l = [LogRecord WARNING msg])
    ∧ ∀ w, check_buffer_validity buff w
           = (Ret b, mkWorld (zk w) (port w) (logger w ++ l)).
Proof. exact (check_buffer_validity_warns buff). Qed.

(** X2. The marker tests come before the checksum: in a buffer of accepted
    length, a first byte other than 250 is reported as a begin-marker
    error, and with the begin marker right a last byte other than 248 is
    reported as an end-marker error, whatever the rest of the buffer (also
    when the checksum happens to match). *)
Theorem marker_errors (b0 : byte) (payload : list byte) (cs e : byte)
    (w : World) :
  length payload = 7%nat ∨ length payload = 16%nat →
  (b2z b0 ≠ 250 →
   check_buffer_validity (b0 :: payload ++ [cs; e]) w =
   (Ret false,
    logged WARNING "Buffer's first byte does not correspond to a begin marker" w))
  ∧ (b2z b0 = 250 → b2z e ≠ 248 →
     check_buffer_validity (b0 :: payload ++ [cs; e]) w =
     (Ret false,
      logged WARNING "Buffer's last byte does not correspond to a end marker" w)).
Proof.
  intros L. split.
  - intros H0. explicit_payload payload L; cbn [app];
      [rewrite check_buffer_validity_10 | rewrite check_buffer_validity_19];
      by destruct (Z.eqb_spec (b2z b0) BEGIN_MARKER).
  - intros H0 He. explicit_payload payload L; cbn [app];
      [rewrite check_buffer_validity_10 | rewrite check_buffer_validity_19];
      rewrite H0; change (negb (250 =? BEGIN_MARKER)) with false; cbv iota;
      by destruct (Z.eqb_spec (b2z e) END_MARKER).
Qed.

Lemma marker_errors_witness :
  let w := world_at DeviceState.idle [] in
  check_buffer_validity (<[0%nat:=x00]> testing_frame) w =
  (Ret false,
   logged WARNING "Buffer's first byte does not correspond to a begin marker" w)
  ∧ check_buffer_validity (<[18%nat:=x00]> testing_frame) w =
    (Ret false,
     logged WARNING "Buffer's last byte does not correspond to a end marker" w).
Proof.
  split.
  - apply (proj1 (marker_errors x00
                    [x0a; x00; x00; x00; x00; x00; x00; x00; x00; x00; x00;
                     x00; x00; x00; x00; x05] x0f xf8
                    (world_at DeviceState.idle []) (or_intror eq_refl))).
    discriminate.
  - apply (proj2 (marker_errors xfa
                    [x0a; x00; x00; x00; x00; x00; x00; x00; x00; x00; x00;
                     x00; x00; x00; x00; x05] x0f x00
                    (world_at DeviceState.idle []) (or_intror eq_refl)));
      [reflexivity|discriminate].
Defined.

(** Which values the enumerations know. *)
Lemma StateCode_known (v : Z) :
  raised (StateCode.lookup v) = false ↔ v = 0 ∨ v = 1 ∨ v = 2 ∨ v = 10.
Proof.
  unfold StateCode.lookup, enum_lookup, StateCode.members.
  cbn [find StateCode.value].
  repeat match goal with
         | |- context [if ?a =? v then _ else _] => destruct (Z.eqb_spec a v)
         end; cbn [raised]; split; intros H; try done; lia.
Qed.

Lemma ProgCode_known (v : Z) :
  raised (ProgCode.lookup v) = false ↔ 0 ≤ v ≤ 7.
Proof.
  unfold ProgCode.lookup, enum_lookup, ProgCode.members.
  cbn [find ProgCode.value].
  repeat match goal with
         | |- context [if ?a =? v then _ else _] => destruct (Z.eqb_spec a v)
         end; cbn [raised]; split; intros H; try done; lia.
Qed.

Lemma PartNumber_known (v : Z) :
  raised (PartNumber.lookup v) = false ↔ 1 ≤ v ≤ 19.
Proof.
  unfold PartNumber.lookup, enum_lookup, PartNumber.members.
  cbn [find PartNumber.value].
  repeat match goal with
         | |- context [if ?a =? v then _ else _] => destruct (Z.eqb_spec a v)
         end; cbn [raised]; split; intros H; try done; lia.
Qed.

Lemma ReqCode_known (v : Z) :
  raised (ReqCode.lookup v) = false ↔ ∃ c, ReqCode.value c = v.
Proof.
  split.
  - intros H. apply not_raised in H as [c H]. exists c.
    by apply enum_lookup_value in H.
  - intros [c <-]. by rewrite ReqCode_lookup_value.
Qed.

(** X3. Which buffers are accepted.  A 19-byte buffer is accepted exactly
    when it begins with 250, ends with 248, its last byte but one is the
    XOR of the sixteen bytes before it modulo 240, its second byte has a
    quotient by 10 among 0, 1, 2, 10 and a remainder at most 7, and its
    seventeenth byte lies in 1..19.  A 10-byte buffer is accepted exactly
    when it has the markers, the checksum of its seven payload bytes, and
    a second byte that is the value of a request code. *)
Theorem accepted_frames :
  (∀ (b0 b1 b2 b3 b4 b5 b6 b7 b8 b9 b10 b11 b12 b13 b14 b15 b16 b17 b18 : byte)
     (w : World),
     check_buffer_validity
       [b0; b1; b2; b3; b4; b5; b6; b7; b8; b9; b10; b11; b12; b13; b14; b15;
        b16; b17; b18] w = (Ret true, w)
     ↔ b2z b0 = 250 ∧ b2z b18 = 248
       ∧ b2z b17 = xor_all (b2z <$> [b1; b2; b3; b4; b5; b6; b7; b8; b9; b10;
                                     b11; b12; b13; b14; b15; b16]) mod 240
       ∧ (b2z b1 / 10 = 0 ∨ b2z b1 / 10 = 1 ∨ b2z b1 / 10 = 2
          ∨ b2z b1 / 10 = 10)
       ∧ b2z b1 mod 10 ≤ 7
       ∧ 1 ≤ b2z b16 ≤ 19)
  ∧ (∀ (b0 b1 b2 b3 b4 b5 b6 b7 b8 b9 : byte) (w : World),
       check_buffer_validity [b0; b1; b2; b3; b4; b5; b6; b7; b8; b9] w
       = (Ret true, w)
       ↔ b2z b0 = 250 ∧ b2z b9 = 248
         ∧ b2z b8 = xor_all (b2z <$> [b1; b2; b3; b4; b5; b6; b7]) mod 240
         ∧ ∃ c, ReqCode.value c = b2z b1).
Proof.
  split.
  - intros. rewrite check_buffer_validity_19.
    pose proof (StateCode_known (b2z b1 / 10)) as Hs.
    pose proof (ProgCode_known (b2z b1 mod 10)) as Hp.
    pose proof (PartNumber_known (b2z b16)) as Hm.
    pose proof (b2z_range b1) as R1.
    assert (0 ≤ b2z b1 mod 10) by (Z.div_mod_to_equations; lia).
    destruct (Z.eqb_spec (b2z b0) BEGIN_MARKER) as [E0|E0];
      [|split; [done|intros (? & _); done]].
    destruct (Z.eqb_spec (b2z b18) END_MARKER) as [E1|E1];
      [|split; [done|intros (_ & ? & _); done]].
    destruct (Z.eqb_spec (b2z b17)
                (xor_all (b2z <$> [b1; b2; b3; b4; b5; b6; b7; b8; b9; b10;
                                   b11; b12; b13; b14; b15; b16]) mod 240))
      as [E2|E2]; [|split; [done|intros (_ & _ & ? & _); done]].
    cbn [negb].
    destruct (raised (StateCode.lookup _)).
    { split; [done|]. intros (_ & _ & _ & Hx & _).
      apply Hs in Hx. done. }
    destruct (raised (ProgCode.lookup _)).
    { split; [done|]. intros (_ & _ & _ & _ & Hx & _).
      assert (false = true → False) by done.
      destruct Hp as [_ Hp]. by specialize (Hp ltac:(lia)). }
    destruct (raised (PartNumber.lookup _)).
    { split; [done|]. intros (_ & _ & _ & _ & _ & Hx).
      destruct Hm as [_ Hm]. by specialize (Hm Hx). }
    split; [|done]. intros _.
    destruct Hs as [Hs _], Hp as [Hp _], Hm as [Hm _].
    specialize (Hs eq_refl). specialize (Hp eq_refl). specialize (Hm eq_refl).
    repeat split; try done; lia.
  - intros. rewrite check_buffer_validity_10.
    pose proof (ReqCode_known (b2z b1)) as Hc.
    destruct (Z.eqb_spec (b2z b0) BEGIN_MARKER) as [E0|E0];
      [|split; [done|intros (? & _); done]].
    destruct (Z.eqb_spec (b2z b9) END_MARKER) as [E1|E1];
      [|split; [done|intros (_ & ? & _); done]].
    destruct (Z.eqb_spec (b2z b8)
                (xor_all (b2z <$> [b1; b2; b3; b4; b5; b6; b7]) mod 240))
      as [E2|E2]; [|split; [done|intros (_ & _ & ? & _); done]].
    cbn [negb].
    destruct (raised (ReqCode.lookup _)).
    { split; [done|]. intros (_ & _ & _ & Hx). apply Hc in Hx. done. }
    split; [|done]. intros _. destruct Hc as [Hc _]. by repeat split; try apply Hc.
Qed.

(** An accepted buffer has one of the two lengths. *)
Lemma accepted_length (buff : list byte) (w : World) :
  (check_buffer_validity buff w).1 = Ret true → len_in_10_19 buff = true.
Proof.
  intros H. destruct (len_in_10_19 buff) eqn:E; [done|].
  by rewrite check_buffer_validity_length in H.
Qed.

Lemma accepted_payload_length (b0 : byte) (payload : list byte) (cs e : byte)
    (w : World) :
  (check_buffer_validity (b0 :: payload ++ [cs; e]) w).1 = Ret true →
  length payload = 7%nat ∨ length payload = 16%nat.
Proof.
  intros H. apply accepted_length in H. unfold len_in_10_19 in H.
  cbn [length] in H. rewrite length_app in H. cbn [length] in H.
  apply orb_prop in H as [H|H]; apply Z.eqb_eq in H; lia.
Qed.

(** X4. The checksum byte is protected without exception: in a buffer the
    check accepts, replacing the checksum byte (the last but one) by any
    other value makes the check fail with the checksum warning. *)
Theorem checksum_byte_change_detected (b0 : byte) (payload : list byte)
    (cs cs' e : byte) (w : World) :
  (check_buffer_validity (b0 :: payload ++ [cs; e]) w).1 = Ret true →
  cs' ≠ cs →
  check_buffer_validity (b0 :: payload ++ [cs'; e]) w =
  (Ret false,
   logged WARNING "Buffer's computed checksum does not correspond to checksum field value" w).
Proof.
  intros Hok Hne.
  pose proof (accepted_payload_length _ _ _ _ _ Hok) as L.
  apply check_buffer_validity_inv in Hok as (H0 & He & Hcs).
  apply check_buffer_validity_checksum; try done.
  rewrite <- Hcs. intros E. by apply b2z_inj in E.
Qed.

Lemma checksum_byte_change_detected_witness :
  check_buffer_validity (<[17%nat:=x10]> testing_frame)
    (world_at DeviceState.idle [])
  = (Ret false,
     logged WARNING "Buffer's computed checksum does not correspond to checksum field value"
       (world_at DeviceState.idle [])).
Proof.
  apply (checksum_byte_change_detected xfa
           [x0a; x00; x00; x00; x00; x00; x00; x00; x00; x00; x00; x00; x00;
            x00; x00; x05] x0f x10 xf8 (world_at DeviceState.idle []));
    [reflexivity|discriminate].
Defined.

(** Flipping the high nibble of one value of a payload flips it in the XOR. *)
Lemma xor_all_flip (payload : list byte) (j : nat) (b b' : byte) :
  payload !! j = Some b →
  b2z b' = Z.lxor (b2z b) 240 →
  xor_all (b2z <$> <[j:=b']> payload)
  = Z.lxor (xor_all (b2z <$> payload)) 240.
Proof.
  intros Hj Hb. rewrite list_fmap_insert.
  rewrite (xor_all_insert _ j (b2z b) (b2z b')).
  - rewrite Hb. f_equal. xor_solve.
  - by rewrite list_lookup_fmap, Hj.
Qed.

Lemma flip_collision (x : Z) :
  0 ≤ x < 256 →
  Z.lxor x 240 mod 240 = x mod 240 ↔ x < 16 ∨ 240 ≤ x.
Proof.
  intros R.
  assert (flip_collides x = true) as H.
  { apply (all_in_spec flip_collides 256 0); [by vm_compute|lia]. }
  unfold flip_collides in H. apply Bool.eqb_prop in H.
  split.
  - intros E. apply Z.eqb_eq in E. rewrite E in H. symmetry in H.
    apply orb_prop in H as [H|H]; [apply Z.ltb_lt in H|apply Z.leb_le in H]; lia.
  - intros E. apply Z.eqb_eq. rewrite H. apply orb_true_iff.
    destruct E; [left; by apply Z.ltb_lt|right; by apply Z.leb_le].
Qed.

(** X5. What the checksum misses.  In an accepted 19-byte response, flip the
    four high bits of one metric byte (XOR with 240; positions 2 to 15).
    The changed buffer is accepted again exactly when the XOR of the
    sixteen payload bytes is below 16 or at least 240; otherwise the change
    is reported as a checksum error. *)
Theorem high_nibble_flip (b0 : byte) (payload : list byte) (cs e : byte)
    (j : nat) (b b' : byte) (w : World) :
  length payload = 16%nat →
  (check_buffer_validity (b0 :: payload ++ [cs; e]) w).1 = Ret true →
  (1 ≤ j ≤ 14)%nat →
  payload !! j = Some b →
  b2z b' = Z.lxor (b2z b) 240 →
  let X := xor_all (b2z <$> payload) in
  (X < 16 ∨ 240 ≤ X →
   check_buffer_validity (b0 :: <[j:=b']> payload ++ [cs; e]) w = (Ret true, w))
  ∧ (16 ≤ X < 240 →
     check_buffer_validity (b0 :: <[j:=b']> payload ++ [cs; e]) w =
     (Ret false,
      logged WARNING "Buffer's computed checksum does not correspond to checksum field value" w)).
Proof.
  intros L Hok Hj Hb Hb' X.
  pose proof (xor_all_flip payload j b b' Hb Hb') as Hx. fold X in Hx.
  pose proof (xor_all_bytes_range payload) as RX. fold X in RX.
  pose proof (flip_collision X RX) as Hc.
  pose proof (check_buffer_validity_inv _ _ _ _ _ Hok) as (H0 & He & Hcs).
  fold X in Hcs.
  assert (∀ d, b2z cs ≠ xor_all (b2z <$> <[j:=b']> payload) mod 240 →
     check_buffer_validity (b0 :: <[j:=b']> payload ++ [cs; e]) w = d → 
     d = (Ret false,
      logged WARNING "Buffer's computed checksum does not correspond to checksum field value" w)) as Hbad.
  { intros d Hne <-. apply check_buffer_validity_checksum; try done.
    right. by rewrite length_insert. }
  split.
  - intros HX. apply Hc in HX. rewrite <- Hx in HX.
    assert (b2z cs = xor_all (b2z <$> <[j:=b']> payload) mod 240) as Hcs'
      by congruence.
    clear Hbad Hx Hc Hb Hb' RX. clearbody X.
    do 16 (destruct payload as [|? payload]; [discriminate L|]).
    destruct payload; [|discriminate L].
    cbn [app] in Hok. rewrite check_buffer_validity_19 in Hok.
    destruct j as [|j]; [lia|].
    do 14 (destruct j as [|j];
           [cbn [insert list_insert app]; rewrite check_buffer_validity_19;
            cbn [insert list_insert] in Hcs'; rewrite <- Hcs';
            rewrite Z.eqb_refl;
            repeat match type of Hok with
                   | (if ?c then _ else _).1 = _ =>
                       destruct c; [discriminate Hok|]
                   end; reflexivity|]).
    lia.
  - intros HX. eapply Hbad; [|reflexivity].
    rewrite Hx, Hcs. intros E. symmetry in E. apply Hc in E. lia.
Qed.

Lemma high_nibble_flip_witness :
  check_buffer_validity (<[3%nat:=xf0]> testing_frame)
    (world_at DeviceState.idle [])
  = (Ret true, world_at DeviceState.idle []).
Proof.
  apply (proj1 (high_nibble_flip xfa
           [x0a; x00; x00; x00; x00; x00; x00; x00; x00; x00; x00; x00; x00;
            x00; x00; x05] x0f xf8 2 x00 xf0 (world_at DeviceState.idle [])
           eq_refl eq_refl ltac:(lia) eq_refl eq_refl)).
  left. by vm_compute.
Defined.

(** Of the payload of a 19-byte buffer the check looks at the first byte,
    the last byte and the XOR of all sixteen. *)
Lemma accepted_19_payload (b0 : byte) (payload payload' : list byte)
    (cs e : byte) (w : World) :
  length payload = 16%nat → length payload' = 16%nat →
  payload' !! 0%nat = payload !! 0%nat →
  payload' !! 15%nat = payload !! 15%nat →
  xor_all (b2z <$> payload') = xor_all (b2z <$> payload) →
  (check_buffer_validity (b0 :: payload ++ [cs; e]) w).1 = Ret true →
  check_buffer_validity (b0 :: payload' ++ [cs; e]) w = (Ret true, w).
Proof.
  intros L L' H0 H15 Hx Hok.
  remember (xor_all (b2z <$> payload)) as X eqn:EX.
  remember (xor_all (b2z <$> payload')) as X' eqn:EX'.
  do 16 (destruct payload as [|? payload]; [discriminate L|]).
  destruct payload; [|discriminate L].
  do 16 (destruct payload' as [|? payload']; [discriminate L'|]).
  destruct payload'; [|discriminate L'].
  cbn [app] in *. rewrite check_buffer_validity_19 in Hok |- *.
  cbn [lookup list_lookup] in H0, H15. injection H0 as ->. injection H15 as ->.
  rewrite <- EX in Hok. rewrite <- EX', Hx.
  repeat match type of Hok with
         | (if ?c then _ else _).1 = _ => destruct c; [discriminate Hok|]
         end.
  reflexivity.
Qed.

(** X6. The checksum does not see the order of the bytes.  In an accepted
    19-byte response, exchanging any two metric bytes (positions 2 to 15,
    for instance the high and the low byte of the current) gives a buffer
    that is accepted as well. *)
Theorem byte_swap_undetected (b0 : byte) (payload : list byte) (cs e : byte)
    (j k : nat) (a b : byte) (w : World) :
  length payload = 16%nat →
  (check_buffer_validity (b0 :: payload ++ [cs; e]) w).1 = Ret true →
  (1 ≤ j ≤ 14)%nat → (1 ≤ k ≤ 14)%nat →
  payload !! j = Some a →
  payload !! k = Some b →
  check_buffer_validity (b0 :: <[j:=b]> (<[k:=a]> payload) ++ [cs; e]) w
  = (Ret true, w).
Proof.
  intros L Hok Hj Hk Ha Hb.
  apply (accepted_19_payload b0 payload); try done.
  - by rewrite !length_insert.
  - rewrite !list_lookup_insert_ne by lia. done.
  - rewrite !list_lookup_insert_ne by lia. done.
  - destruct (decide (j = k)) as [->|Hne].
    + assert (a = b) as -> by congruence.
      rewrite list_insert_insert_eq. by rewrite list_insert_id.
    + rewrite !list_fmap_insert.
      rewrite (xor_all_insert _ j (b2z a) (b2z b)).
      2:{ rewrite list_lookup_insert_ne by done.
          by rewrite list_lookup_fmap, Ha. }
      rewrite (xor_all_insert _ k (b2z b) (b2z a)).
      2:{ by rewrite list_lookup_fmap, Hb. }
      xor_solve.
Qed.

Lemma byte_swap_undetected_witness :
  check_buffer_validity
    [xfa; x0a; x00; x00; x00; x00; x14; x02; x00; x00; x00; x00; x00; x00; x00;
     x00; x05; x19; xf8] (world_at DeviceState.idle [])
  = (Ret true, world_at DeviceState.idle []).
Proof.
  apply (byte_swap_undetected xfa
           [x0a; x00; x00; x00; x00; x02; x14; x00; x00; x00; x00; x00; x00;
            x00; x00; x05] x19 xf8 5 6 x02 x14 (world_at DeviceState.idle [])
           eq_refl eq_refl ltac:(lia) ltac:(lia) eq_refl eq_refl).
Defined.

(** ** Request descriptors and frames *)

Lemma zketech_checksum_cons (x : Z) (l : list Z) :
  zketech_checksum (x :: l) = Ret (xor_all (x :: l) mod 240).
Proof.
  unfold zketech_checksum. by rewrite reduce_xor_cons.
Qed.

(** X7. [RequestDataSet.__init__] raises [ValueError] exactly when one of
    the three parameters lies outside 0..57600, and nothing else.  In a
    descriptor it builds, each parameter is kept and split in a high part
    of at most 240 and a low part below 240 with [p = 240 * high + low],
    and the checksum is below 240: every field fits an unsigned byte. *)
Theorem request_descriptor (req_code : ReqCode.t) (p1 p2 p3 : Z) :
  (¬ (0 ≤ p1 ≤ 57600 ∧ 0 ≤ p2 ≤ 57600 ∧ 0 ≤ p3 ≤ 57600) →
   RequestDataSet.init req_code p1 p2 p3 = Raise ValueError)
  ∧ (0 ≤ p1 ≤ 57600 ∧ 0 ≤ p2 ≤ 57600 ∧ 0 ≤ p3 ≤ 57600 →
     ∃ data,
       RequestDataSet.init req_code p1 p2 p3 = Ret data
       ∧ RequestDataSet.req_code data = req_code
       ∧ RequestDataSet.p1 data = p1
       ∧ RequestDataSet.p2 data = p2
       ∧ RequestDataSet.p3 data = p3
       ∧ p1 = 240 * RequestDataSet.p1_h data + RequestDataSet.p1_l data
       ∧ p2 = 240 * RequestDataSet.p2_h data + RequestDataSet.p2_l data
       ∧ p3 = 240 * RequestDataSet.p3_h data + RequestDataSet.p3_l data
       ∧ 0 ≤ RequestDataSet.p1_h data ≤ 240 ∧ 0 ≤ RequestDataSet.p1_l data < 240
       ∧ 0 ≤ RequestDataSet.p2_h data ≤ 240 ∧ 0 ≤ RequestDataSet.p2_l data < 240
       ∧ 0 ≤ RequestDataSet.p3_h data ≤ 240 ∧ 0 ≤ RequestDataSet.p3_l data < 240
       ∧ 0 ≤ RequestDataSet.checksum data < 240).
Proof.
  split.
  - intros H. unfold RequestDataSet.init.
    destruct (Z.ltb_spec p1 0); [done|].
    destruct (Z.ltb_spec p2 0); [done|].
    destruct (Z.ltb_spec p3 0); [done|].
    destruct (Z.ltb_spec 57600 p1); [done|].
    destruct (Z.ltb_spec 57600 p2); [done|].
    destruct (Z.ltb_spec 57600 p3); [done|].
    exfalso. apply H. lia.
  - intros (R1 & R2 & R3). eexists. split.
    { by apply RequestDataSet_init_ok. }
    cbn [RequestDataSet.req_code RequestDataSet.p1 RequestDataSet.p2
         RequestDataSet.p3 RequestDataSet.p1_h RequestDataSet.p1_l
         RequestDataSet.p2_h RequestDataSet.p2_l RequestDataSet.p3_h
         RequestDataSet.p3_l RequestDataSet.checksum].
    repeat split; try done; Z.div_mod_to_equations; lia.
Qed.

Lemma request_descriptor_witness :
  RequestDataSet.init ReqCode.start_d_cc 57601 0 0 = Raise ValueError
  ∧ ∃ data,
      RequestDataSet.init ReqCode.start_d_cc 1500 280 999 = Ret data
      ∧ RequestDataSet.p1_h data = 6 ∧ RequestDataSet.p1_l data = 60.
Proof.
  split.
  - apply (proj1 (request_descriptor ReqCode.start_d_cc 57601 0 0)). lia.
  - destruct (proj2 (request_descriptor ReqCode.start_d_cc 1500 280 999)
                ltac:(lia)) as (data & H & _ & _ & _ & _ & H1 & _ & _ & R1 & R2 & _).
    exists data. split; [exact H|]. lia.
Defined.

Lemma ReqCode_value_inj (c c' : ReqCode.t) :
  ReqCode.value c = ReqCode.value c' → c = c'.
Proof.
  destruct c, c'; cbn [ReqCode.value]; intros H; try reflexivity; discriminate H.
Qed.

(** X8. Two different requests never share a frame: when [encode] yields
    the same buffer for two requests with parameters in 0..57600, the
    request codes and the three parameters are the same. *)
Theorem encode_injective (c c' : ReqCode.t) (p1 p2 p3 p1' p2' p3' : Z)
    (w w' : World) (buff : list byte) :
  0 ≤ p1 ≤ 57600 → 0 ≤ p2 ≤ 57600 → 0 ≤ p3 ≤ 57600 →
  0 ≤ p1' ≤ 57600 → 0 ≤ p2' ≤ 57600 → 0 ≤ p3' ≤ 57600 →
  (encode c p1 p2 p3 w).1 = Ret buff →
  (encode c' p1' p2' p3' w').1 = Ret buff →
  c = c' ∧ p1 = p1' ∧ p2 = p2' ∧ p3 = p3'.
Proof.
  intros R1 R2 R3 R1' R2' R3' H H'.
  destruct (request_sent c p1 p2 p3 R1 R2 R3) as (b & Hb & He & _).
  destruct (request_sent c' p1' p2' p3' R1' R2' R3') as (b' & Hb' & He' & _).
  rewrite He in H. rewrite He' in H'. cbn [fst] in H, H'.
  injection H as ->. injection H' as ->.
  rewrite Hb in Hb'. injection Hb' as Hc H1 H2 H3 H4 H5 H6 _.
  split; [by apply ReqCode_value_inj|].
  Z.div_mod_to_equations. lia.
Qed.

Lemma encode_injective_witness :
  ReqCode.start_d_cc = ReqCode.start_d_cc
  ∧ 1500 = 1500 ∧ 280 = 280 ∧ 999 = 999.
Proof.
  pose (w := world_at DeviceState.monitoring []).
  apply (encode_injective ReqCode.start_d_cc ReqCode.start_d_cc
           1500 280 999 1500 280 999 w w
           [xfa; x01; x06; x3c; x01; x28; x04; x27; x31; xf8]);
    first [lia | by vm_compute].
Defined.

(** ** Response frames *)

(** X9. [ResponseFrame.get_response_data_set] has three outcomes: a buffer
    the check rejects gives [None] (and the one warning of the check); an
    accepted 19-byte buffer gives a descriptor and logs nothing; an
    accepted 10-byte buffer, a well-formed request frame, raises
    [struct.error].  Nothing else is raised. *)
Theorem response_data_set_outcomes (buff : list byte) (w : World) :
  ((check_buffer_validity buff w).1 = Ret false
   ∧ ∃ msg, ResponseFrame.get_response_data_set buff w
            = (Ret None, logged WARNING msg w))
  ∨ ((check_buffer_validity buff w).1 = Ret true ∧ length buff = 19%nat
     ∧ ∃ data, ResponseFrame.get_response_data_set buff w = (Ret (Some data), w))
  ∨ ((check_buffer_validity buff w).1 = Ret true ∧ length buff = 10%nat
     ∧ ResponseFrame.get_response_data_set buff w = (Raise StructError, w)).
Proof.
  destruct (check_buffer_validity_cases buff w) as [Hok|[msg Hrun]].
  - right.
    assert ((check_buffer_validity buff w).1 = Ret true) as Hok1
      by by rewrite Hok.
    pose proof (accepted_length _ _ Hok1) as L.
    destruct (frame_shape buff L) as (b0 & payload & cs & e & -> & Lp).
    explicit_payload payload Lp; cbn [app] in *.
    + right. repeat split; try done.
      unfold ResponseFrame.get_response_data_set.
      unfold mbind at 1, M_bind. rewrite Hok. reflexivity.
    + left. repeat split; try done.
      edestruct decode_19 as (? & ? & ? & _ & _ & _ & Hd); [exact Hok1|].
      eexists. apply Hd.
  - left. split; [by rewrite Hrun|].
    exists msg. unfold ResponseFrame.get_response_data_set.
    unfold mbind at 1, M_bind. rewrite Hrun. reflexivity.
Qed.

(** ** The session: sending and reading *)

(** A buffer with the layout of a request is accepted. *)
Lemma valid_request_frame (buff : list byte) (c : ReqCode.t)
    (x1 x2 x3 x4 x5 x6 : Z) :
  b2z <$> buff =
    [250; ReqCode.value c; x1; x2; x3; x4; x5; x6;
     xor_all [ReqCode.value c; x1; x2; x3; x4; x5; x6] mod 240; 248] →
  length buff = 10%nat
  ∧ ∀ w, check_buffer_validity buff w = (Ret true, w).
Proof.
  intros H.
  do 10 (destruct buff as [|? buff]; [discriminate H|]).
  destruct buff; [|discriminate H].
  split; [done|]. intros w. rewrite check_buffer_validity_10.
  cbn [fmap list_fmap] in *.
  injection H as -> -> -> -> -> -> -> -> -> ->.
  by rewrite ReqCode_lookup_value, !Z.eqb_refl.
Qed.

Lemma send_request_closed (req_code : ReqCode.t) (p1 p2 p3 : Z) (w : World) :
  is_open (port w) = false →
  Zketech.send_request req_code p1 p2 p3 w =
  (Ret (),
   mkWorld (mkSession DeviceState.disconnected (prog_state (zk w))
              (part_number (zk w)))
     (port w) (logger w)).
Proof.
  intros Ho. unfold Zketech.send_request. sunfold. repeat (progress munfold).
  by rewrite Ho.
Qed.

Lemma init_out_of_range (req_code : ReqCode.t) (p1 p2 p3 : Z) :
  ¬ (0 ≤ p1 ≤ 57600 ∧ 0 ≤ p2 ≤ 57600 ∧ 0 ≤ p3 ≤ 57600) →
  RequestDataSet.init req_code p1 p2 p3 = Raise ValueError.
Proof.
  intros H. unfold RequestDataSet.init.
  destruct (Z.ltb_spec p1 0); [done|].
  destruct (Z.ltb_spec p2 0); [done|].
  destruct (Z.ltb_spec p3 0); [done|].
  destruct (Z.ltb_spec 57600 p1); [done|].
  destruct (Z.ltb_spec 57600 p2); [done|].
  destruct (Z.ltb_spec 57600 p3); [done|].
  exfalso. apply H. lia.
Qed.

Lemma send_request_out_of_range (req_code : ReqCode.t) (p1 p2 p3 : Z)
    (w : World) :
  is_open (port w) = true →
  ¬ (0 ≤ p1 ≤ 57600 ∧ 0 ≤ p2 ≤ 57600 ∧ 0 ≤ p3 ≤ 57600) →
  Zketech.send_request req_code p1 p2 p3 w = (Raise ValueError, w).
Proof.
  intros Ho H. unfold Zketech.send_request. sunfold. repeat (progress munfold).
  rewrite Ho. cbn [negb]. by rewrite init_out_of_range.
Qed.

(** The world after [send_request] has written [buff] on an open port. *)
Lemma send_request_in_range (req_code : ReqCode.t) (p1 p2 p3 : Z) :
  0 ≤ p1 ≤ 57600 → 0 ≤ p2 ≤ 57600 → 0 ≤ p3 ≤ 57600 →
  ∃ buff,
    length buff = 10%nat
    ∧ (∀ w, check_buffer_validity buff w = (Ret true, w))
    ∧ (∀ w, encode req_code p1 p2 p3 w = (Ret buff, w))
    ∧ (∀ w, is_open (port w) = true →
            Zketech.send_request req_code p1 p2 p3 w =
            (Ret (),
             mkWorld (zk w)
               (mkSerial true (in_buffer (port w)) (on_wire (port w))
                  (written (port w) ++ [buff]))
               (logger w ++ [LogRecord DEBUG "Sended request to device";
                             LogRecord DEBUG "Sended buffer"]))).
Proof.
  intros R1 R2 R3.
  destruct (request_sent req_code p1 p2 p3 R1 R2 R3) as (buff & Hb & He & Hs).
  exists buff. destruct (valid_request_frame _ _ _ _ _ _ _ _ Hb) as [L V].
  done.
Qed.

(** X10. The three outcomes of [send_request].  On a closed port it sets the
    state to disconnected and returns, without looking at the parameters
    and without writing.  On an open port, parameters outside 0..57600
    raise [ValueError] and leave everything as it was; parameters inside
    get exactly one buffer written, ten bytes long and accepted by the
    validity check, with two debug lines, and the session stays as it
    was. *)
Theorem send_request_outcomes (req_code : ReqCode.t) (p1 p2 p3 : Z) (w : World) :
  (is_open (port w) = false →
   Zketech.send_request req_code p1 p2 p3 w =
   (Ret (),
    mkWorld (mkSession DeviceState.disconnected (prog_state (zk w))
               (part_number (zk w)))
      (port w) (logger w)))
  ∧ (is_open (port w) = true →
     ¬ (0 ≤ p1 ≤ 57600 ∧ 0 ≤ p2 ≤ 57600 ∧ 0 ≤ p3 ≤ 57600) →
     Zketech.send_request req_code p1 p2 p3 w = (Raise ValueError, w))
  ∧ (is_open (port w) = true →
     0 ≤ p1 ≤ 57600 ∧ 0 ≤ p2 ≤ 57600 ∧ 0 ≤ p3 ≤ 57600 →
     ∃ buff,
       length buff = 10%nat
       ∧ check_buffer_validity buff w = (Ret true, w)
       ∧ Zketech.send_request req_code p1 p2 p3 w =
         (Ret (),
          mkWorld (zk w)
            (mkSerial true (in_buffer (port w)) (on_wire (port w))
               (written (port w) ++ [buff]))
            (logger w ++ [LogRecord DEBUG "Sended request to device";
                          LogRecord DEBUG "Sended buffer"]))).
Proof.
  split; [apply send_request_closed|].
  split; [apply send_request_out_of_range|].
  intros Ho (R1 & R2 & R3).
  destruct (send_request_in_range req_code p1 p2 p3 R1 R2 R3)
    as (buff & L & V & _ & Hs).
  exists buff. auto.
Qed.

Lemma send_request_outcomes_witness :
  let closed := mkWorld (mkSession DeviceState.monitoring None None)
                  (mkSerial false [] [] []) [] in
  let w := world_at DeviceState.monitoring [] in
  Zketech.send_request ReqCode.start_d_cc (-1) 0 0 closed =
  (Ret (), mkWorld (mkSession DeviceState.disconnected None None)
             (mkSerial false [] [] []) [])
  ∧ Zketech.send_request ReqCode.start_d_cc 60000 280 0 w = (Raise ValueError, w)
  ∧ ∃ buff,
      length buff = 10%nat
      ∧ check_buffer_validity buff w = (Ret true, w)
      ∧ Zketech.send_request ReqCode.start_d_cc 1500 280 999 w =
        (Ret (),
         mkWorld (zk w) (mkSerial true [] [] [buff])
           [LogRecord DEBUG "Sended request to device";
            LogRecord DEBUG "Sended buffer"]).
Proof.
  intros closed w. split; [|split].
  - apply (proj1 (send_request_outcomes ReqCode.start_d_cc (-1) 0 0 closed)).
    reflexivity.
  - apply (proj1 (proj2 (send_request_outcomes ReqCode.start_d_cc 60000 280 0 w)));
      [reflexivity|lia].
  - apply (proj2 (proj2 (send_request_outcomes ReqCode.start_d_cc 1500 280 999 w)));
      [reflexivity|lia].
Defined.

(** A read that returns an accepted 10-byte buffer. *)
Lemma read_response_struct_error (w : World) :
  is_open (port w) = true →
  length (next_read (port w)) = 10%nat →
  (check_buffer_validity (next_read (port w)) w).1 = Ret true →
  Zketech.read_response w =
  (Raise StructError,
   mkWorld (mkSession DeviceState.monitoring (prog_state (zk w)) None)
     (after_read (port w)) (logger w)).
Proof.
  intros Ho L Hv. rewrite (read_response_open w Ho). cbv zeta.
  remember (next_read (port w)) as buff eqn:E. clear E.
  do 10 (destruct buff as [|? buff]; [discriminate L|]).
  destruct buff; [|discriminate L].
  match goal with |- context [Z.of_nat (length ?b) =? 0] =>
    change (Z.of_nat (length b) =? 0) with false end. cbv iota.
  munfold.
  match goal with |- context [check_buffer_validity ?b ?w1] =>
    rewrite (check_buffer_validity_true b w w1 Hv) end.
  cbn [negb]. repeat (progress munfold).
  cbn [zk port logger device_state prog_state part_number].
  unfold ResponseFrame.get_response_data_set. repeat (progress munfold).
  match goal with |- context [check_buffer_validity ?b ?w1] =>
    rewrite (check_buffer_validity_true b w w1 Hv) end.
  reflexivity.
Qed.

Lemma length_19 (buff : list byte) :
  length buff = 19%nat →
  ∃ b0 b1 b2 b3 b4 b5 b6 b7 b8 b9 b10 b11 b12 b13 b14 b15 b16 b17 b18,
    buff = [b0; b1; b2; b3; b4; b5; b6; b7; b8; b9; b10; b11; b12; b13;
            b14; b15; b16; b17; b18].
Proof.
  intros L.
  do 19 (destruct buff as [|? buff]; [discriminate L|]).
  destruct buff; [|discriminate L].
  by repeat eexists.
Qed.

Lemma accepted_10_or_19 (buff : list byte) (w : World) :
  (check_buffer_validity buff w).1 = Ret true →
  length buff = 10%nat ∨ length buff = 19%nat.
Proof.
  intros H. apply accepted_length in H. unfold len_in_10_19 in H.
  apply orb_prop in H as [H|H]; apply Z.eqb_eq in H; lia.
Qed.

(** X11. What [read_response] does to the port and how it can fail.  It
    never writes and never opens or closes the port.  On a closed port it
    returns [None] with the state disconnected and leaves the input
    untouched.  The only exception it raises is [struct.error], and that
    exactly when the port is open and the bytes read are a 10-byte buffer
    the validity check accepts (a well-formed request frame); the state is
    then already monitoring and the model cleared. *)
Theorem read_response_effects (w : World) :
  let r := Zketech.read_response w in
  written (port r.2) = written (port w)
  ∧ is_open (port r.2) = is_open (port w)
  ∧ (is_open (port w) = false →
     r.1 = Ret None ∧ port r.2 = port w
     ∧ device_state (zk r.2) = DeviceState.disconnected)
  ∧ (raised r.1 = true ↔
     is_open (port w) = true ∧ length (next_read (port w)) = 10%nat
     ∧ (check_buffer_validity (next_read (port w)) w).1 = Ret true)
  ∧ (raised r.1 = true →
     r.1 = Raise StructError
     ∧ device_state (zk r.2) = DeviceState.monitoring
     ∧ part_number (zk r.2) = None).
Proof.
  cbv zeta. destruct (is_open (port w)) eqn:Ho.
  - assert (is_open (after_read (port w)) = true
            ∧ written (after_read (port w)) = written (port w)) as [Ha Hw] by done.
    destruct (next_read (port w)) as [|b buff] eqn:En.
    { rewrite (read_response_zero w Ho En). cbn. repeat split; try done.
      by intros (_ & ? & _). }
    destruct (check_buffer_validity_cases (b :: buff) w) as [Hok|[msg Hbad]].
    + assert ((check_buffer_validity (b :: buff) w).1 = Ret true) as Hv
        by by rewrite Hok.
      destruct (accepted_10_or_19 _ _ Hv) as [L|L].
      * rewrite (read_response_struct_error w Ho); rewrite ?En; try done.
      * destruct (length_19 _ L) as (b0 & b1 & b2 & b3 & b4 & b5 & b6 & b7 & b8
          & b9 & b10 & b11 & b12 & b13 & b14 & b15 & b16 & b17 & b18 & E).
        rewrite E in En, Hv.
        destruct (read_response_accepted b0 b1 b2 b3 b4 b5 b6 b7 b8 b9 b10 b11
                    b12 b13 b14 b15 b16 b17 b18 w Ho En Hv)
          as (data & prog & _ & _ & Hr).
        rewrite Hr. cbn. repeat split; try done.
        intros (_ & H10 & _). cbn [length] in L, H10. lia.
    + assert ((check_buffer_validity (b :: buff) w).1 = Ret false) as Hv
        by by rewrite Hbad.
      destruct (read_response_rejected w Ho) as (l & Hr); rewrite ?En; try done.
      rewrite Hr. cbn. repeat split; try done.
      intros (_ & _ & ?). congruence.
  - rewrite (read_response_closed w Ho). cbn. repeat split; try done.
    by intros (? & _).
Qed.

Lemma read_response_effects_witness :
  let w := mkWorld (mkSession DeviceState.testing None None)
             (mkSerial false [x00] [] []) [] in
  let w' := world_at DeviceState.idle calibrate_frame in
  ((Zketech.read_response w).1 = Ret None
   ∧ port (Zketech.read_response w).2 = port w
   ∧ device_state (zk (Zketech.read_response w).2) = DeviceState.disconnected)
  ∧ ((Zketech.read_response w').1 = Raise StructError
     ∧ device_state (zk (Zketech.read_response w').2) = DeviceState.monitoring
     ∧ part_number (zk (Zketech.read_response w').2) = None).
Proof.
  intros w w'. split.
  - apply (proj1 (proj2 (proj2 (read_response_effects w)))). reflexivity.
  - apply (proj2 (proj2 (proj2 (proj2 (read_response_effects w'))))).
    apply (proj2 (proj1 (proj2 (proj2 (proj2 (read_response_effects w')))))).
    by vm_compute.
Defined.

(** X12. What an accepted response leaves in the session.  When the read on
    an open port returns a 19-byte buffer the check accepts, [read_response]
    returns its descriptor, and afterwards the state is testing when the
    second byte has quotient 1 by 10, ending when it has quotient 2 and
    monitoring otherwise (quotients 0 and 10); the recorded program has the
    remainder of that byte by 10 as its value and the recorded model the
    seventeenth byte. *)
Theorem response_recorded
    (b0 b1 b2 b3 b4 b5 b6 b7 b8 b9 b10 b11 b12 b13 b14 b15 b16 b17 b18 : byte)
    (w : World) :
  let buff := [b0; b1; b2; b3; b4; b5; b6; b7; b8; b9; b10; b11; b12; b13;
               b14; b15; b16; b17; b18] in
  is_open (port w) = true →
  next_read (port w) = buff →
  (check_buffer_validity buff w).1 = Ret true →
  let r := Zketech.read_response w in
  (∃ data, r.1 = Ret (Some data)
           ∧ ResponseFrame.get_response_data_set buff w = (Ret (Some data), w))
  ∧ device_state (zk r.2)
    = (if b2z b1 / 10 =? 1 then DeviceState.testing
       else if b2z b1 / 10 =? 2 then DeviceState.ending
       else DeviceState.monitoring)
  ∧ (∃ prog, prog_state (zk r.2) = Some prog
             ∧ ProgState.value prog = b2z b1 mod 10)
  ∧ (∃ model, part_number (zk r.2) = Some model
              ∧ PartNumber.value model = b2z b16).
Proof.
  intros buff Ho Hn Hv r.
  destruct (read_response_accepted b0 b1 b2 b3 b4 b5 b6 b7 b8 b9 b10 b11 b12
              b13 b14 b15 b16 b17 b18 w Ho Hn Hv) as (data & prog & Hd & Hp & Hr).
  destruct (decode_19 b0 b1 b2 b3 b4 b5 b6 b7 b8 b9 b10 b11 b12 b13 b14 b15
              b16 b17 b18 w w Hv) as (sc & pc & pn & Hsc & Hpc & Hpn & Hd').
  fold buff in Hd, Hd'. rewrite Hd in Hd'. injection Hd' as ->.
  subst r. rewrite Hr. cbn [fst snd zk device_state prog_state part_number].
  apply enum_lookup_value in Hsc, Hpc, Hpn.
  cbn [ResponseDataSet.state_code ResponseDataSet.prog_code
       ResponseDataSet.part_number] in *.
  split; [by eexists|]. split.
  - rewrite <- Hsc. by destruct sc.
  - split; [exists prog; split; [done|congruence]|by exists pn].
Qed.

Lemma response_recorded_witness :
  let r := Zketech.read_response (world_at DeviceState.idle capacity_500_frame) in
  device_state (zk r.2) = DeviceState.testing
  ∧ (∃ prog, prog_state (zk r.2) = Some prog ∧ ProgState.value prog = 0)
  ∧ (∃ model, part_number (zk r.2) = Some model ∧ PartNumber.value model = 5).
Proof.
  exact (proj2 (response_recorded xfa x0a x00 x00 x00 x00 x02 x14 x00 x00 x00
                  x00 x00 x00 x00 x00 x05 x19 xf8
                  (world_at DeviceState.idle capacity_500_frame)
                  eq_refl eq_refl eq_refl)).
Defined.

(** X13. A backlog is thrown away whole.  With more than 19 bytes waiting
    in the input buffer, [read_response] behaves as if none were waiting:
    the waiting bytes, complete frames included, are discarded and only
    what arrives afterwards is read; when nothing arrives the device is
    declared idle. *)
Theorem backlog_discarded (w : World) :
  is_open (port w) = true →
  (19 < length (in_buffer (port w)))%nat →
  Zketech.read_response w =
  Zketech.read_response
    (mkWorld (zk w) (mkSerial true [] (on_wire (port w)) (written (port w)))
       (logger w))
  ∧ (on_wire (port w) = [] →
     (Zketech.read_response w).1 = Ret None
     ∧ device_state (zk (Zketech.read_response w).2) = DeviceState.idle).
Proof.
  intros Ho Hb.
  assert (next_read (port w) = take 19 (on_wire (port w))) as Hn.
  { unfold next_read. by replace (19 <? _) with true by lia. }
  assert (after_read (port w)
          = mkSerial true (drop 19 (on_wire (port w))) [] (written (port w)))
    as Ha.
  { unfold after_read. by replace (19 <? _) with true by lia. }
  split.
  - rewrite (read_response_open w Ho), read_response_open by done.
    cbn [zk port logger]. by rewrite Hn, Ha.
  - intros Hw. rewrite (read_response_zero w Ho); [done|].
    by rewrite Hn, Hw.
Qed.

Lemma backlog_discarded_witness :
  let w := mkWorld (mkSession DeviceState.testing None None)
             (mkSerial true (x00 :: testing_frame) [] []) [] in
  (Zketech.read_response w).1 = Ret None
  ∧ device_state (zk (Zketech.read_response w).2) = DeviceState.idle.
Proof.
  intros w.
  apply (proj2 (backlog_discarded w eq_refl ltac:(cbn; lia))). reflexivity.
Defined.

(** ** The command layer *)

Lemma in_range_dec (p1 p2 p3 : Z) :
  (0 ≤ p1 ≤ 57600 ∧ 0 ≤ p2 ≤ 57600 ∧ 0 ≤ p3 ≤ 57600)
  ∨ ¬ (0 ≤ p1 ≤ 57600 ∧ 0 ≤ p2 ≤ 57600 ∧ 0 ≤ p3 ≤ 57600).
Proof. lia. Qed.

(** The three ways [send_request] ends. *)
Lemma send_request_cases (req_code : ReqCode.t) (p1 p2 p3 : Z) (w : World) :
  (is_open (port w) = false
   ∧ Zketech.send_request req_code p1 p2 p3 w =
     (Ret (),
      mkWorld (mkSession DeviceState.disconnected (prog_state (zk w))
                 (part_number (zk w)))
        (port w) (logger w)))
  ∨ (is_open (port w) = true
     ∧ Zketech.send_request req_code p1 p2 p3 w = (Raise ValueError, w))
  ∨ (is_open (port w) = true
     ∧ ∃ buff,
         length buff = 10%nat
         ∧ (∀ w0, check_buffer_validity buff w0 = (Ret true, w0))
         ∧ Zketech.send_request req_code p1 p2 p3 w =
           (Ret (),
            mkWorld (zk w)
              (mkSerial true (in_buffer (port w)) (on_wire (port w))
                 (written (port w) ++ [buff]))
              (logger w ++ [LogRecord DEBUG "Sended request to device";
                            LogRecord DEBUG "Sended buffer"]))).
Proof.
  destruct (is_open (port w)) eqn:Ho.
  - right. destruct (in_range_dec p1 p2 p3) as [(R1 & R2 & R3)|R].
    + right. split; [done|].
      destruct (send_request_in_range req_code p1 p2 p3 R1 R2 R3)
        as (buff & L & V & _ & Hs).
      exists buff. auto.
    + left. split; [done|]. by apply send_request_out_of_range.
  - left. split; [done|]. by apply send_request_closed.
Qed.

(** [read_response] reads only. *)
Lemma read_response_port (w : World) :
  written (port (Zketech.read_response w).2) = written (port w)
  ∧ is_open (port (Zketech.read_response w).2) = is_open (port w).
Proof.
  destruct (is_open (port w)) eqn:Ho.
  - destruct (next_read (port w)) as [|b buff] eqn:En.
    { by rewrite (read_response_zero w Ho En). }
    destruct (check_buffer_validity_cases (b :: buff) w) as [Hok|[msg Hbad]].
    + assert ((check_buffer_validity (b :: buff) w).1 = Ret true) as Hv
        by by rewrite Hok.
      destruct (accepted_10_or_19 _ _ Hv) as [L|L].
      * by rewrite (read_response_struct_error w Ho); rewrite ?En.
      * destruct (length_19 _ L) as (b0 & b1 & b2 & b3 & b4 & b5 & b6 & b7 & b8
          & b9 & b10 & b11 & b12 & b13 & b14 & b15 & b16 & b17 & b18 & E).
        rewrite E in En, Hv.
        destruct (read_response_accepted b0 b1 b2 b3 b4 b5 b6 b7 b8 b9 b10 b11
                    b12 b13 b14 b15 b16 b17 b18 w Ho En Hv)
          as (data & prog & _ & _ & Hr).
        by rewrite Hr.
    + assert ((check_buffer_validity (b :: buff) w).1 = Ret false) as Hv
        by by rewrite Hbad.
      destruct (read_response_rejected w Ho) as (l & Hr); rewrite ?En; try done.
      by rewrite Hr.
  - by rewrite (read_response_closed w Ho).
Qed.

Ltac unfold_command :=
  unfold execute, Zketech.start_device, Zketech.stop_device, Zketech.stop_test,
    Zketech.discharge_cc, Zketech.discharge_cp, Zketech._charge_generic,
    Zketech.measure_resistance, Zketech.calibrate_voltage,
    Zketech.calibrate_current.

Ltac run_tests :=
  repeat match goal with
         | |- context [if ?c then _ else _] => destruct c eqn:?
         end.

(** The world in which [send_request] runs, and what a command has done by
    the time it returns. *)
Lemma command_sends (cmd : command) (w : World) :
  (∃ r l, execute cmd w = (r, mkWorld (zk w) (port w) (logger w ++ l)))
  ∨ ∃ req_code p1 p2 p3,
      let w1 := logged DEBUG "Sending request" w in
      let s := Zketech.send_request req_code p1 p2 p3 w1 in
      match cmd with
      | StartDevice | StopDevice | StopTest
      | DischargeCC _ _ _ | DischargeCP _ _ _ | Charge _ _ _ _ =>
          execute cmd w = (s.1 ≫= λ _, Ret None, s.2)
      | CalibrateVoltage _ _ | CalibrateCurrent _ _ =>
          execute cmd w =
          match s.1 with
          | Ret _ => (SerialPort.reset_input_buffer ;; mret None) s.2
          | Raise e => (Raise e, s.2)
          end
      | MeasureResistance current =>
          p1 = current
          ∧ execute cmd w =
            match s.1 with
            | Ret _ =>
                (SerialPort.reset_input_buffer;;
                 res ← Zketech.read_response;
                 match res : option ResponseDataSet.t with
                 | None =>
                     debug "The resistance measurement request got no response";;
                     mret None
                 | Some res =>
                     amps ← lift (Py.truediv_int_int p1 1000);
                     ratio ← lift (Py.truediv_int_float (ResponseDataSet.c res) amps);
                     r ← lift (Py.int_of_float ratio);
                     mret (Some r)
                 end) s.2
            | Raise e => (Raise e, s.2)
            end
      end.
Proof.
  assert (∀ (r : res (option Z)), ∃ r' l,
            (r, w) = (r', mkWorld (zk w) (port w) (logger w ++ l))) as Hsame.
  { intros r. exists r, []. destruct w. cbn. by rewrite app_nil_r. }
  assert (∀ (r : res (option Z)) msg, ∃ r' l,
            (r, logged WARNING msg w)
            = (r', mkWorld (zk w) (port w) (logger w ++ l))) as Hwarn.
  { intros r msg. by exists r, [LogRecord WARNING msg]. }
  destruct cmd; unfold_command.
  - repeat (progress munfold). cbn [zk].
    run_tests; [left; apply Hwarn|]. right.
    exists ReqCode.start_device, 0, 0, 0. cbv zeta.
    by destruct (Zketech.send_request _ _ _ _ _) as [[[]|] ?].
  - repeat (progress munfold). cbn [zk].
    run_tests; [left; apply Hwarn|]. right.
    exists ReqCode.stop_device, 0, 0, 0. cbv zeta.
    by destruct (Zketech.send_request _ _ _ _ _) as [[[]|] ?].
  - repeat (progress munfold). cbn [zk].
    run_tests; [left; apply Hwarn|]. right.
    exists ReqCode.stop_test, 0, 0, 0. cbv zeta.
    by destruct (Zketech.send_request _ _ _ _ _) as [[[]|] ?].
  - repeat (progress munfold). cbn [zk].
    run_tests; try (left; apply Hwarn); try (left; apply Hsame).
    destruct (Py.int_of_float (Py.mul_float_int current 1000)) as [p1|];
      [|left; apply Hsame].
    destruct (Py.int_of_float (Py.mul_float_int cutoff_voltage 100)) as [p2|];
      [|left; apply Hsame].
    right. exists ReqCode.start_d_cc, p1, p2, max_duration. cbv zeta.
    repeat (progress munfold).
    by destruct (Zketech.send_request _ _ _ _ _) as [[[]|] ?].
  - repeat (progress munfold). cbn [zk].
    run_tests; try (left; apply Hwarn); try (left; apply Hsame).
    destruct (Py.int_of_float (Py.mul_float_int power 10)) as [p1|];
      [|left; apply Hsame].
    destruct (Py.int_of_float (Py.mul_float_int cutoff_voltage 100)) as [p2|];
      [|left; apply Hsame].
    right. exists ReqCode.start_d_cp, p1, p2, max_duration. cbv zeta.
    repeat (progress munfold).
    by destruct (Zketech.send_request _ _ _ _ _) as [[[]|] ?].
  - repeat (progress munfold). cbn [zk].
    run_tests; try (left; apply Hwarn); try (left; apply Hsame).
    destruct (Py.int_of_float (Py.mul_float_int current 1000)) as [p1|];
      [|left; apply Hsame].
    right. exists req_code, p1, nb_cells, max_duration. cbv zeta.
    repeat (progress munfold).
    by destruct (Zketech.send_request _ _ _ _ _) as [[[]|] ?].
  - repeat (progress munfold). cbn [zk].
    run_tests; try (left; apply Hwarn); try (left; apply Hsame).
    right. exists ReqCode.mes_resistance, current, 0, 0. cbv zeta.
    split; [done|].
    by destruct (Zketech.send_request _ _ _ _ _) as [[[]|] ?].
  - repeat (progress munfold). cbn [zk].
    do 3 (match goal with
          | |- context [if ?c then _ else _] => destruct c eqn:?
          end; [first [left; apply Hwarn|left; apply Hsame]|]).
    destruct (Py.int_of_float (Py.mul_float_int voltage 1000)) as [raw|];
      [|left; apply Hsame].
    match goal with
    | |- context [Zketech.send_request ReqCode.calibrate ?a ?b 0 _] =>
        right; exists ReqCode.calibrate, a, b, 0
    end. cbv zeta.
    destruct (Zketech.send_request _ _ _ _ _) as [[[]|] ?]; cbn [fst snd];
      [|reflexivity].
    by destruct (SerialPort.reset_input_buffer _) as [[[]|] ?].
  - repeat (progress munfold). cbn [zk].
    do 3 (match goal with
          | |- context [if ?c then _ else _] => destruct c eqn:?
          end; [first [left; apply Hwarn|left; apply Hsame]|]).
    destruct (Py.int_of_float (Py.mul_float_int current 1000)) as [raw|];
      [|left; apply Hsame].
    match goal with
    | |- context [Zketech.send_request ReqCode.calibrate ?a ?b 0 _] =>
        right; exists ReqCode.calibrate, a, b, 0
    end. cbv zeta.
    destruct (Zketech.send_request _ _ _ _ _) as [[[]|] ?]; cbn [fst snd];
      [|reflexivity].
    by destruct (SerialPort.reset_input_buffer _) as [[[]|] ?].
Qed.

(** The last step of [measure_resistance] touches neither the session nor
    the port. *)
Lemma resistance_tail (current : Z) (res : option ResponseDataSet.t)
    (w : World) :
  let r := (match res : option ResponseDataSet.t with
            | None =>
                debug "The resistance measurement request got no response";;
                mret None
            | Some res =>
                amps ← lift (Py.truediv_int_int current 1000);
                ratio ← lift (Py.truediv_int_float (ResponseDataSet.c res) amps);
                r ← lift (Py.int_of_float ratio);
                mret (Some r)
            end) w in
  port r.2 = port w ∧ zk r.2 = zk w.
Proof.
  destruct res as [res|]; repeat (progress munfold); [|done].
  destruct (Py.truediv_int_int current 1000) as [amps|]; [|done].
  destruct (Py.truediv_int_float (ResponseDataSet.c res) amps) as [ratio|];
    [|done].
  by destruct (Py.int_of_float ratio).
Qed.

Lemma bind_run {A B} (m : M A) (f : A → M B) (w : World) :
  (m ≫= f) w =
  match m w with
  | (Ret a, w') => f a w'
  | (Raise e, w') => (Raise e, w')
  end.
Proof. reflexivity. Qed.

Lemma reset_input_buffer_open (w : World) :
  is_open (port w) = true →
  SerialPort.reset_input_buffer w =
  (Ret (),
   mkWorld (zk w) (mkSerial true [] (on_wire (port w)) (written (port w)))
     (logger w)).
Proof.
  intros Ho. unfold SerialPort.reset_input_buffer. sunfold.
  repeat (progress munfold). by rewrite Ho.
Qed.

Lemma reset_input_buffer_closed (w : World) :
  is_open (port w) = false →
  SerialPort.reset_input_buffer w = (Raise PortNotOpenError, w).
Proof.
  intros Ho. unfold SerialPort.reset_input_buffer. sunfold.
  repeat (progress munfold). by rewrite Ho.
Qed.

(** X14. Sending never changes what the session records.  On an open port
    every operation of the command layer other than [measure_resistance]
    (which reads the answer itself) leaves the device state, the program
    and the model as they were, whether it returns or raises: the session
    only follows what [read_response] reads. *)
Theorem commands_keep_session (cmd : command) (w : World) :
  is_open (port w) = true →
  (∀ current, cmd ≠ MeasureResistance current) →
  zk (execute cmd w).2 = zk w.
Proof.
  intros Ho Hm.
  destruct (command_sends cmd w) as [(r & l & ->)|(c & p1 & p2 & p3 & H)];
    [done|].
  cbv zeta in H.
  destruct (send_request_cases c p1 p2 p3 (logged DEBUG "Sending request" w))
    as [[Hc Hs]|[[_ Hs]|(_ & buff & L & V & Hs)]];
    [cbn in Hc; congruence|..];
    rewrite Hs in H; cbn [fst snd] in H;
    destruct cmd; try (by rewrite H); try (by destruct (Hm current)).
  all: rewrite H; sunfold; repeat (progress munfold); reflexivity.
Qed.

Lemma commands_keep_session_witness :
  zk (execute (DischargeCC 1.5%float 2.75%float 0)
        (world_at DeviceState.monitoring [])).2
  = zk (world_at DeviceState.monitoring []).
Proof.
  apply (commands_keep_session (DischargeCC 1.5%float 2.75%float 0)
           (world_at DeviceState.monitoring []));
    [reflexivity|discriminate].
Defined.

(** X15. The command layer never puts a malformed buffer on the wire.
    Whatever the operation, its arguments, the session and the port, by
    the time it returns or raises it has written nothing or exactly one
    buffer, and that buffer is ten bytes long and accepted by the validity
    check. *)
Theorem commands_write_valid_frames (cmd : command) (w : World) :
  one_frame_more w (execute cmd w).2.
Proof.
  destruct (command_sends cmd w) as [(r & l & ->)|(c & p1 & p2 & p3 & H)];
    [by left|].
  cbv zeta in H.
  destruct (send_request_cases c p1 p2 p3 (logged DEBUG "Sending request" w))
    as [[Hc Hs]|[[Ho Hs]|(Ho & buff & L & V & Hs)]];
    rewrite Hs in H; cbn [fst snd] in H.
  - (* closed port *)
    cbn [logged port] in Hc.
    destruct cmd; try (match type of H with _ ∧ _ => destruct H as [_ H] end); rewrite H; try (by left);
      sunfold; repeat (progress munfold); cbn [port]; rewrite Hc; by left.
  - (* parameters beyond the frame's bound *)
    destruct cmd; try (match type of H with _ ∧ _ => destruct H as [_ H] end); rewrite H; by left.
  - (* one buffer written *)
    assert (∀ w', written (port w') = written (port w) ++ [buff] →
                  one_frame_more w w') as Hone.
    { intros w' E. right. by exists buff. }
    destruct cmd; try (rewrite H; by apply Hone).
    destruct H as [-> H]. rewrite H, bind_run.
    rewrite reset_input_buffer_open by done. rewrite bind_run.
    match goal with |- context [Zketech.read_response ?w2] =>
      pose proof (read_response_port w2) as [Hw _];
      destruct (Zketech.read_response w2) as [[res|e] w3]
    end; cbn [fst snd port written] in Hw |- *; [|by apply Hone].
    apply Hone.
    pose proof (resistance_tail current res w3) as [Hp _].
    cbv zeta in Hp. rewrite Hp. exact Hw.
Qed.

Lemma finite_scale_1000 :
  ∃ m e, Prim2SF (Py.float_of_int 1000) = S754_finite false m e.
Proof. by eexists _, _. Qed.

Lemma finite_scale_100 :
  ∃ m e, Prim2SF (Py.float_of_int 100) = S754_finite false m e.
Proof. by eexists _, _. Qed.

Lemma finite_scale_10 :
  ∃ m e, Prim2SF (Py.float_of_int 10) = S754_finite false m e.
Proof. by eexists _, _. Qed.

(** A buffer is known by the values of its bytes. *)
Lemma bytes_of_values (buff buff' : list byte) :
  b2z <$> buff = b2z <$> buff' → buff = buff'.
Proof.
  revert buff'. induction buff as [|b buff IH]; intros [|b' buff'] H;
    try done.
  injection H as Hb H. f_equal; [by apply b2z_inj|by apply IH].
Qed.

(** X16. The three control requests.  In its required state on an open
    port, [start_device] (state idle) writes the ten bytes
    250 5 0 0 0 0 0 0 5 248, [stop_device] (state monitoring) writes
    250 6 0 0 0 0 0 0 6 248 and [stop_test] (state testing) writes
    250 2 0 0 0 0 0 0 2 248; each logs three debug lines, returns, and
    leaves the session and the input side of the port as they were. *)
Theorem control_requests (w : World) :
  is_open (port w) = true →
  let sent buff :=
    (Ret (),
     mkWorld (zk w)
       (mkSerial true (in_buffer (port w)) (on_wire (port w))
          (written (port w) ++ [buff]))
       (logger w ++ [LogRecord DEBUG "Sending request";
                     LogRecord DEBUG "Sended request to device";
                     LogRecord DEBUG "Sended buffer"])) in
  (device_state (zk w) = DeviceState.idle →
   Zketech.start_device w
   = sent [xfa; x05; x00; x00; x00; x00; x00; x00; x05; xf8])
  ∧ (device_state (zk w) = DeviceState.monitoring →
     Zketech.stop_device w
     = sent [xfa; x06; x00; x00; x00; x00; x00; x00; x06; xf8])
  ∧ (device_state (zk w) = DeviceState.testing →
     Zketech.stop_test w
     = sent [xfa; x02; x00; x00; x00; x00; x00; x00; x02; xf8]).
Proof.
  intros Ho sent.
  assert (∀ c buff,
            b2z <$> buff = [250; ReqCode.value c; 0; 0; 0; 0; 0; 0;
                            ReqCode.value c mod 240; 248] →
            Zketech.send_request c 0 0 0 (logged DEBUG "Sending request" w)
            = sent buff) as Hsend.
  { intros c buff Hb.
    destruct (request_sent c 0 0 0 ltac:(lia) ltac:(lia) ltac:(lia))
      as (buff' & Hb' & _ & Hs).
    assert (buff' = buff) as ->.
    { apply bytes_of_values. rewrite Hb, Hb'. repeat f_equal.
      change (0 / 240) with 0. change (0 mod 240) with 0.
      unfold xor_all. cbn [fold_left]. by rewrite !Z.lxor_0_r. }
    rewrite Hs by done. unfold sent, logged. cbn [zk port logger].
    by rewrite <- app_assoc. }
  repeat split; intros Hs.
  - unfold Zketech.start_device. repeat (progress munfold). cbn [zk].
    rewrite Hs. apply (Hsend ReqCode.start_device). reflexivity.
  - unfold Zketech.stop_device. repeat (progress munfold). cbn [zk].
    rewrite Hs. apply (Hsend ReqCode.stop_device). reflexivity.
  - unfold Zketech.stop_test. repeat (progress munfold). cbn [zk].
    rewrite Hs. apply (Hsend ReqCode.stop_test). reflexivity.
Qed.

Lemma control_requests_witness :
  written (port (Zketech.stop_test (world_at DeviceState.testing [])).2)
  = [[xfa; x02; x00; x00; x00; x00; x00; x00; x02; xf8]].
Proof.
  rewrite (proj2 (proj2 (control_requests (world_at DeviceState.testing [])
                           eq_refl)) eq_refl).
  reflexivity.
Defined.

(** What a test request does once its parameters are known. *)
Lemma test_request_sent (req_code : ReqCode.t) (p1 p2 p3 : Z) (w : World) :
  is_open (port w) = true →
  0 ≤ p1 → 0 ≤ p2 → 0 ≤ p3 ≤ 999 →
  let r := Zketech.send_request req_code p1 p2 p3
             (logged DEBUG "Sending request" w) in
  (p1 ≤ 57600 → p2 ≤ 57600 →
   ∃ buff,
     encode req_code p1 p2 p3 w = (Ret buff, w)
     ∧ b2z <$> buff =
       [250; ReqCode.value req_code;
        p1 / 240; p1 mod 240; p2 / 240; p2 mod 240; p3 / 240; p3 mod 240;
        xor_all [ReqCode.value req_code; p1 / 240; p1 mod 240; p2 / 240;
                 p2 mod 240; p3 / 240; p3 mod 240] mod 240;
        248]
     ∧ r.1 = Ret ()
     ∧ written (port r.2) = written (port w) ++ [buff])
  ∧ (57600 < p1 ∨ 57600 < p2 →
     r = (Raise ValueError, logged DEBUG "Sending request" w)).
Proof.
  intros Ho R1 R2 R3 r. split.
  - intros B1 B2.
    destruct (request_sent req_code p1 p2 p3 ltac:(lia) ltac:(lia) ltac:(lia))
      as (buff & Hb & He & Hs).
    exists buff. subst r. rewrite Hs by done. done.
  - intros B. subst r. apply send_request_out_of_range; [done|lia].
Qed.

(** X17. The request of [discharge_cc].  In state monitoring on an open
    port, with a current and a cut-off voltage that are not negative and a
    duration in 0..999, the parameters are [p1 = int(current * 1000)] (mA),
    [p2 = int(cutoff_voltage * 100)] (hundredths of a volt) and
    [p3 = max_duration], none of them negative.  When p1 and p2 are at
    most 57600 the one buffer written is the frame of command code 1 with
    these parameters; when one of them is larger (a current above 57.6 A,
    a voltage above 576 V) nothing is written and [ValueError] is raised,
    one debug line having been logged. *)
Theorem discharge_cc_request (current cutoff_voltage : float)
    (max_duration p1 p2 : Z) (w : World) :
  is_open (port w) = true →
  device_state (zk w) = DeviceState.monitoring →
  Py.lt_float_int current 0 = false →
  Py.lt_float_int cutoff_voltage 0 = false →
  0 ≤ max_duration ≤ 999 →
  Py.int_of_float (Py.mul_float_int current 1000) = Ret p1 →
  Py.int_of_float (Py.mul_float_int cutoff_voltage 100) = Ret p2 →
  let r := Zketech.discharge_cc current cutoff_voltage max_duration w in
  0 ≤ p1 ∧ 0 ≤ p2
  ∧ (p1 ≤ 57600 → p2 ≤ 57600 →
     ∃ buff,
       encode ReqCode.start_d_cc p1 p2 max_duration w = (Ret buff, w)
       ∧ b2z <$> buff =
         [250; 1; p1 / 240; p1 mod 240; p2 / 240; p2 mod 240;
          max_duration / 240; max_duration mod 240;
          xor_all [1; p1 / 240; p1 mod 240; p2 / 240; p2 mod 240;
                   max_duration / 240; max_duration mod 240] mod 240;
          248]
       ∧ r.1 = Ret ()
       ∧ written (port r.2) = written (port w) ++ [buff])
  ∧ (57600 < p1 ∨ 57600 < p2 →
     r = (Raise ValueError, logged DEBUG "Sending request" w)).
Proof.
  intros Ho Hs Hc Hv Hd H1 H2 r.
  assert (0 ≤ p1) as R1
    by (by apply (int_of_product_nonneg current 1000 p1 finite_scale_1000)).
  assert (0 ≤ p2) as R2
    by (by apply (int_of_product_nonneg cutoff_voltage 100 p2 finite_scale_100)).
  assert (r = Zketech.send_request ReqCode.start_d_cc p1 p2 max_duration
                (logged DEBUG "Sending request" w)) as ->.
  { subst r. unfold Zketech.discharge_cc. repeat (progress munfold). cbn [zk].
    rewrite Hs, Hc, Hv, H1, H2.
    replace (max_duration <? 0) with false by lia.
    replace (999 <? max_duration) with false by lia. reflexivity. }
  split; [done|]. split; [done|].
  by apply test_request_sent.
Qed.

Lemma discharge_cc_request_witness :
  let w := world_at DeviceState.monitoring [] in
  let r := Zketech.discharge_cc 1.5%float 2.75%float 90 w in
  0 ≤ 1500 ∧ 0 ≤ 275
  ∧ (1500 ≤ 57600 → 275 ≤ 57600 →
     ∃ buff,
       encode ReqCode.start_d_cc 1500 275 90 w = (Ret buff, w)
       ∧ b2z <$> buff =
         [250; 1; 1500 / 240; 1500 mod 240; 275 / 240; 275 mod 240;
          90 / 240; 90 mod 240;
          xor_all [1; 1500 / 240; 1500 mod 240; 275 / 240; 275 mod 240;
                   90 / 240; 90 mod 240] mod 240;
          248]
       ∧ r.1 = Ret ()
       ∧ written (port r.2) = written (port w) ++ [buff])
  ∧ (57600 < 1500 ∨ 57600 < 275 →
     r = (Raise ValueError, logged DEBUG "Sending request" w)).
Proof.
  apply (discharge_cc_request 1.5%float 2.75%float 90 1500 275
           (world_at DeviceState.monitoring []));
    first [reflexivity | lia].
Defined.

(** X18. The request of [discharge_cp].  As for [discharge_cc], with the
    power in tenths of a watt: [p1 = int(power * 10)],
    [p2 = int(cutoff_voltage * 100)], [p3 = max_duration], command code
    17; a parameter above 57600 raises [ValueError] and nothing is
    written. *)
Theorem discharge_cp_request (power cutoff_voltage : float)
    (max_duration p1 p2 : Z) (w : World) :
  is_open (port w) = true →
  device_state (zk w) = DeviceState.monitoring →
  Py.lt_float_int power 0 = false →
  Py.lt_float_int cutoff_voltage 0 = false →
  0 ≤ max_duration ≤ 999 →
  Py.int_of_float (Py.mul_float_int power 10) = Ret p1 →
  Py.int_of_float (Py.mul_float_int cutoff_voltage 100) = Ret p2 →
  let r := Zketech.discharge_cp power cutoff_voltage max_duration w in
  0 ≤ p1 ∧ 0 ≤ p2
  ∧ (p1 ≤ 57600 → p2 ≤ 57600 →
     ∃ buff,
       encode ReqCode.start_d_cp p1 p2 max_duration w = (Ret buff, w)
       ∧ b2z <$> buff =
         [250; 17; p1 / 240; p1 mod 240; p2 / 240; p2 mod 240;
          max_duration / 240; max_duration mod 240;
          xor_all [17; p1 / 240; p1 mod 240; p2 / 240; p2 mod 240;
                   max_duration / 240; max_duration mod 240] mod 240;
          248]
       ∧ r.1 = Ret ()
       ∧ written (port r.2) = written (port w) ++ [buff])
  ∧ (57600 < p1 ∨ 57600 < p2 →
     r = (Raise ValueError, logged DEBUG "Sending request" w)).
Proof.
  intros Ho Hs Hc Hv Hd H1 H2 r.
  assert (0 ≤ p1) as R1
    by (by apply (int_of_product_nonneg power 10 p1 finite_scale_10)).
  assert (0 ≤ p2) as R2
    by (by apply (int_of_product_nonneg cutoff_voltage 100 p2 finite_scale_100)).
  assert (r = Zketech.send_request ReqCode.start_d_cp p1 p2 max_duration
                (logged DEBUG "Sending request" w)) as ->.
  { subst r. unfold Zketech.discharge_cp. repeat (progress munfold). cbn [zk].
    rewrite Hs, Hc, Hv, H1, H2.
    replace (max_duration <? 0) with false by lia.
    replace (999 <? max_duration) with false by lia. reflexivity. }
  split; [done|]. split; [done|].
  by apply test_request_sent.
Qed.

Lemma discharge_cp_request_witness :
  let w := world_at DeviceState.monitoring [] in
  let r := Zketech.discharge_cp 6000%float 2.75%float 0 w in
  0 ≤ 60000 ∧ 0 ≤ 275
  ∧ (60000 ≤ 57600 → 275 ≤ 57600 →
     ∃ buff,
       encode ReqCode.start_d_cp 60000 275 0 w = (Ret buff, w)
       ∧ b2z <$> buff =
         [250; 17; 60000 / 240; 60000 mod 240; 275 / 240; 275 mod 240;
          0 / 240; 0 mod 240;
          xor_all [17; 60000 / 240; 60000 mod 240; 275 / 240; 275 mod 240;
                   0 / 240; 0 mod 240] mod 240;
          248]
       ∧ r.1 = Ret ()
       ∧ written (port r.2) = written (port w) ++ [buff])
  ∧ (57600 < 60000 ∨ 57600 < 275 →
     r = (Raise ValueError, logged DEBUG "Sending request" w)).
Proof.
  apply (discharge_cp_request 6000%float 2.75%float 0 60000 275
           (world_at DeviceState.monitoring []));
    first [reflexivity | lia].
Defined.

(** X19. The request of the six charge operations, which all run
    [_charge_generic] with their own command code.  In state monitoring on
    an open port, with a current that is not negative, at least one cell
    and a duration in 0..999: [p1 = int(current * 1000)], [p2 = nb_cells],
    [p3 = max_duration].  With p1 and the cell count at most 57600 the one
    buffer written is the frame of the operation's command code; otherwise
    [ValueError] is raised and nothing is written.  [charge_cv] sends
    command code 120. *)
Theorem charge_request (req_code : ReqCode.t) (current : float)
    (nb_cells max_duration p1 : Z) (w : World) :
  is_open (port w) = true →
  device_state (zk w) = DeviceState.monitoring →
  Py.lt_float_int current 0 = false →
  1 ≤ nb_cells →
  0 ≤ max_duration ≤ 999 →
  Py.int_of_float (Py.mul_float_int current 1000) = Ret p1 →
  let r := Zketech._charge_generic req_code current nb_cells max_duration w in
  0 ≤ p1
  ∧ (p1 ≤ 57600 → nb_cells ≤ 57600 →
     ∃ buff,
       encode req_code p1 nb_cells max_duration w = (Ret buff, w)
       ∧ b2z <$> buff =
         [250; ReqCode.value req_code; p1 / 240; p1 mod 240;
          nb_cells / 240; nb_cells mod 240;
          max_duration / 240; max_duration mod 240;
          xor_all [ReqCode.value req_code; p1 / 240; p1 mod 240;
                   nb_cells / 240; nb_cells mod 240;
                   max_duration / 240; max_duration mod 240] mod 240;
          248]
       ∧ r.1 = Ret ()
       ∧ written (port r.2) = written (port w) ++ [buff])
  ∧ (57600 < p1 ∨ 57600 < nb_cells →
     r = (Raise ValueError, logged DEBUG "Sending request" w))
  ∧ Zketech.charge_nimh = Zketech._charge_generic ReqCode.start_c_nimh
  ∧ Zketech.charge_nicd = Zketech._charge_generic ReqCode.start_c_nicd
  ∧ Zketech.charge_liion = Zketech._charge_generic ReqCode.start_c_liion
  ∧ Zketech.charge_life = Zketech._charge_generic ReqCode.start_c_life
  ∧ Zketech.charge_vrla = Zketech._charge_generic ReqCode.start_c_vrla
  ∧ Zketech.charge_cv = Zketech._charge_generic ReqCode.start_c_cv
  ∧ ReqCode.value ReqCode.start_c_cv = 120.
Proof.
  intros Ho Hs Hc Hn Hd H1 r.
  assert (0 ≤ p1) as R1
    by (by apply (int_of_product_nonneg current 1000 p1 finite_scale_1000)).
  assert (r = Zketech.send_request req_code p1 nb_cells max_duration
                (logged DEBUG "Sending request" w)) as ->.
  { subst r. unfold Zketech._charge_generic. repeat (progress munfold).
    cbn [zk]. rewrite Hs, Hc, H1.
    replace (nb_cells <? 1) with false by lia.
    replace (max_duration <? 0) with false by lia.
    replace (999 <? max_duration) with false by lia. reflexivity. }
  split; [done|].
  destruct (test_request_sent req_code p1 nb_cells max_duration w Ho R1
              ltac:(lia) Hd) as [Hin Hout].
  repeat split; try done.
Qed.

Lemma charge_request_witness :
  let w := world_at DeviceState.monitoring [] in
  let r := Zketech._charge_generic ReqCode.start_c_liion 0.5%float 2 0 w in
  ∃ buff,
    encode ReqCode.start_c_liion 500 2 0 w = (Ret buff, w)
    ∧ r.1 = Ret ()
    ∧ written (port r.2) = written (port w) ++ [buff].
Proof.
  intros w r.
  destruct (charge_request ReqCode.start_c_liion 0.5%float 2 0 500
              (world_at DeviceState.monitoring [])
              eq_refl eq_refl eq_refl ltac:(lia) ltac:(lia) eq_refl)
    as (_ & H & _).
  destruct (H ltac:(lia) ltac:(lia)) as (buff & He & _ & Hr & Hw).
  exists buff. split; [exact He|]. split; [exact Hr|exact Hw].
Defined.

(** A value that is not a number, or is +infinity, is not below zero, and
    its product by a positive constant cannot be converted. *)
Lemma not_a_number (x : float) (n : Z) :
  (∃ m e, Prim2SF (Py.float_of_int n) = S754_finite false m e) →
  Prim2SF x = S754_nan →
  Py.lt_float_int x 0 = false
  ∧ Py.int_of_float (Py.mul_float_int x n) = Raise ValueError.
Proof.
  intros (m & e & Hn) Hx. split.
  - unfold Py.lt_float_int. by rewrite ltb_spec, Hx.
  - unfold Py.int_of_float, Py.mul_float_int.
    by rewrite mul_spec, Hx, Hn.
Qed.

Lemma plus_infinity (x : float) (n : Z) :
  (∃ m e, Prim2SF (Py.float_of_int n) = S754_finite false m e) →
  Prim2SF x = S754_infinity false →
  Py.lt_float_int x 0 = false
  ∧ Py.int_of_float (Py.mul_float_int x n) = Raise OverflowError.
Proof.
  intros (m & e & Hn) Hx. split.
  - unfold Py.lt_float_int. rewrite ltb_spec, Hx.
    by change (Prim2SF (Py.float_of_int 0)) with (S754_zero false).
  - unfold Py.int_of_float, Py.mul_float_int.
    by rewrite mul_spec, Hx, Hn.
Qed.

(** X20. Values that are not finite pass the parameter checks.  In state
    monitoring, with the other arguments valid, [discharge_cc] called with
    a current that is not a number is not stopped by the test
    [current < 0]: it fails in [int(current * 1000)] with [ValueError];
    with a current of +infinity it fails there with [OverflowError].  In
    both cases nothing is logged or written and the session is as
    before. *)
Theorem discharge_cc_not_finite (current cutoff_voltage : float)
    (max_duration : Z) (w : World) :
  device_state (zk w) = DeviceState.monitoring →
  Py.lt_float_int cutoff_voltage 0 = false →
  0 ≤ max_duration ≤ 999 →
  (Prim2SF current = S754_nan →
   out_of_range (DischargeCC current cutoff_voltage max_duration) = false
   ∧ Zketech.discharge_cc current cutoff_voltage max_duration w
     = (Raise ValueError, w))
  ∧ (Prim2SF current = S754_infinity false →
     out_of_range (DischargeCC current cutoff_voltage max_duration) = false
     ∧ Zketech.discharge_cc current cutoff_voltage max_duration w
       = (Raise OverflowError, w)).
Proof.
  intros Hs Hv Hd.
  assert ((max_duration <? 0) = false) as Hd1 by lia.
  assert ((999 <? max_duration) = false) as Hd2 by lia.
  split; intros Hx.
  - destruct (not_a_number current 1000 finite_scale_1000 Hx) as [Hlt Hint].
    split; [cbn [out_of_range]; by rewrite Hlt, Hv, Hd1, Hd2|].
    unfold Zketech.discharge_cc. repeat (progress munfold). cbn [zk].
    by rewrite Hs, Hlt, Hv, Hd1, Hd2, Hint.
  - destruct (plus_infinity current 1000 finite_scale_1000 Hx) as [Hlt Hint].
    split; [cbn [out_of_range]; by rewrite Hlt, Hv, Hd1, Hd2|].
    unfold Zketech.discharge_cc. repeat (progress munfold). cbn [zk].
    by rewrite Hs, Hlt, Hv, Hd1, Hd2, Hint.
Qed.

Lemma discharge_cc_not_finite_witness :
  let w := world_at DeviceState.monitoring [] in
  Zketech.discharge_cc nan 2.75%float 0 w = (Raise ValueError, w)
  ∧ Zketech.discharge_cc infinity 2.75%float 0 w = (Raise OverflowError, w).
Proof.
  intros w.
  destruct (discharge_cc_not_finite nan 2.75%float 0 w eq_refl eq_refl
              ltac:(lia)) as [H _].
  destruct (discharge_cc_not_finite infinity 2.75%float 0 w eq_refl eq_refl
              ltac:(lia)) as [_ H'].
  split; [exact (proj2 (H eq_refl))|exact (proj2 (H' eq_refl))].
Defined.

(** X21. A closed port.  With the port closed and the required state met,
    [start_device] logs its debug line, sets the state to disconnected and
    returns; nothing is written and the parameters are never looked at.
    [measure_resistance] and [calibrate_voltage] go the same way and then
    fail in [reset_input_buffer] with the [PortNotOpenError] of the serial
    port, which they do not catch. *)
Theorem closed_port (w : World) :
  is_open (port w) = false →
  let gone :=
    mkWorld (mkSession DeviceState.disconnected (prog_state (zk w))
               (part_number (zk w)))
      (port w) (logger w ++ [LogRecord DEBUG "Sending request"]) in
  (device_state (zk w) = DeviceState.idle →
   Zketech.start_device w = (Ret (), gone))
  ∧ (device_state (zk w) = DeviceState.monitoring →
     (∀ current, 0 ≤ current ≤ 30000 →
        Zketech.measure_resistance current w = (Raise PortNotOpenError, gone))
     ∧ (∀ voltage level raw,
          Py.lt_float_int voltage 0 = false →
          Zketech.is_level level = true →
          Py.int_of_float (Py.mul_float_int voltage 1000) = Ret raw →
          Zketech.calibrate_voltage voltage level w
          = (Raise PortNotOpenError, gone))).
Proof.
  intros Ho gone.
  assert (∀ c p1 p2 p3,
            Zketech.send_request c p1 p2 p3 (logged DEBUG "Sending request" w)
            = (Ret (), gone)) as Hsend.
  { intros. by rewrite send_request_closed. }
  assert (SerialPort.reset_input_buffer gone = (Raise PortNotOpenError, gone))
    as Hreset by (by apply reset_input_buffer_closed).
  split; [|intros H; split].
  - intros Hs. unfold Zketech.start_device. repeat (progress munfold).
    cbn [zk]. rewrite Hs. apply Hsend.
  - intros current Hc. unfold Zketech.measure_resistance.
    rewrite bind_run. unfold get_session at 1. rewrite H.
    change (negb (DeviceState.eqb DeviceState.monitoring DeviceState.monitoring))
      with false. cbv iota.
    replace (current <? 0) with false by lia.
    replace (30000 <? current) with false by lia. cbv zeta.
    rewrite bind_run. unfold debug at 1, log at 1. fold (logged DEBUG "Sending request" w).
    rewrite bind_run, Hsend, bind_run, Hreset. reflexivity.
  - intros voltage level raw Hv Hl Hraw. unfold Zketech.calibrate_voltage.
    rewrite bind_run. unfold get_session at 1. rewrite H.
    change (negb (DeviceState.eqb DeviceState.monitoring DeviceState.monitoring))
      with false. cbv iota. rewrite Hv, Hl. cbn [negb].
    rewrite bind_run. unfold lift at 1. rewrite Hraw. cbv zeta.
    rewrite bind_run. unfold debug at 1, log at 1. fold (logged DEBUG "Sending request" w).
    rewrite bind_run, Hsend, Hreset. reflexivity.
Qed.

Lemma closed_port_witness :
  let w := mkWorld (mkSession DeviceState.monitoring None None)
             (mkSerial false [] [] []) [] in
  Zketech.measure_resistance 1000 w =
  (Raise PortNotOpenError,
   mkWorld (mkSession DeviceState.disconnected None None)
     (mkSerial false [] [] []) [LogRecord DEBUG "Sending request"]).
Proof.
  intros w.
  apply (proj1 (proj2 (closed_port w eq_refl) eq_refl) 1000). lia.
Defined.




(** ** The safety watcher *)

Lemma update_without_minimum (self : SafetyWatcher.t) (resp : ResponseDataSet.t) :
  Py.truthy (SafetyWatcher.min_current self) = false →
  let self' := (SafetyWatcher.update self resp).2 in
  Py.truthy (SafetyWatcher.min_current self') = false
  ∧ SafetyWatcher.last_voltage self' = SafetyWatcher.last_voltage self
  ∧ SafetyWatcher.last_current self' = SafetyWatcher.last_current self
  ∧ SafetyWatcher.check self' = false.
Proof.
  intros H. unfold SafetyWatcher.update.
  destruct (negb (String.eqb _ "testing")).
  - cbn. repeat split.
    unfold SafetyWatcher.check, SafetyWatcher.check_charging_current_increase.
    cbn. by destruct (negb (Py.truthy _)).
  - rewrite H. cbn [negb]. rewrite orb_true_r. cbn [snd].
    repeat split; [done|].
    unfold SafetyWatcher.check, SafetyWatcher.check_charging_current_increase.
    rewrite H. cbn [negb]. by destruct (negb (Py.truthy _)).
Qed.

(** X23. The watcher never arms itself.  [update] never returns [False]:
    the branch that would adopt the first sample as the minima cannot be
    reached, because the guard before it returns whenever a minimum is
    missing.  So a watcher without a current minimum ([None] or 0.0) keeps
    being without one, never records a last voltage or current, and
    [check] answers [False] after every response, whatever the responses
    are. *)
Theorem watcher_never_arms (self : SafetyWatcher.t) :
  (∀ resp, (SafetyWatcher.update self resp).1 = None)
  ∧ (Py.truthy (SafetyWatcher.min_current self) = false →
     (∀ resp,
        let self' := (SafetyWatcher.update self resp).2 in
        Py.truthy (SafetyWatcher.min_current self') = false
        ∧ SafetyWatcher.last_voltage self' = SafetyWatcher.last_voltage self
        ∧ SafetyWatcher.last_current self' = SafetyWatcher.last_current self)
     ∧ ∀ resps,
         SafetyWatcher.watch self resps = replicate (length resps) false).
Proof.
  split.
  - intros resp. unfold SafetyWatcher.update.
    destruct (negb (String.eqb _ "testing")); [done|].
    destruct (Py.truthy (SafetyWatcher.min_voltage self)) eqn:Ev; [|done].
    destruct (Py.truthy (SafetyWatcher.min_current self)) eqn:Ec; [|done].
    cbn [negb orb SafetyWatcher.min_voltage SafetyWatcher.min_current
         SafetyWatcher.last_voltage SafetyWatcher.last_current].
    rewrite Ev, Ec. cbn [negb andb].
    destruct (SafetyWatcher.min_voltage self), (SafetyWatcher.min_current self);
      done.
  - intros H. split.
    + intros resp.
      destruct (update_without_minimum self resp H) as (H1 & H2 & H3 & _).
      done.
    + intros resps. revert self H.
      induction resps as [|resp resps IH]; intros self H; [done|].
      destruct (update_without_minimum self resp H) as (H1 & _ & _ & H4).
      cbn [SafetyWatcher.watch length replicate]. cbv zeta.
      cbv zeta in H1, H4. rewrite H4. f_equal. by apply IH.
Qed.

Lemma watcher_never_arms_witness :
  SafetyWatcher.watch (SafetyWatcher.mk (Some 4.5%float) (Some 0%float) None None)
    [sample 1000; sample 2000]
  = [false; false].
Proof.
  apply (proj2 (proj2 (watcher_never_arms
                         (SafetyWatcher.mk (Some 4.5%float) (Some 0%float)
                            None None)) eq_refl)
           [sample 1000; sample 2000]).
Defined.

(** ** The polling loops *)

(** A descriptor is only returned with the state its status leads to. *)
Lemma read_response_some (w : World) (data : ResponseDataSet.t) :
  (Zketech.read_response w).1 = Ret (Some data) →
  device_state (zk (Zketech.read_response w).2)
  = session_state_of (ResponseDataSet.state_code data).
Proof.
  destruct (is_open (port w)) eqn:Ho.
  - destruct (next_read (port w)) as [|b buff] eqn:En.
    { by rewrite (read_response_zero w Ho En). }
    destruct (check_buffer_validity_cases (b :: buff) w) as [Hok|[msg Hbad]].
    + assert ((check_buffer_validity (b :: buff) w).1 = Ret true) as Hv
        by by rewrite Hok.
      destruct (accepted_10_or_19 _ _ Hv) as [L|L].
      * by rewrite (read_response_struct_error w Ho); rewrite ?En.
      * destruct (length_19 _ L) as (b0 & b1 & b2 & b3 & b4 & b5 & b6 & b7 & b8
          & b9 & b10 & b11 & b12 & b13 & b14 & b15 & b16 & b17 & b18 & E).
        rewrite E in En, Hv.
        destruct (read_response_accepted b0 b1 b2 b3 b4 b5 b6 b7 b8 b9 b10 b11
                    b12 b13 b14 b15 b16 b17 b18 w Ho En Hv)
          as (data' & prog & _ & _ & Hr).
        rewrite Hr. cbn [fst snd zk device_state]. by intros [= ->].
    + assert ((check_buffer_validity (b :: buff) w).1 = Ret false) as Hv
        by by rewrite Hbad.
      destruct (read_response_rejected w Ho) as (l & Hr); rewrite ?En; try done.
      by rewrite Hr.
  - by rewrite (read_response_closed w Ho).
Qed.





(** X25. When the loops return.  A turn ends [ContinuousRead] when the
    read leaves the state disconnected or idle, and
    [ContinuousReadDuringTest] when it leaves it disconnected, idle or
    monitoring.  So both return after a single read, with the watcher
    untouched, on a closed port and on an open port where nothing
    arrives; [ContinuousReadDuringTest] also returns at once on a response
    whose status is neither testing nor ending. *)
Theorem loops_return (fuel : nat) (sw : SafetyWatcher.t) (w : World) :
  let r := Zketech.read_response w in
  (is_open (port w) = false ∨ (is_open (port w) = true ∧ next_read (port w) = []) →
   ContinuousRead.init (S fuel) sw w = (Ret (Some sw), r.2)
   ∧ ContinuousReadDuringTest.init (S fuel) sw w = (Ret (Some sw), r.2))
  ∧ (∀ data,
       r.1 = Ret (Some data) →
       ResponseDataSet.state_code data ≠ StateCode.testing →
       ResponseDataSet.state_code data ≠ StateCode.ending →
       ContinuousReadDuringTest.init (S fuel) sw w = (Ret (Some sw), r.2)).
Proof.
  cbv zeta. split.
  - intros H.
    assert (∃ s lg p, Zketech.read_response w = (Ret None, mkWorld s p lg)
                      ∧ (device_state s = DeviceState.disconnected
                         ∨ device_state s = DeviceState.idle))
      as (s & lg & p & Hr & Hs).
    { destruct H as [Ho|[Ho Hn]].
      - rewrite (read_response_closed w Ho). eexists _, _, _. split; [done|].
        by left.
      - rewrite (read_response_zero w Ho Hn). eexists _, _, _. split; [done|].
        by right. }
    cbn [ContinuousRead.init ContinuousReadDuringTest.init].
    unfold ContinuousRead.turn, ContinuousReadDuringTest.turn.
    rewrite !bind_run, Hr. cbn [snd].
    rewrite ?bind_run. unfold get_session. cbn [zk].
    by destruct Hs as [-> | ->].
  - intros data Hd Ht He.
    pose proof (read_response_some w data Hd) as Hs.
    cbn [ContinuousReadDuringTest.init].
    unfold ContinuousReadDuringTest.turn.
    rewrite !bind_run.
    destruct (Zketech.read_response w) as [r1 w1]. cbn [fst snd] in *.
    subst r1. rewrite ?bind_run. unfold get_session. rewrite Hs.
    by destruct (ResponseDataSet.state_code data).
Qed.

Lemma loops_return_witness :
  let w := world_at DeviceState.testing [] in
  ContinuousRead.init 1 SafetyWatcher.fresh w
  = (Ret (Some SafetyWatcher.fresh), (Zketech.read_response w).2)
  ∧ ContinuousReadDuringTest.init 1 SafetyWatcher.fresh w
    = (Ret (Some SafetyWatcher.fresh), (Zketech.read_response w).2).
Proof.
  intros w.
  apply (proj1 (loops_return 0 SafetyWatcher.fresh w)).
  right. split; reflexivity.
Defined.
